(** * LangDocMAUS: re-timing of ELAN documents imported from Toolbox

    A shallow embedding of the two scripts that repair the timing structure
    of an ELAN document,

      - [flexibilize_imported_toolbox_in_elan.py]  (module [Flexibilize]),
      - [import_wordtimes_from_toolbox_to_elan.py] (module [ImportWordtimes]),

    together with the properties of them that the design document states.

    Conventions of the embedding.  A Python [dict] is a [gmap]; a Python
    list is a [list]; [None] is [None] of an [option].  A run of a script
    ends in one of four ways, see [result].  Integers are [Z]; the one
    place where the scripts use Python's true division the values are
    rationals ([Q]), the exact counterpart of the floating-point result. *)

From Stdlib Require Import ZArith QArith Ascii String List Lia.
From Stdlib Require Import DecimalString DecimalZ.
From stdpp Require Import base option list sorting strings gmap fin_maps.

#[local] Open Scope Z_scope.

(** ** How a run ends *)

(** [Ok a]: the code ran to its end.  [Exit msg]: the script printed [msg]
    and called [sys.exit()].  [Raise msg]: an exception that nothing
    catches ([RuntimeError], [TypeError], [KeyError], ...).  [Diverged]:
    the bounded unrolling of a [while] loop used up its fuel. *)
Inductive result (A : Type) : Type :=
  | Ok (a : A)
  | Exit (msg : string)
  | Raise (msg : string)
  | Diverged.
Arguments Ok {A} a.
Arguments Exit {A} msg.
Arguments Raise {A} msg.
Arguments Diverged {A}.

Definition rbind {A B} (r : result A) (k : A -> result B) : result B :=
  match r with
  | Ok a => k a
  | Exit m => Exit m
  | Raise m => Raise m
  | Diverged => Diverged
  end.

Notation "'let*' x ':=' c1 'in' c2" := (rbind c1 (fun x => c2))
  (at level 10, x pattern, c1 at level 100, c2 at level 200).

(** A [for] loop whose body may end the run. *)
Fixpoint for_each {A S} (body : A -> S -> result S) (l : list A) (s : S)
  : result S :=
  match l with
  | [] => Ok s
  | x :: l' => let* s' := body x s in for_each body l' s'
  end.

Definition rmap {A B} (f : A -> B) (r : result A) : result B :=
  let* a := r in Ok (f a).


(** [d[k]] for a key that must be there. *)
Definition key_error {A} (o : option A) : result A :=
  match o with
  | Some a => Ok a
  | None => Raise "KeyError"
  end.

(** An object that must be there; a method called on [None] raises
    [AttributeError]. *)
Definition attribute_error {A} (o : option A) : result A :=
  match o with
  | Some a => Ok a
  | None => Raise "AttributeError"
  end.

(** [d[k].append(x)] where [k] is in [d], [d[k] = [x]] where it is not. *)
Definition append_at {A} (k : string) (x : A) (d : gmap string (list A))
  : gmap string (list A) :=
  match d !! k with
  | Some l => <[k := l ++ [x]]> d
  | None => <[k := [x]]> d
  end.

(** ** The pieces of Python the scripts use *)

Module Py.

(** [int(s)] on a string: an optional minus sign and at least one ASCII
    digit; anything else is a [ValueError].  (Python also takes a plus
    sign, surrounding blanks and underscores; the identifiers and time
    strings of the documents at hand have none.) *)
Definition int (s : string) : option Z :=
  option_map Z.of_int (NilZero.int_of_string s).

(** [str(n)] on an integer. *)
Definition str (n : Z) : string :=
  NilZero.string_of_int (Z.to_int n).

(** [re.sub("^" + p, "", s)] for a literal [p]: drop [p] where [s]
    starts with it. *)
Fixpoint strip_prefix (p s : string) : option string :=
  match p with
  | EmptyString => Some s
  | String c p' =>
      match s with
      | EmptyString => None
      | String d s' => if Ascii.eqb c d then strip_prefix p' s' else None
      end
  end.

Definition sub_prefix (p s : string) : string :=
  match strip_prefix p s with
  | Some s' => s'
  | None => s
  end.

(** [re.sub(r"\.", "", s)]: every dot is deleted. *)
Fixpoint sub_dots (s : string) : string :=
  match s with
  | EmptyString => EmptyString
  | String c s' =>
      if Ascii.eqb c "." then sub_dots s' else String c (sub_dots s')
  end.

(** The characters that [str.strip()], [str.split()] and the pattern
    [\s] take for blanks, within ASCII: 9..13, 28..31 and the space. *)
Definition isspace (c : ascii) : bool :=
  let n := nat_of_ascii c in
  ((9 <=? n)%nat && (n <=? 13)%nat) || ((28 <=? n)%nat && (n <=? 32)%nat).

Fixpoint lstrip (s : string) : string :=
  match s with
  | EmptyString => EmptyString
  | String c s' => if isspace c then lstrip s' else s
  end.

(** [rstrip] drops the blanks that only blanks follow. *)
Fixpoint rstrip (s : string) : string :=
  match s with
  | EmptyString => EmptyString
  | String c s' =>
      match rstrip s' with
      | EmptyString => if isspace c then EmptyString else String c EmptyString
      | r => String c r
      end
  end.

Definition strip (s : string) : string := rstrip (lstrip s).

(** [s.split()]: the maximal runs of non-blank characters.  [cur] holds
    the run being read, in reverse. *)
Fixpoint split_aux (cur : list ascii) (s : string) : list string :=
  let flush (k : list string) :=
    match cur with
    | [] => k
    | _ => string_of_list_ascii (rev cur) :: k
    end in
  match s with
  | EmptyString => flush []
  | String c s' =>
      if isspace c then flush (split_aux [] s') else split_aux (c :: cur) s'
  end.

Definition split (s : string) : list string := split_aux [] s.

End Py.

(** ** The ELAN document

    The parser of ELAN files behind [import elan] is a library of its own
    and no part of these scripts.  The scripts use it as a bag of objects:
    linguistic types, tiers, annotations and a time order of time slots.
    Annotations are objects that several places hold (a tier, the result of
    [get_annotation_by_id]) and that the scripts change in place, so the
    document keeps them in one store, by id, and a tier lists ids. *)

Module Elan.

(** Modelled from the spec: a linguistic type, with the constraint
    ([get_constraints()], ["Included_In"] for one) and
    [is_time_alignable()]. *)
Record LinguisticType := {
  linguistic_type_id : string;
  constraints : option string;
  time_alignable : bool }.

(** Modelled from the spec: an annotation, with its id, its value and
    the ids of its start and end time slot. *)
Record Annotation := {
  annotation_id : string;
  annotation_value : string;
  start_time_slot : string;
  end_time_slot : string }.

#[global] Instance Annotation_eq_dec : EqDecision Annotation.
Proof. solve_decision. Defined.

(** Modelled from the spec: a tier, with its id, the id of its
    linguistic type, the id of its parent tier if it has one, and its
    annotations in document order. *)
Record Tier := {
  tier_id : string;
  linguistic_type : string;
  parent_tier_ref : option string;
  tier_annotations : list string }.

(** Modelled from the spec: a time order, the time slots in document
    order, each with its id and the time value it may carry.  [V] is the
    type of time values. *)
Definition TimeOrder (V : Type) : Type := list (string * option V).

(** Modelled from the spec: the document. *)
Record ELANFile (V : Type) := {
  linguistic_types : list LinguisticType;
  tiers : list Tier;
  annotation_store : gmap string Annotation;
  time_order : TimeOrder V }.
Arguments linguistic_types {V} _.
Arguments tiers {V} _.
Arguments annotation_store {V} _.
Arguments time_order {V} _.

(** Modelled from the spec: [get_tier_by_id], the tier of that id, the
    first one if several have it. *)
Definition get_tier_by_id (ts : list Tier) (id : string) : option Tier :=
  find (fun t => String.eqb (tier_id t) id) ts.

(** Modelled from the spec: [time_order.get_time_slot_by_id(id)] followed
    by [get_time_value()]; [None] when the slot has no value (or is not in
    the time order). *)
Fixpoint get_time_value {V} (order : TimeOrder V) (id : string) : option V :=
  match order with
  | [] => None
  | (i, v) :: order' =>
      if String.eqb i id then v else get_time_value order' id
  end.

(** Whether [get_time_slot_by_id] finds a slot. *)
Fixpoint has_time_slot {V} (order : TimeOrder V) (id : string) : bool :=
  match order with
  | [] => false
  | (i, _) :: order' => String.eqb i id || has_time_slot order' id
  end.

(** Modelled from the spec: [time_order.get_time_slot_by_id(id)] followed
    by [set_time_value(v)]: the slot object found is changed in place. *)
Fixpoint set_time_value {V} (order : TimeOrder V) (id : string) (v : V)
  : TimeOrder V :=
  match order with
  | [] => []
  | (i, w) :: order' =>
      if String.eqb i id then (i, Some v) :: order'
      else (i, w) :: set_time_value order' id v
  end.

(** Modelled from the spec: [annotation.get_start_time()] and
    [annotation.get_end_time()], the time values of the two time slots of
    the annotation. *)
Definition get_start_time {V} (order : TimeOrder V) (a : Annotation)
  : option V := get_time_value order (start_time_slot a).

Definition get_end_time {V} (order : TimeOrder V) (a : Annotation)
  : option V := get_time_value order (end_time_slot a).

(** Modelled from the spec: [set_start_time_slot] and
    [set_end_time_slot]. *)
Definition set_start_time_slot (a : Annotation) (id : string) : Annotation :=
  {| annotation_id := annotation_id a;
     annotation_value := annotation_value a;
     start_time_slot := id;
     end_time_slot := end_time_slot a |}.

Definition set_end_time_slot (a : Annotation) (id : string) : Annotation :=
  {| annotation_id := annotation_id a;
     annotation_value := annotation_value a;
     start_time_slot := start_time_slot a;
     end_time_slot := id |}.

(** Modelled from the spec: [get_annotation_by_id]. *)
Definition get_annotation_by_id (store : gmap string Annotation) (id : string)
  : result Annotation := attribute_error (store !! id).

(** Modelled from the spec: [tier.get_annotations()], and the iteration
    over a tier: its annotation objects in document order. *)
Fixpoint get_annotations_by_ids (store : gmap string Annotation)
    (ids : list string) : result (list Annotation) :=
  match ids with
  | [] => Ok []
  | id :: ids' =>
      let* a := get_annotation_by_id store id in
      let* l := get_annotations_by_ids store ids' in
      Ok (a :: l)
  end.

Definition get_annotations (store : gmap string Annotation) (t : Tier)
  : result (list Annotation) :=
  get_annotations_by_ids store (tier_annotations t).

End Elan.

(** ** import_wordtimes_from_toolbox_to_elan.py *)

Module ImportWordtimes.
Import Elan.

(** The tier names of the command line, with their defaults. *)
Record Args := {
  reference_tier_name : string;
  text_tier_name : string;
  word_start_tier_name : string;
  word_end_tier_name : string }.

Definition default_args : Args :=
  {| reference_tier_name := "ref";
     text_tier_name := "t";
     word_start_tier_name := "WordBegin";
     word_end_tier_name := "WordEnd" |}.

(** A Toolbox line as [readToolboxFile] returns it: the tier marker if the
    line has one, the line, its line ending. *)
Definition ToolboxLine : Type := option string * string * string.

(** *** The pattern [tier_contents_re]

    ["^" + r"\\(\S+)\s+(.+)$"], searched in a line; the result is group 2
    of the match.  [dot_plus_eol s] matches [(.+)$] at the start of [s]:
    the dot takes no line feed, and [$] holds at the end of the string
    or before a line feed that ends it. *)
Fixpoint until_newline (s : string) : string * string :=
  match s with
  | EmptyString => (EmptyString, EmptyString)
  | String c s' =>
      if Ascii.eqb c "010" then (EmptyString, s)
      else let '(g, tl) := until_newline s' in (String c g, tl)
  end.

Definition dot_plus_eol (s : string) : option string :=
  let '(g, tl) := until_newline s in
  match g with
  | EmptyString => None
  | _ => if String.eqb tl "" || String.eqb tl (String "010" "")
         then Some g else None
  end.

(** [\s+(.+)$] at the start of [s]: [\s+] is greedy, so a longer run of
    blanks is tried before the match of [(.+)$] right here. *)
Fixpoint blanks_then_contents (s : string) : option string :=
  match s with
  | EmptyString => None
  | String c s' =>
      if Py.isspace c then
        match blanks_then_contents s' with
        | Some g => Some g
        | None => dot_plus_eol s'
        end
      else None
  end.

(** [\S+] and what follows it: the run of non-blanks cannot stop early,
    since a blank has to come next. *)
Fixpoint after_marker (seen : bool) (s : string) : option string :=
  match s with
  | EmptyString => None
  | String c s' =>
      if Py.isspace c then (if seen then blanks_then_contents s else None)
      else after_marker true s'
  end.

Definition tier_contents_re (line : string) : option string :=
  match line with
  | String "\" s => after_marker false s
  | _ => None
  end.

(** *** readToolboxFile

    The pattern [tier_marker_re], ["^" + r"\\(\S+)(?=($|\s+))"], searched
    in a line; the result is group 1 of the match: the run of non-blanks
    after the backslash, which the end of the line or a blank follows in
    any case. *)
Fixpoint non_blanks (s : string) : string :=
  match s with
  | EmptyString => EmptyString
  | String c s' => if Py.isspace c then EmptyString else String c (non_blanks s')
  end.

Definition tier_marker_re (line : string) : option string :=
  match line with
  | String "\" s =>
      match non_blanks s with
      | EmptyString => None
      | m => Some m
      end
  | _ => None
  end.

(** The pattern [line_ending_re], [r"([\r\n]+)$"], searched in a line; the
    result is group 1 of the leftmost match, the carriage returns and
    line feeds that the line ends with. *)
Definition is_line_end (c : ascii) : bool :=
  Ascii.eqb c "013" || Ascii.eqb c "010".

Fixpoint line_ending_re (s : string) : string :=
  match s with
  | EmptyString => EmptyString
  | String c s' =>
      let e := line_ending_re s' in
      if is_line_end c && String.eqb e s' then s else e
  end.

(** The body of [for line in toolbox_file]: no match of [tier_marker_re]
    leaves the marker [None], no match of [line_ending_re] the line
    ending empty. *)
Definition read_line (line : string) : ToolboxLine :=
  (tier_marker_re line, line, line_ending_re line).

(** [readToolboxFile], from the lines that the file gives one after the
    other. *)
Definition readToolboxFile (lines : list string) : list ToolboxLine :=
  map read_line lines.

(** *** extractWordTimes *)

Record Extract := {
  toolbox_refs_to_word_times : gmap string (list string * list string);
  cur_utterance_id : option string;
  cur_word_start_times : list string;
  cur_word_end_times : list string }.

(** "Save current word start and end times": the block that stands both
    at a reference line and after the loop. *)
Definition save_current (st : Extract) : Extract :=
  match cur_utterance_id st with
  | Some u =>
      if (0 <? length (cur_word_start_times st))%nat
         && (0 <? length (cur_word_end_times st))%nat
      then {| toolbox_refs_to_word_times :=
                <[u := (cur_word_start_times st, cur_word_end_times st)]>
                  (toolbox_refs_to_word_times st);
              cur_utterance_id := None;
              cur_word_start_times := [];
              cur_word_end_times := [] |}
      else st  (* only the warning is printed *)
  | None => st
  end.

Definition marker_is (m : option string) (name : string) : bool :=
  match m with
  | Some x => String.eqb x name
  | None => false
  end.

Definition extract_line (args : Args) (line : ToolboxLine) (st : Extract)
  : result Extract :=
  let '(cur_toolbox_marker, cur_line, _) := line in
  if marker_is cur_toolbox_marker (reference_tier_name args) then
    let st := save_current st in
    match tier_contents_re cur_line with
    | Some g =>
        Ok {| toolbox_refs_to_word_times := toolbox_refs_to_word_times st;
              cur_utterance_id := Some (Py.strip g);
              cur_word_start_times := cur_word_start_times st;
              cur_word_end_times := cur_word_end_times st |}
    | None =>
        Exit "Something is wrong. I cannot extract the reference from the reference tier"
    end
  else if marker_is cur_toolbox_marker (word_start_tier_name args) then
    match tier_contents_re cur_line with
    | Some g =>
        Ok {| toolbox_refs_to_word_times := toolbox_refs_to_word_times st;
              cur_utterance_id := cur_utterance_id st;
              cur_word_start_times :=
                cur_word_start_times st ++ Py.split (Py.strip g);
              cur_word_end_times := cur_word_end_times st |}
    | None =>
        Exit "Something is wrong. I cannot extract the word start times from the tier"
    end
  else if marker_is cur_toolbox_marker (word_end_tier_name args) then
    match tier_contents_re cur_line with
    | Some g =>
        Ok {| toolbox_refs_to_word_times := toolbox_refs_to_word_times st;
              cur_utterance_id := cur_utterance_id st;
              cur_word_start_times := cur_word_start_times st;
              cur_word_end_times :=
                cur_word_end_times st ++ Py.split (Py.strip g) |}
    | None =>
        Exit "Something is wrong. I cannot extract the word start times from the tier"
    end
  else Ok st.

Definition extract_init : Extract :=
  {| toolbox_refs_to_word_times := ∅;
     cur_utterance_id := None;
     cur_word_start_times := [];
     cur_word_end_times := [] |}.

Definition extractWordTimes (args : Args) (toolbox_file : list ToolboxLine)
  : result (gmap string (list string * list string)) :=
  let* st := for_each (extract_line args) toolbox_file extract_init in
  Ok (toolbox_refs_to_word_times (save_current st)).

(** *** The conversion of a time of the Toolbox file

    [int(re.sub(r"\.", "", t))]: seconds to milliseconds "by deleting the
    dot". *)
Definition to_milliseconds (t : string) : option Z :=
  Py.int (Py.sub_dots t).

(** *** The comparisons of times

    A time that is [None] makes a comparison raise [TypeError]. *)
Definition compare_times (test : Z -> Z -> bool) (x y : option Z)
  : result bool :=
  match x, y with
  | Some a, Some b => Ok (test a b)
  | _, _ => Raise "TypeError"
  end.

(** *** Which annotation is included in which annotation unit *)

(** The variables of the script that outlive the loop that sets them: both
    passes assign [parent_annotation_id] and [parent_annotation], and the
    second pass reads them again where it finds no parent.  An unset
    variable is [None]. *)
Record Vars := {
  annotation_to_parent_annotation : gmap string string;
  parent_annotation_to_daughter_annotations : gmap string (list string);
  parent_annotation_id : option string;
  parent_annotation : option Annotation;
  parent_reference : option string;
  parent_start_time : option (option Z);
  parent_end_time : option (option Z) }.

Definition vars_init : Vars :=
  {| annotation_to_parent_annotation := ∅;
     parent_annotation_to_daughter_annotations := ∅;
     parent_annotation_id := None;
     parent_annotation := None;
     parent_reference := None;
     parent_start_time := None;
     parent_end_time := None |}.

Section Passes.

Context (args : Args).
Context (refs : gmap string (list string * list string)).
Context (store : gmap string Annotation).

(** The tiers whose linguistic type has the name of the text marker. *)
Definition relevant_tiers (ts : list Tier) : list string :=
  map tier_id
    (filter (fun t => String.eqb (linguistic_type t) (text_tier_name args) = true) ts).

(** The body of [for parent_annotation in parent_annotations]. *)
Definition try_parent (order : TimeOrder Z) (annotation : Annotation)
    (parent : Annotation) (vs : Vars) : result Vars :=
  let a2p := annotation_to_parent_annotation vs in
  let p2d := parent_annotation_to_daughter_annotations vs in
  match refs !! annotation_value parent with
  | None =>  (* continue *)
      Ok {| annotation_to_parent_annotation := a2p;
            parent_annotation_to_daughter_annotations := p2d;
            parent_annotation_id := Some (annotation_id parent);
            parent_annotation := Some parent;
            parent_reference := parent_reference vs;
            parent_start_time := parent_start_time vs;
            parent_end_time := parent_end_time vs |}
  | Some _ =>
      let p_start := get_start_time order parent in
      let p_end := get_end_time order parent in
      let* after_start := compare_times Z.geb (get_start_time order annotation) p_start in
      let* included :=
        (if after_start
         then compare_times Z.leb (get_end_time order annotation) p_end
         else Ok false) in
      Ok {| annotation_to_parent_annotation :=
              if included
              then <[annotation_id annotation := annotation_id parent]> a2p
              else a2p;
            parent_annotation_to_daughter_annotations :=
              if included
              then append_at (annotation_id parent) (annotation_id annotation) p2d
              else p2d;
            parent_annotation_id := Some (annotation_id parent);
            parent_annotation := Some parent;
            parent_reference := parent_reference vs;
            parent_start_time := Some p_start;
            parent_end_time := Some p_end |}
  end.

(** The body of [for annotation in annotations] of the first pass. *)
Definition find_parent (order : TimeOrder Z) (parent_annotations : list Annotation)
    (annotation : Annotation) (vs : Vars) : result Vars :=
  let* vs := for_each (try_parent order annotation) parent_annotations vs in
  match annotation_to_parent_annotation vs !! annotation_id annotation with
  | Some _ => Ok vs
  | None =>
      Raise ("Cannot find parent annotation of annotation "
             +:+ annotation_id annotation +:+ ".")
  end.

(** The body of [for tier_name in relevant_tiers] of the first pass. *)
Definition find_parents_in_tier (ts : list Tier) (order : TimeOrder Z)
    (tier_name : string) (vs : Vars) : result Vars :=
  let* tier := attribute_error (get_tier_by_id ts tier_name) in
  let* annotations := get_annotations store tier in
  let* parent_tier_name := attribute_error (parent_tier_ref tier) in
  let* parent_tier := attribute_error (get_tier_by_id ts parent_tier_name) in
  let* parent_annotations := get_annotations store parent_tier in
  for_each (find_parent order parent_annotations) annotations vs.

(** *** Setting the word times *)

(** [remove_ann]: [int(re.sub("^a(nn)?", "", ann_id))]. *)
Definition remove_ann (ann_id : string) : option Z :=
  Py.int (match Py.strip_prefix "a" ann_id with
          | Some s => Py.sub_prefix "nn" s
          | None => ann_id
          end).

(** [sorted(l, key=remove_ann)]: a stable sort, here by insertion; where
    [remove_ann] fails on an id the [ValueError] ends the run. *)
Fixpoint insert_by_key (x : Z * string) (l : list (Z * string))
  : list (Z * string) :=
  match l with
  | [] => [x]
  | y :: l' =>
      if fst x <=? fst y then x :: l else y :: insert_by_key x l'
  end.

Fixpoint with_keys (l : list string) : option (list (Z * string)) :=
  match l with
  | [] => Some []
  | x :: l' =>
      match remove_ann x, with_keys l' with
      | Some k, Some r => Some ((k, x) :: r)
      | _, _ => None
      end
  end.

Definition sorted_by_remove_ann (l : list string) : result (list string) :=
  match with_keys l with
  | Some kl => Ok (map snd (foldr insert_by_key [] kl))
  | None => Raise "ValueError"
  end.

(** The loop that counts up to the annotation: the number of ids that
    stand before the first occurrence of [id], the length of the list
    where there is none. *)
Fixpoint position_of (id : string) (l : list string) : nat :=
  match l with
  | [] => 0%nat
  | x :: l' => if String.eqb x id then 0%nat else S (position_of id l')
  end.

(** [time_order.get_time_slot_by_id(id).set_time_value(v)]; no such slot,
    no object to call the method on. *)
Definition set_slot (order : TimeOrder Z) (id : string) (v : Z)
  : result (TimeOrder Z) :=
  if has_time_slot order id then Ok (set_time_value order id v)
  else Raise "AttributeError".

Definition unset {A} (o : option A) : result A :=
  match o with
  | Some a => Ok a
  | None => Raise "NameError"
  end.

(** The body of [for annotation in tier] of the second pass.  The state is
    the variables and the time order, which is changed in place. *)
Definition set_word_times (annotation : Annotation)
    (st : Vars * TimeOrder Z) : result (Vars * TimeOrder Z) :=
  let '(vs, order) := st in
  let* vs :=
    match annotation_to_parent_annotation vs !! annotation_id annotation with
    | Some id =>
        let* parent := get_annotation_by_id store id in
        Ok {| annotation_to_parent_annotation := annotation_to_parent_annotation vs;
              parent_annotation_to_daughter_annotations :=
                parent_annotation_to_daughter_annotations vs;
              parent_annotation_id := Some id;
              parent_annotation := Some parent;
              parent_reference := Some (annotation_value parent);
              parent_start_time := Some (get_start_time order parent);
              parent_end_time := Some (get_end_time order parent) |}
    | None => Ok vs  (* "Cannot find the parent annotation" is printed *)
    end in
  let* id := unset (parent_annotation_id vs) in
  let* daughters :=
    key_error (parent_annotation_to_daughter_annotations vs !! id) in
  let* sorted := sorted_by_remove_ann daughters in
  let position := position_of (annotation_id annotation) sorted in
  let* reference := unset (parent_reference vs) in
  match refs !! reference with
  | Some (starts, ends) =>
      if (position <? length starts)%nat then
        let* start_string :=
          match starts !! position with
          | Some t => Ok t | None => Raise "IndexError" end in
        let* start_time :=
          match to_milliseconds start_string with
          | Some t => Ok t | None => Raise "ValueError" end in
        let* end_string :=
          match ends !! position with
          | Some t => Ok t | None => Raise "IndexError" end in
        let* end_time :=
          match to_milliseconds end_string with
          | Some t => Ok t | None => Raise "ValueError" end in
        let* p_start := unset (parent_start_time vs) in
        let* too_early := compare_times Z.ltb (Some start_time) p_start in
        let* parent := unset (parent_annotation vs) in
        let* order :=
          (if too_early
           then set_slot order (start_time_slot parent) start_time
           else Ok order) in
        let* p_end := unset (parent_end_time vs) in
        let* too_late := compare_times Z.gtb (Some end_time) p_end in
        let* order :=
          (if too_late
           then set_slot order (end_time_slot parent) end_time
           else Ok order) in
        let* order := set_slot order (start_time_slot annotation) start_time in
        let* order := set_slot order (end_time_slot annotation) end_time in
        Ok (vs, order)
      else
        Exit ("Could not determine position of word "
              +:+ annotation_value annotation +:+ " in parent unit " +:+ reference)
  | None =>
      Exit ("Could not determine annotation unit of word "
            +:+ annotation_value annotation)
  end.

(** What the second pass reads for an annotation in the dictionaries,
    which it does not change: the parent annotation and the start and end
    time of the word. *)
Definition word_times (a2p : gmap string string) (p2d : gmap string (list string))
    (annotation : Annotation) : option (Annotation * Z * Z) :=
  match a2p !! annotation_id annotation with
  | Some id =>
      match store !! id, p2d !! id with
      | Some parent, Some daughters =>
          match sorted_by_remove_ann daughters, refs !! annotation_value parent with
          | Ok sorted, Some (starts, ends) =>
              let position := position_of (annotation_id annotation) sorted in
              match starts !! position, ends !! position with
              | Some start_string, Some end_string =>
                  match to_milliseconds start_string, to_milliseconds end_string with
                  | Some start_time, Some end_time =>
                      Some (parent, start_time, end_time)
                  | _, _ => None
                  end
              | _, _ => None
              end
          | _, _ => None
          end
      | _, _ => None
      end
  | None => None
  end.

(** The start times, and the end times, that the second pass reads for
    those of the annotations whose parent annotation is [parent]. *)
Definition start_times_under (a2p : gmap string string)
    (p2d : gmap string (list string)) (parent : Annotation)
    (annotations : list Annotation) : list Z :=
  omap (fun a => match word_times a2p p2d a with
                 | Some (p, start_time, _) =>
                     if decide (p = parent) then Some start_time else None
                 | None => None
                 end) annotations.

Definition end_times_under (a2p : gmap string string)
    (p2d : gmap string (list string)) (parent : Annotation)
    (annotations : list Annotation) : list Z :=
  omap (fun a => match word_times a2p p2d a with
                 | Some (p, _, end_time) =>
                     if decide (p = parent) then Some end_time else None
                 | None => None
                 end) annotations.

(** The body of [for tier_id in relevant_tiers] of the second pass. *)
Definition set_word_times_in_tier (ts : list Tier) (tier_name : string)
    (st : Vars * TimeOrder Z) : result (Vars * TimeOrder Z) :=
  let* tier := attribute_error (get_tier_by_id ts tier_name) in
  let* annotations := get_annotations store tier in
  for_each set_word_times annotations st.

End Passes.

(** The two time slots of an annotation. *)
Definition time_slots_of (a : Annotation) : list string :=
  [start_time_slot a; end_time_slot a].

(** *** The script *)

Definition import_wordtimes (args : Args) (elan_file : ELANFile Z)
    (toolbox_file : list ToolboxLine) : result (ELANFile Z) :=
  let* refs := extractWordTimes args toolbox_file in
  let store := annotation_store elan_file in
  let names := relevant_tiers args (tiers elan_file) in
  let* vs :=
    for_each (find_parents_in_tier refs store (tiers elan_file) (time_order elan_file))
      names vars_init in
  let* st :=
    for_each (set_word_times_in_tier refs store (tiers elan_file))
      names (vs, time_order elan_file) in
  let '(_, order) := st in
  Ok {| linguistic_types := linguistic_types elan_file;
        tiers := tiers elan_file;
        annotation_store := store;
        time_order := order |}.

End ImportWordtimes.

(** ** flexibilize_imported_toolbox_in_elan.py *)

Module Flexibilize.
Import Elan.

(** The tuples of [time_slots_to_annotations]: the id of an annotation,
    ["parent"] or ["daughter"], ["start"] or ["end"]. *)
Inductive Role := parent | daughter.
Inductive Part := start | end_.

Definition Role_eqb (a b : Role) : bool :=
  match a, b with
  | parent, parent | daughter, daughter => true
  | _, _ => false
  end.

Definition Part_eqb (a b : Part) : bool :=
  match a, b with
  | start, start | end_, end_ => true
  | _, _ => false
  end.

Abbreviation Ref := (string * Role * Part)%type.

(** [remove_ts]: [int(re.sub("^ts", "", time_slot_id))]. *)
Definition remove_ts (time_slot_id : string) : result Z :=
  match Py.int (Py.sub_prefix "ts" time_slot_id) with
  | Some n => Ok n
  | None => Raise "ValueError"
  end.

(** ["ts" + str(remove_ts(time_slot_id) + offset)] *)
Definition shifted (time_slot_id : string) (offset : Z) : result string :=
  let* n := remove_ts time_slot_id in
  Ok ("ts" +:+ Py.str (n + offset)).

(** *** The tiers to work on *)

Definition relevant_linguistic_types (lts : list LinguisticType) : list string :=
  map linguistic_type_id
    (filter (fun lt => constraints lt = Some "Included_In") lts).

Definition time_alignable_types (lts : list LinguisticType) : list string :=
  map linguistic_type_id (filter (fun lt => time_alignable lt = true) lts).

Definition tiers_of_types (types : list string) (ts : list Tier) : list string :=
  map tier_id (filter (fun t => linguistic_type t ∈ types) ts).

(** *** The original times of the annotations *)

Definition save_times (order : TimeOrder Q) (annotation : Annotation)
    (times : gmap string (option Q * option Q))
  : gmap string (option Q * option Q) :=
  let annotation_start_time := get_start_time order annotation in
  let annotation_end_time := get_end_time order annotation in
  match annotation_start_time, annotation_end_time with
  | None, None => times
  | _, _ =>
      <[annotation_id annotation := (annotation_start_time, annotation_end_time)]> times
  end.

Definition save_times_of_tier (file : ELANFile Q) (tier_name : string)
    (times : gmap string (option Q * option Q))
  : result (gmap string (option Q * option Q)) :=
  let* tier := attribute_error (get_tier_by_id (tiers file) tier_name) in
  let* annotations := get_annotations (annotation_store file) tier in
  Ok (foldl (fun acc a => save_times (time_order file) a acc) times annotations).

(** *** The annotation graph *)

Record Graph := {
  annotation_to_parent_annotation : gmap string string;
  parent_annotation_to_daughter_annotations : gmap string (list string);
  time_slots_to_annotations : gmap string (list Ref);
  daughter_positions : gmap string Z }.

Definition graph_init : Graph :=
  {| annotation_to_parent_annotation := ∅;
     parent_annotation_to_daughter_annotations := ∅;
     time_slots_to_annotations := ∅;
     daughter_positions := ∅ |}.

(** The body of [for parent_annotation in parent_annotations].  The state
    is [time_slots_to_annotations] and the [parent_time_slots] of the tier;
    the latter gets its entries in the branch in which the end time slot
    is new. *)
Definition note_parent (parent_annotation : Annotation)
    (st : gmap string (list Ref) * gmap string string)
  : gmap string (list Ref) * gmap string string :=
  let '(slots, parent_time_slots) := st in
  let parent_id := annotation_id parent_annotation in
  let parent_start_time_slot := start_time_slot parent_annotation in
  let parent_end_time_slot := end_time_slot parent_annotation in
  let slots := append_at parent_start_time_slot (parent_id, parent, start) slots in
  match slots !! parent_end_time_slot with
  | Some _ =>
      (append_at parent_end_time_slot (parent_id, parent, end_) slots,
       parent_time_slots)
  | None =>
      (<[parent_end_time_slot := [(parent_id, parent, end_)]]> slots,
       <[parent_end_time_slot := parent_id]>
         (<[parent_start_time_slot := parent_id]> parent_time_slots))
  end.

(** The body of the first [for annotation in annotations]. *)
Definition note_daughter (annotation : Annotation)
    (slots : gmap string (list Ref)) : gmap string (list Ref) :=
  let id := annotation_id annotation in
  let slots := append_at (start_time_slot annotation) (id, daughter, start) slots in
  append_at (end_time_slot annotation) (id, daughter, end_) slots.

(** The two loops that fill [time_slots_to_annotations] for a tier, and
    [parent_time_slots] with it. *)
Definition note_tier (slots : gmap string (list Ref))
    (parent_annotations annotations : list Annotation)
  : gmap string (list Ref) * gmap string string :=
  let '(slots, parent_time_slots) :=
    foldl (fun st p => note_parent p st) (slots, ∅) parent_annotations in
  (foldl (fun sl a => note_daughter a sl) slots annotations, parent_time_slots).

(** The search for the preceding first daughter: the variables of the
    [while] loop. *)
Record Walk := {
  current_annotation_id : string;
  current_annotation_start_time_slot : string;
  current_annotation_start_time : option Q;
  position : Z }.

Section Walking.

Context (store : gmap string Annotation).
Context (order : TimeOrder Q).
Context (slots : gmap string (list Ref)).

(** The body of [for other_annotation in ...]. *)
Definition look_at (other_annotation : Ref) (w : Walk) : result Walk :=
  let '(other_annotation_id, other_annotation_type, other_annotation_part) :=
    other_annotation in
  if negb (String.eqb other_annotation_id (current_annotation_id w))
     && Role_eqb other_annotation_type daughter
     && Part_eqb other_annotation_part end_
  then
    let* current_annotation := get_annotation_by_id store other_annotation_id in
    Ok {| current_annotation_id := other_annotation_id;
          current_annotation_start_time_slot := start_time_slot current_annotation;
          current_annotation_start_time := get_start_time order current_annotation;
          position := position w + 1 |}
  else Ok w.

(** The body of the [while] loop: the list to go through is taken from
    the dictionary before the first tuple is looked at. *)
Definition look_around (w : Walk) : result Walk :=
  match slots !! current_annotation_start_time_slot w with
  | Some others => for_each look_at others w
  | None => Ok w
  end.

(** [while (current_annotation_start_time is None): ...], unrolled at most
    [fuel] times. *)
Fixpoint walk_back (fuel : nat) (w : Walk) : result Walk :=
  match current_annotation_start_time w with
  | Some _ => Ok w
  | None =>
      match fuel with
      | O => Diverged
      | S fuel' => let* w' := look_around w in walk_back fuel' w'
      end
  end.

(** The body of the second [for annotation in annotations]; the state is
    [preceding_first_daughter_annotations] and [daughter_positions]. *)
Definition find_first_daughter (fuel : nat) (annotation : Annotation)
    (st : gmap string string * gmap string Z)
  : result (gmap string string * gmap string Z) :=
  let '(preceding_first_daughter_annotations, positions) := st in
  let id := annotation_id annotation in
  let* w := walk_back fuel
              {| current_annotation_id := id;
                 current_annotation_start_time_slot := start_time_slot annotation;
                 current_annotation_start_time := get_start_time order annotation;
                 position := 0 |} in
  match current_annotation_start_time w with
  | Some _ =>
      Ok (if String.eqb (current_annotation_id w) id
          then preceding_first_daughter_annotations
          else <[id := current_annotation_id w]> preceding_first_daughter_annotations,
          <[id := position w]> positions)
  | None =>
      Raise ("Cannot find preceding first daughter annotation for annotation "
             +:+ id +:+ ".")
  end.

End Walking.

(** The body of the third [for annotation in annotations]: first and last
    daughters. *)
Definition adopt (parent_annotation_id annotation_id : string) (g : Graph) : Graph :=
  {| annotation_to_parent_annotation :=
       <[annotation_id := parent_annotation_id]> (annotation_to_parent_annotation g);
     parent_annotation_to_daughter_annotations :=
       append_at parent_annotation_id annotation_id
         (parent_annotation_to_daughter_annotations g);
     time_slots_to_annotations := time_slots_to_annotations g;
     daughter_positions := daughter_positions g |}.

Definition find_outer_parent (parent_time_slots : gmap string string)
    (annotation : Annotation) (g : Graph) : Graph :=
  match parent_time_slots !! start_time_slot annotation with
  | Some parent_annotation_id => adopt parent_annotation_id (annotation_id annotation) g
  | None =>
      match parent_time_slots !! end_time_slot annotation with
      | Some parent_annotation_id =>
          adopt parent_annotation_id (annotation_id annotation) g
      | None => g
      end
  end.

(** The body of the fourth [for annotation in annotations]: middle
    daughters. *)
Definition find_middle_parent (parent_time_slots : gmap string string)
    (preceding_first_daughter_annotations : gmap string string)
    (annotation : Annotation) (g : Graph) : result Graph :=
  let id := annotation_id annotation in
  match parent_time_slots !! start_time_slot annotation,
        parent_time_slots !! end_time_slot annotation with
  | None, None =>
      match preceding_first_daughter_annotations !! id with
      | Some preceding_first_daughter_annotation_id =>
          match annotation_to_parent_annotation g
                  !! preceding_first_daughter_annotation_id with
          | Some parent_annotation_id => Ok (adopt parent_annotation_id id g)
          | None =>
              Raise ("Cannot identify parent annotation for middle daughter annotation "
                     +:+ id +:+ ".")
          end
      | None =>
          Raise ("Cannot determine parent annotation for middle daughter annotation "
                 +:+ id +:+ ".")
      end
  | _, _ => Ok g
  end.

(** The body of [for tier_name in relevant_tiers]. *)
Definition process_tier (fuel : nat) (file : ELANFile Q) (tier_name : string)
    (g : Graph) : result Graph :=
  let store := annotation_store file in
  let* tier := attribute_error (get_tier_by_id (tiers file) tier_name) in
  let* annotations := get_annotations store tier in
  let* parent_tier_name := attribute_error (parent_tier_ref tier) in
  let* parent_tier := attribute_error (get_tier_by_id (tiers file) parent_tier_name) in
  let* parent_annotations := get_annotations store parent_tier in
  let '(slots, parent_time_slots) :=
    note_tier (time_slots_to_annotations g) parent_annotations annotations in
  let* found :=
    for_each (find_first_daughter store (time_order file) slots fuel)
      annotations (∅, daughter_positions g) in
  let '(preceding_first_daughter_annotations, positions) := found in
  let g := {| annotation_to_parent_annotation := annotation_to_parent_annotation g;
              parent_annotation_to_daughter_annotations :=
                parent_annotation_to_daughter_annotations g;
              time_slots_to_annotations := slots;
              daughter_positions := positions |} in
  let g := foldl (fun g a => find_outer_parent parent_time_slots a g) g annotations in
  for_each (find_middle_parent parent_time_slots preceding_first_daughter_annotations)
    annotations g.


(** *** The new time order *)

(** What the loop over the original time order changes: the running
    offset, the mapping from old to new time slots, the new time order
    and the annotations, whose time slots are set in place. *)
Record Flex := {
  offset : Z;
  time_order_mapping : gmap string string;
  new_time_order : TimeOrder Q;
  annotations : gmap string Annotation }.

Definition flex_init (store : gmap string Annotation) : Flex :=
  {| offset := 0;
     time_order_mapping := ∅;
     new_time_order := [];
     annotations := store |}.


(** [new_time_order.add_time_slot(elan.ELANTimeSlot(id, value))] *)
Definition add_time_slot (id : string) (value : option Q) (order : TimeOrder Q)
  : TimeOrder Q := order ++ [(id, value)].

(** [get_annotation_by_id(id).set_start_time_slot(new)] and its twin: the
    object in the document is changed. *)
Definition rebind (part : Part) (id new : string)
    (store : gmap string Annotation) : gmap string Annotation :=
  match part with
  | start => alter (fun a => set_start_time_slot a new) id store
  | end_ => alter (fun a => set_end_time_slot a new) id store
  end.

Definition time_slot_of (part : Part) (a : Annotation) : string :=
  match part with
  | start => start_time_slot a
  | end_ => end_time_slot a
  end.

(** Arithmetic on times: [None] in it raises [TypeError]. *)
Definition number (x : option Q) : result Q :=
  match x with
  | Some q => Ok q
  | None => Raise "TypeError"
  end.

Section Loop.

Context (g : Graph).
Context (original_annotation_times : gmap string (option Q * option Q)).

(** A parent annotation and its first or last daughter share the slot. *)
Definition split_parent_daughter (time_slot : string * option Q)
    (parent_annotation_id annotation_id : string) (parent_part part : Part)
    (st : Flex) : result Flex :=
  let '(time_slot_id, time_value) := time_slot in
  let* new_parent_time_slot_id := shifted time_slot_id (offset st) in
  let mapping := <[time_slot_id := new_parent_time_slot_id]> (time_order_mapping st) in
  let offset := offset st + 1 in
  let* new_daughter_time_slot_id := shifted time_slot_id offset in
  let parent_annotation := get_annotation_by_id (annotations st) parent_annotation_id in
  let annotation := get_annotation_by_id (annotations st) annotation_id in
  let* store :=
    match parent_part, part with
    | start, start =>
        let* parent_annotation := parent_annotation in
        let* annotation := annotation in
        if negb (String.eqb (start_time_slot parent_annotation)
                            (start_time_slot annotation))
        then Exit "Parent and first daughter annotation did not share the same start time slot:"
        else Ok (rebind start annotation_id new_daughter_time_slot_id
                   (rebind start parent_annotation_id new_parent_time_slot_id
                      (annotations st)))
    | end_, end_ =>
        let* parent_annotation := parent_annotation in
        let* annotation := annotation in
        if negb (String.eqb (end_time_slot parent_annotation)
                            (end_time_slot annotation))
        then Exit "Parent and last daughter annotation did not share the same end time slot:"
        else Ok (rebind end_ annotation_id new_daughter_time_slot_id
                   (rebind end_ parent_annotation_id new_parent_time_slot_id
                      (annotations st)))
    | _, _ =>
        Exit "Something went wrong: Parent and daughter annotation do not share the same kind of time slot:"
    end in
  Ok {| offset := offset;
        time_order_mapping := mapping;
        new_time_order :=
          add_time_slot new_daughter_time_slot_id time_value
            (add_time_slot new_parent_time_slot_id time_value (new_time_order st));
        annotations := store |}.

(** Two daughter annotations share the slot: the end of the first, the
    start of the second. *)
Definition split_daughters (time_slot : string * option Q)
    (first_annotation_id second_annotation_id : string) (st : Flex)
  : result Flex :=
  let '(time_slot_id, _) := time_slot in
  let* parent_annotation_id :=
    match annotation_to_parent_annotation g !! first_annotation_id with
    | Some p => Ok p
    | None =>
        Exit ("Cannot determine parent annotation for annotation "
              +:+ first_annotation_id +:+ ".")
    end in
  (* the parent annotation is looked up here and not used *)
  let* times :=
    match original_annotation_times !! parent_annotation_id with
    | Some t => Ok t
    | None =>
        Exit ("Could not determine original annotation times for parent annotation "
              +:+ parent_annotation_id +:+ ".")
    end in
  let '(parent_start_time, parent_end_time) := times in
  let* parent_end := number parent_end_time in
  let* parent_start := number parent_start_time in
  let parent_length := (parent_end - parent_start)%Q in
  let* number_of_daughters :=
    match parent_annotation_to_daughter_annotations g !! parent_annotation_id with
    | Some l => Ok (Z.of_nat (length l))
    | None =>
        Exit ("Cannot determine the number of daughter annotations for annotation "
              +:+ parent_annotation_id +:+ ".")
    end in
  let* daughter_length :=
    (if number_of_daughters =? 0 then Raise "ZeroDivisionError"
     else Ok (parent_length / inject_Z number_of_daughters)%Q) in
  let* position :=
    match daughter_positions g !! first_annotation_id with
    | Some p => Ok p
    | None =>
        Raise ("Could not determine position of daughter annotation "
               +:+ first_annotation_id +:+ " in parent annotation "
               +:+ parent_annotation_id +:+ ".")
    end in
  let first_annotation_end_time :=
    (parent_start + daughter_length * inject_Z (position + 1))%Q in
  let second_annotation_start_time :=
    (parent_start + daughter_length * inject_Z (position + 1) + 1)%Q in
  let* new_time_slot_id := shifted time_slot_id (offset st) in
  let mapping := <[time_slot_id := new_time_slot_id]> (time_order_mapping st) in
  let order :=
    add_time_slot new_time_slot_id (Some first_annotation_end_time)
      (new_time_order st) in
  let* first_annotation := get_annotation_by_id (annotations st) first_annotation_id in
  let store := rebind end_ first_annotation_id new_time_slot_id (annotations st) in
  let offset := offset st + 1 in
  let* new_time_slot_id := shifted time_slot_id offset in
  let order :=
    add_time_slot new_time_slot_id (Some first_annotation_end_time) order in
  let* second_annotation := get_annotation_by_id store second_annotation_id in
  let store := rebind start second_annotation_id new_time_slot_id store in
  Ok {| offset := offset;
        time_order_mapping := mapping;
        new_time_order := order;
        annotations := store |}.

(** Just one annotation has the slot. *)
Definition keep_single (time_slot : string * option Q) (annotation_id : string)
    (role : Role) (part : Part) (st : Flex) : result Flex :=
  let '(time_slot_id, time_value) := time_slot in
  match role with
  | parent =>
      let* new_time_slot_id := shifted time_slot_id (offset st) in
      let* annotation := get_annotation_by_id (annotations st) annotation_id in
      Ok {| offset := offset st;
            time_order_mapping :=
              <[time_slot_id := new_time_slot_id]> (time_order_mapping st);
            new_time_order :=
              add_time_slot new_time_slot_id time_value (new_time_order st);
            annotations := rebind part annotation_id new_time_slot_id (annotations st) |}
  | daughter => Exit "Only one annotation found for time slot."
  end.

(** The body of [for time_slot in original_time_order]. *)
Definition process_time_slot (time_slot : string * option Q) (st : Flex)
  : result Flex :=
  match time_slots_to_annotations g !! fst time_slot with
  | Some relevant_annotations =>
      match relevant_annotations with
      | [(id0, role0, part0); (id1, role1, part1)] =>
          if Role_eqb role0 parent && Role_eqb role1 daughter then
            split_parent_daughter time_slot id0 id1 part0 part1 st
          else if Role_eqb role0 daughter && Part_eqb part0 end_
                  && Role_eqb role1 daughter && Part_eqb part1 start then
            split_daughters time_slot id0 id1 st
          else Exit "Unknown relationship between two annotations sharing a time slot."
      | [(id0, role0, part0)] => keep_single time_slot id0 role0 part0 st
      | _ => Exit "Incorrect number of relevant annotations found for time slot."
      end
  | None =>
      let* new_time_slot_id := shifted (fst time_slot) (offset st) in
      Ok {| offset := offset st;
            time_order_mapping :=
              <[fst time_slot := new_time_slot_id]> (time_order_mapping st);
            new_time_order := new_time_order st;
            annotations := annotations st |}
  end.

Definition new_order (original_time_order : TimeOrder Q)
    (store : gmap string Annotation) : result Flex :=
  for_each process_time_slot original_time_order (flex_init store).

End Loop.

(** The numbers in the ids of the time slots of a time order, as
    [remove_ts] reads them. *)
Definition numbered (order : TimeOrder Q) (numbers : list Z) : Prop :=
  Forall2 (fun time_slot n => remove_ts (fst time_slot) = Ok n) order numbers.

(** *** The script *)

Definition build_graph (fuel : nat) (file : ELANFile Q) : result Graph :=
  for_each (process_tier fuel file)
    (tiers_of_types (relevant_linguistic_types (linguistic_types file)) (tiers file))
    graph_init.

Definition original_times (file : ELANFile Q)
  : result (gmap string (option Q * option Q)) :=
  for_each (save_times_of_tier file)
    (tiers_of_types (time_alignable_types (linguistic_types file)) (tiers file))
    ∅.

Definition flexibilize (fuel : nat) (elan_file : ELANFile Q)
  : result (ELANFile Q) :=
  let* original_annotation_times := original_times elan_file in
  let* g := build_graph fuel elan_file in
  let* st :=
    new_order g original_annotation_times (time_order elan_file)
      (annotation_store elan_file) in
  Ok {| linguistic_types := linguistic_types elan_file;
        tiers := tiers elan_file;
        annotation_store := annotations st;
        time_order := new_time_order st |}.

End Flexibilize.

(** * Documents to run the scripts on *)

Definition ann (id value ts1 ts2 : string) : Elan.Annotation :=
  {| Elan.annotation_id := id;
     Elan.annotation_value := value;
     Elan.start_time_slot := ts1;
     Elan.end_time_slot := ts2 |}.

(** The Toolbox file of the design document: reference [u1] with two
    words. *)
Definition toolbox_u1 : list ImportWordtimes.ToolboxLine :=
  [ (Some "ref", "\ref u1", "");
    (Some "t", "\t hello world", "");
    (Some "WordBegin", "\WordBegin 0.500 1.200", "");
    (Some "WordEnd", "\WordEnd 1.150 2.000", "") ].

(** A Toolbox file whose first record has word start times and no word
    end times. *)
Definition toolbox_leftover : list ImportWordtimes.ToolboxLine :=
  [ (Some "ref", "\ref u1", "");
    (Some "WordBegin", "\WordBegin 0.100 0.200", "");
    (Some "ref", "\ref u2", "");
    (Some "WordBegin", "\WordBegin 0.500 1.200", "");
    (Some "WordEnd", "\WordEnd 1.150 2.000", "") ].

(** The linguistic types and tiers of a Toolbox import: the annotation
    units on a tier of type [ref], the words on a tier of type [t] that
    has to be included in it. *)
Definition toolbox_types : list Elan.LinguisticType :=
  [ {| Elan.linguistic_type_id := "ref";
       Elan.constraints := None;
       Elan.time_alignable := true |};
    {| Elan.linguistic_type_id := "t";
       Elan.constraints := Some "Included_In";
       Elan.time_alignable := true |} ].

Definition toolbox_tiers (units words : list string) : list Elan.Tier :=
  [ {| Elan.tier_id := "ref@A";
       Elan.linguistic_type := "ref";
       Elan.parent_tier_ref := None;
       Elan.tier_annotations := units |};
    {| Elan.tier_id := "t@A";
       Elan.linguistic_type := "t";
       Elan.parent_tier_ref := Some "ref@A";
       Elan.tier_annotations := words |} ].

(** The scenario of the design document: a parent from 1000 to 5000 and
    two daughters; the first shares the start of the parent, the second
    its end, and the slot between the two has no time value. *)
Definition scenario : Elan.ELANFile Q :=
  {| Elan.linguistic_types := toolbox_types;
     Elan.tiers := toolbox_tiers ["ann0"] ["ann1"; "ann2"];
     Elan.annotation_store :=
       list_to_map [ ("ann0", ann "ann0" "u1" "ts1" "ts3");
                     ("ann1", ann "ann1" "hello" "ts1" "ts2");
                     ("ann2", ann "ann2" "world" "ts2" "ts3") ];
     Elan.time_order :=
       [ ("ts1", Some 1000%Q); ("ts2", None); ("ts3", Some 5000%Q) ] |}.

(** What [flexibilize] makes of [scenario], the interpolated times written
    as integers. *)
Definition flexibilized_scenario : Elan.ELANFile Q :=
  {| Elan.linguistic_types := toolbox_types;
     Elan.tiers := toolbox_tiers ["ann0"] ["ann1"; "ann2"];
     Elan.annotation_store :=
       list_to_map [ ("ann0", ann "ann0" "u1" "ts1" "ts5");
                     ("ann1", ann "ann1" "hello" "ts2" "ts3");
                     ("ann2", ann "ann2" "world" "ts4" "ts6") ];
     Elan.time_order :=
       [ ("ts1", Some 1000%Q); ("ts2", Some 1000%Q); ("ts3", Some 3000%Q);
         ("ts4", Some 3000%Q); ("ts5", Some 5000%Q); ("ts6", Some 5000%Q) ] |}.

(** A broken chain: three daughters under one parent, and the second does
    not start in the slot in which the first ends. *)
Definition broken_chain : Elan.ELANFile Q :=
  {| Elan.linguistic_types := toolbox_types;
     Elan.tiers := toolbox_tiers ["ann0"] ["ann1"; "ann2"; "ann3"];
     Elan.annotation_store :=
       list_to_map [ ("ann0", ann "ann0" "u1" "ts1" "ts5");
                     ("ann1", ann "ann1" "a" "ts1" "ts2");
                     ("ann2", ann "ann2" "b" "ts3" "ts4");
                     ("ann3", ann "ann3" "c" "ts4" "ts5") ];
     Elan.time_order :=
       [ ("ts1", Some 1000%Q); ("ts2", None); ("ts3", None); ("ts4", None);
         ("ts5", Some 5000%Q) ] |}.

(** An annotation unit without words whose two time slots do not stand in
    the order of their numbers. *)
Definition unordered_ids : Elan.ELANFile Q :=
  {| Elan.linguistic_types := toolbox_types;
     Elan.tiers := toolbox_tiers ["ann0"] [];
     Elan.annotation_store := list_to_map [ ("ann0", ann "ann0" "u1" "ts5" "ts3") ];
     Elan.time_order := [ ("ts5", Some 1000%Q); ("ts3", Some 5000%Q) ] |}.

(** The graph and the original times that the script builds for
    [scenario]. *)
Definition scenario_graph : Flexibilize.Graph :=
  match Flexibilize.build_graph 10 scenario with
  | Ok g => g
  | _ => Flexibilize.graph_init
  end.

Definition scenario_times : gmap string (option Q * option Q) :=
  match Flexibilize.original_times scenario with
  | Ok t => t
  | _ => ∅
  end.

Definition scenario_flex : Flexibilize.Flex :=
  match Flexibilize.new_order scenario_graph scenario_times
          (Elan.time_order scenario) (Elan.annotation_store scenario) with
  | Ok st => st
  | _ => Flexibilize.flex_init ∅
  end.

(** The graph that the script builds for [unordered_ids]. *)
Definition unordered_graph : Flexibilize.Graph :=
  match Flexibilize.build_graph 10 unordered_ids with
  | Ok g => g
  | _ => Flexibilize.graph_init
  end.

(** The time values of a time order, each fraction reduced. *)
Definition reduced (order : Elan.TimeOrder Q) : Elan.TimeOrder Q :=
  map (fun slot => (fst slot, option_map Qred (snd slot))) order.

(** The word times of [toolbox_u1] as [extractWordTimes] returns them. *)
Definition u1_word_times : gmap string (list string * list string) :=
  {[ "u1" := (["0.500"; "1.200"], ["1.150"; "2.000"]) ]}.

(** A document for the importer: one annotation unit [u1] and its words,
    each annotation with time slots of its own. *)
Definition unit_with_words (words : list string)
    (store : list (string * Elan.Annotation)) (order : Elan.TimeOrder Z)
  : Elan.ELANFile Z :=
  {| Elan.linguistic_types := toolbox_types;
     Elan.tiers := toolbox_tiers ["ann0"] words;
     Elan.annotation_store := list_to_map store;
     Elan.time_order := order |}.

(** One word where the Toolbox file has the times of two. *)
Definition one_word : Elan.ELANFile Z :=
  unit_with_words ["ann1"]
    [ ("ann0", ann "ann0" "u1" "ts1" "ts4");
      ("ann1", ann "ann1" "hello" "ts2" "ts3") ]
    [ ("ts1", Some 0); ("ts2", Some 0); ("ts3", Some 3000); ("ts4", Some 3000) ].

(** Two words, as the Toolbox file has them. *)
Definition two_words : Elan.ELANFile Z :=
  unit_with_words ["ann1"; "ann2"]
    [ ("ann0", ann "ann0" "u1" "ts1" "ts6");
      ("ann1", ann "ann1" "hello" "ts2" "ts3");
      ("ann2", ann "ann2" "world" "ts4" "ts5") ]
    [ ("ts1", Some 1000); ("ts2", Some 1000); ("ts3", Some 1500);
      ("ts4", Some 1500); ("ts5", Some 1800); ("ts6", Some 1800) ].

(** Three words where the Toolbox file has the times of two. *)
Definition three_words : Elan.ELANFile Z :=
  unit_with_words ["ann1"; "ann2"; "ann3"]
    [ ("ann0", ann "ann0" "u1" "ts1" "ts8");
      ("ann1", ann "ann1" "hello" "ts2" "ts3");
      ("ann2", ann "ann2" "big" "ts4" "ts5");
      ("ann3", ann "ann3" "world" "ts6" "ts7") ]
    [ ("ts1", Some 0); ("ts2", Some 0); ("ts3", Some 1000); ("ts4", Some 1000);
      ("ts5", Some 2000); ("ts6", Some 2000); ("ts7", Some 3000);
      ("ts8", Some 3000) ].

(** Two words as a Toolbox import leaves them: the first starts in the
    time slot in which the annotation unit starts, the second ends in the
    time slot in which it ends. *)
Definition shared_slots : Elan.ELANFile Z :=
  unit_with_words ["ann1"; "ann2"]
    [ ("ann0", ann "ann0" "u1" "ts1" "ts4");
      ("ann1", ann "ann1" "hello" "ts1" "ts2");
      ("ann2", ann "ann2" "world" "ts3" "ts4") ]
    [ ("ts1", Some 1000); ("ts2", Some 2000); ("ts3", Some 2000);
      ("ts4", Some 5000) ].

(** Word times that lie inside the annotation unit of [shared_slots]. *)
Definition toolbox_inside : list ImportWordtimes.ToolboxLine :=
  [ (Some "ref", "\ref u1", "");
    (Some "WordBegin", "\WordBegin 1.500 3.000", "");
    (Some "WordEnd", "\WordEnd 2.500 4.000", "") ].

(** Word times of which the first ends after the annotation unit of
    [shared_slots] and after the second. *)
Definition toolbox_late_end : list ImportWordtimes.ToolboxLine :=
  [ (Some "ref", "\ref u1", "");
    (Some "WordBegin", "\WordBegin 1.500 3.000", "");
    (Some "WordEnd", "\WordEnd 6.000 5.500", "") ].

(** The variables after the first pass of the importer over a document. *)
Definition vars_after_first_pass
    (refs : gmap string (list string * list string)) (file : Elan.ELANFile Z)
  : ImportWordtimes.Vars :=
  match for_each
          (ImportWordtimes.find_parents_in_tier refs (Elan.annotation_store file)
             (Elan.tiers file) (Elan.time_order file))
          (ImportWordtimes.relevant_tiers ImportWordtimes.default_args
             (Elan.tiers file))
          ImportWordtimes.vars_init with
  | Ok vs => vs
  | _ => ImportWordtimes.vars_init
  end.

(** The state after the second pass of the importer over [two_words]. *)
Definition two_words_after : ImportWordtimes.Vars * Elan.TimeOrder Z :=
  match for_each
          (ImportWordtimes.set_word_times u1_word_times
             (Elan.annotation_store two_words))
          [ann "ann1" "hello" "ts2" "ts3"; ann "ann2" "world" "ts4" "ts5"]
          (vars_after_first_pass u1_word_times two_words,
           Elan.time_order two_words) with
  | Ok st => st
  | _ => (ImportWordtimes.vars_init, [])
  end.

(** * Properties *)

(** Case analysis on the result that a sequence of steps waits for. *)
Ltac case_result :=
  match goal with
  | |- context [rbind ?r _] =>
      lazymatch r with
      | Ok _ => fail
      | Exit _ => fail
      | Raise _ => fail
      | Diverged => fail
      | context [rbind _ _] => fail
      | _ => destruct r eqn:?; cbn [rbind rmap]
      end
  end.

(** ** Python's [int] and [str] *)

Section PyFacts.

Lemma to_uint_not_Nil (p : positive) : Pos.to_uint p <> Decimal.Nil.
Proof.
  intros H. pose proof (DecimalPos.Unsigned.of_to p) as E.
  rewrite H in E. discriminate E.
Qed.

Lemma int_str (n : Z) : Py.int (Py.str n) = Some n.
Proof.
  unfold Py.int, Py.str.
  rewrite NilZero.isi.
  - simpl. f_equal. apply DecimalZ.of_to.
  - destruct n; simpl; try discriminate.
    intros [= E]. exact (to_uint_not_Nil _ E).
  - destruct n; simpl; try discriminate.
    intros [= E]. exact (to_uint_not_Nil _ E).
Qed.

Lemma sub_dots_uint (d : Decimal.uint) :
  Py.sub_dots (NilEmpty.string_of_uint d) = NilEmpty.string_of_uint d.
Proof. induction d; simpl; congruence. Qed.

Lemma sub_dots_str (n : Z) : Py.sub_dots (Py.str n) = Py.str n.
Proof.
  unfold Py.str, NilZero.string_of_int, NilZero.string_of_uint.
  destruct (Z.to_int n) as [d|d]; destruct d; simpl;
    rewrite ?sub_dots_uint; reflexivity.
Qed.

Lemma sub_dots_app (a b : string) :
  Py.sub_dots (a +:+ b) = Py.sub_dots a +:+ Py.sub_dots b.
Proof.
  induction a as [|c a IH]; [reflexivity|].
  change (String c a +:+ b) with (String c (a +:+ b)).
  cbn [Py.sub_dots].
  destruct (Ascii.eqb c "."); [exact IH|].
  rewrite IH. reflexivity.
Qed.

Lemma sub_prefix_app (p s : string) : Py.sub_prefix p (p +:+ s) = s.
Proof.
  unfold Py.sub_prefix.
  assert (Py.strip_prefix p (p +:+ s) = Some s) as ->; [|reflexivity].
  induction p as [|c p IH]; [reflexivity|].
  change (String c p +:+ s) with (String c (p +:+ s)).
  cbn [Py.strip_prefix]. rewrite Ascii.eqb_refl. exact IH.
Qed.

End PyFacts.

(** ** The importer: times of the Toolbox file *)

Section ImportTimes.
Import ImportWordtimes.

(** C8.  A time of the Toolbox file becomes an integer by deleting the
    dot and reading what is left as an integer: with or without the dot
    the string gives the same number, a string of digits gives the number
    it spells, ["0.500"] gives 500 and ["1.150"] gives 1150 as in the
    design document; nothing is multiplied or rounded, so ["0.5"] gives 5
    and ["1.2345"] gives 12345. *)
Theorem to_milliseconds_deletes_the_dot :
  (forall a b : string,
      to_milliseconds (a +:+ "." +:+ b) = to_milliseconds (a +:+ b))
  /\ (forall n : Z, to_milliseconds (Py.str n) = Some n)
  /\ to_milliseconds "0.500" = Some 500
  /\ to_milliseconds "1.150" = Some 1150
  /\ to_milliseconds "1.200" = Some 1200
  /\ to_milliseconds "2.000" = Some 2000
  /\ to_milliseconds "0.5" = Some 5
  /\ to_milliseconds "1.2345" = Some 12345.
Proof.
  repeat split; try reflexivity.
  - intros a b. unfold to_milliseconds.
    rewrite !sub_dots_app. reflexivity.
  - intros n. unfold to_milliseconds.
    rewrite sub_dots_str. apply int_str.
Qed.

End ImportTimes.

(** ** The importer: the records of the Toolbox file *)

Section ExtractWordTimes.
Import ImportWordtimes.

Lemma marker_is_same (name : string) : marker_is (Some name) name = true.
Proof. apply String.eqb_refl. Qed.

Lemma marker_is_other (m name : string) :
  m <> name -> marker_is (Some m) name = false.
Proof. intros H. apply String.eqb_neq. exact H. Qed.

(** A record with times of one kind only is not saved, and nothing is
    reset. *)
Lemma save_current_incomplete (st : Extract) :
  cur_word_start_times st = [] \/ cur_word_end_times st = [] ->
  save_current st = st.
Proof.
  intros H. unfold save_current.
  destruct (cur_utterance_id st); [|reflexivity].
  destruct H as [-> | ->]; simpl; [reflexivity|].
  rewrite andb_false_r. reflexivity.
Qed.

(** C10.  At the reference line that follows a record with word start
    times and no word end times, or the other way round, the dictionary
    stays as it is and the two lists of times are not emptied; the
    times of the next record are appended to them. *)
Theorem leftover_times_carry_over
    (args : Args) (st : Extract) (u line ending g : string) :
  cur_utterance_id st = Some u ->
  cur_word_start_times st = [] \/ cur_word_end_times st = [] ->
  tier_contents_re line = Some g ->
  let st' := {| toolbox_refs_to_word_times := toolbox_refs_to_word_times st;
                cur_utterance_id := Some (Py.strip g);
                cur_word_start_times := cur_word_start_times st;
                cur_word_end_times := cur_word_end_times st |} in
  extract_line args (Some (reference_tier_name args), line, ending) st = Ok st'
  /\ (forall rest,
        for_each (extract_line args)
          ((Some (reference_tier_name args), line, ending) :: rest) st
        = for_each (extract_line args) rest st')
  /\ (forall line2 ending2 g2,
        word_start_tier_name args <> reference_tier_name args ->
        tier_contents_re line2 = Some g2 ->
        extract_line args (Some (word_start_tier_name args), line2, ending2) st'
        = Ok {| toolbox_refs_to_word_times := toolbox_refs_to_word_times st;
                cur_utterance_id := Some (Py.strip g);
                cur_word_start_times :=
                  cur_word_start_times st ++ Py.split (Py.strip g2);
                cur_word_end_times := cur_word_end_times st |})
  /\ (forall line2 ending2 g2,
        word_end_tier_name args <> reference_tier_name args ->
        word_end_tier_name args <> word_start_tier_name args ->
        tier_contents_re line2 = Some g2 ->
        extract_line args (Some (word_end_tier_name args), line2, ending2) st'
        = Ok {| toolbox_refs_to_word_times := toolbox_refs_to_word_times st;
                cur_utterance_id := Some (Py.strip g);
                cur_word_start_times := cur_word_start_times st;
                cur_word_end_times :=
                  cur_word_end_times st ++ Py.split (Py.strip g2) |}).
Proof.
  intros Hid Hempty Hline st'.
  assert (extract_line args (Some (reference_tier_name args), line, ending) st
          = Ok st') as Hstep.
  { unfold extract_line. rewrite marker_is_same, Hline.
    rewrite (save_current_incomplete st Hempty). reflexivity. }
  split; [exact Hstep|]. split; [|split].
  - intros rest. cbn [for_each]. rewrite Hstep. reflexivity.
  - intros line2 ending2 g2 Hne Hline2. unfold extract_line.
    rewrite (marker_is_other _ _ Hne), marker_is_same, Hline2. reflexivity.
  - intros line2 ending2 g2 Hne1 Hne2 Hline2. unfold extract_line.
    rewrite (marker_is_other _ _ Hne1), (marker_is_other _ _ Hne2),
      marker_is_same, Hline2.
    reflexivity.
Qed.

Lemma leftover_times_carry_over_witness :
  extract_line default_args (Some "ref", "\ref u2", "")
    {| toolbox_refs_to_word_times := ∅;
       cur_utterance_id := Some "u1";
       cur_word_start_times := ["0.100"; "0.200"];
       cur_word_end_times := [] |}
  = Ok {| toolbox_refs_to_word_times := ∅;
          cur_utterance_id := Some "u2";
          cur_word_start_times := ["0.100"; "0.200"];
          cur_word_end_times := [] |}.
Proof.
  exact (proj1 (leftover_times_carry_over default_args
                  {| toolbox_refs_to_word_times := ∅;
                     cur_utterance_id := Some "u1";
                     cur_word_start_times := ["0.100"; "0.200"];
                     cur_word_end_times := [] |}
                  "u1" "\ref u2" "" "u2"
                  eq_refl (or_intror eq_refl) eq_refl)).
Defined.

(** The whole of [extractWordTimes] on such a file: the start times of
    [u1] end up in front of those of [u2]. *)
Example extract_leftover :
  extractWordTimes default_args toolbox_leftover
  = Ok {[ "u2" := (["0.100"; "0.200"; "0.500"; "1.200"], ["1.150"; "2.000"]) ]}.
Proof. vm_compute. reflexivity. Qed.

Example extract_u1 :
  extractWordTimes default_args toolbox_u1
  = Ok {[ "u1" := (["0.500"; "1.200"], ["1.150"; "2.000"]) ]}.
Proof. vm_compute. reflexivity. Qed.

End ExtractWordTimes.

(** ** The Disambiguator: one time slot *)

Section OneSlot.
Import Elan Flexibilize.

Context (g : Graph).
Context (original_annotation_times : gmap string (option Q * option Q)).

Lemma remove_ts_shifted (n : Z) : remove_ts ("ts" +:+ Py.str n) = Ok n.
Proof. unfold remove_ts. rewrite sub_prefix_app, int_str. reflexivity. Qed.

Lemma shifted_number (id : string) (n o : Z) :
  remove_ts id = Ok n -> shifted id o = Ok ("ts" +:+ Py.str (n + o)).
Proof. intros H. unfold shifted. rewrite H. reflexivity. Qed.





End OneSlot.

Section OneSlotRuns.
Import Elan Flexibilize.



End OneSlotRuns.

(** ** The Disambiguator: two daughters in one time slot *)

Section TwoDaughters.
Import Elan Flexibilize.

(** The two time slots that take the place of a slot between two daughter
    annotations carry one and the same time value: the end time computed
    for the first annotation is given to both, and the start time
    computed for the second is never used. *)
Lemma daughters_get_one_value
    (g : Graph) (times : gmap string (option Q * option Q))
    (time_slot_id : string) (time_value : option Q) (st : Flex) (n : Z)
    (first second parent_id : string) (parent_start parent_end : Q)
    (daughters : list string) (position : Z) (a1 a2 : Annotation) :
  time_slots_to_annotations g !! time_slot_id
    = Some [(first, daughter, end_); (second, daughter, start)] ->
  remove_ts time_slot_id = Ok n ->
  annotation_to_parent_annotation g !! first = Some parent_id ->
  times !! parent_id = Some (Some parent_start, Some parent_end) ->
  parent_annotation_to_daughter_annotations g !! parent_id = Some daughters ->
  daughters <> [] ->
  daughter_positions g !! first = Some position ->
  annotations st !! first = Some a1 ->
  annotations st !! second = Some a2 ->
  let t := (parent_start
            + (parent_end - parent_start) / inject_Z (Z.of_nat (length daughters))
              * inject_Z (position + 1))%Q in
  exists st',
    process_time_slot g times (time_slot_id, time_value) st = Ok st'
    /\ offset st' = offset st + 1
    /\ new_time_order st'
       = new_time_order st
         ++ [("ts" +:+ Py.str (n + offset st), Some t);
             ("ts" +:+ Py.str (n + (offset st + 1)), Some t)].
Proof.
  intros Hrefs Hn Hparent Htimes Hdaughters Hne Hpos H1 H2 t.
  unfold process_time_slot. cbn [fst]. rewrite Hrefs. cbn.
  unfold split_daughters.
  assert ((Z.of_nat (length daughters) =? 0) = false) as Hzero.
  { apply Z.eqb_neq. destruct daughters; [congruence|]. cbn [length]. lia. }
  rewrite Hparent. cbn [rbind]. rewrite Htimes. cbn [rbind number].
  rewrite Hdaughters. cbn [rbind]. rewrite Hzero. cbn [rbind].
  rewrite Hpos. cbn [rbind].
  rewrite !(shifted_number _ _ _ Hn). cbn [rbind].
  unfold get_annotation_by_id. rewrite H1. cbn [attribute_error rbind].
  assert (is_Some (rebind end_ first ("ts" +:+ Py.str (n + offset st))
                     (annotations st) !! second)) as [a2' Ha2'].
  { cbn [rebind]. rewrite lookup_alter.
    destruct (decide (first = second)) as [->|]; rewrite ?H1, ?H2; eauto. }
  cbn [rebind] in Ha2'. rewrite Ha2'. cbn [attribute_error rbind].
  eexists. split; [reflexivity|].
  cbn [offset new_time_order]. split; [reflexivity|].
  unfold add_time_slot. rewrite <- app_assoc. reflexivity.
Qed.

(** C1.  On the scenario of the design document the slot between the two
    daughters is replaced by [ts3] and [ts4], and both carry 3000: the
    start of the second daughter is not one time unit after the end of
    the first. *)
Theorem scenario_interpolated_times :
  rmap (fun f => reduced (time_order f)) (flexibilize 10 scenario)
  = Ok [ ("ts1", Some 1000%Q); ("ts2", Some 1000%Q);
         ("ts3", Some 3000%Q); ("ts4", Some 3000%Q);
         ("ts5", Some 5000%Q); ("ts6", Some 5000%Q) ].
Proof. vm_compute. reflexivity. Qed.

End TwoDaughters.

(** ** The graph: the search for the preceding first daughter *)

Section WalkBack.
Import Elan Flexibilize.

Context (store : gmap string Annotation).
Context (order : TimeOrder Q).
Context (slots : gmap string (list Ref)).

(** The loop is not entered where the start has a time. *)
Lemma walk_back_timed (fuel : nat) (w : Walk) :
  is_Some (current_annotation_start_time w) ->
  walk_back store order slots fuel w = Ok w.
Proof. intros [q Hq]. destruct fuel; cbn; rewrite Hq; reflexivity. Qed.

(** The loop ends only with a start time. *)
Lemma walk_back_ends_timed (fuel : nat) (w w' : Walk) :
  walk_back store order slots fuel w = Ok w' ->
  is_Some (current_annotation_start_time w').
Proof.
  revert w. induction fuel as [|fuel IH]; intros w; cbn.
  - destruct (current_annotation_start_time w) eqn:E; [|discriminate].
    intros [= <-]. rewrite E. eauto.
  - destruct (current_annotation_start_time w) eqn:E.
    + intros [= <-]. rewrite E. eauto.
    + destruct (look_around store order slots w); cbn; try discriminate.
      apply IH.
Qed.

(** Where a turn of the loop changes nothing, no number of turns ends it. *)
Lemma walk_back_stuck (fuel : nat) (w : Walk) :
  current_annotation_start_time w = None ->
  look_around store order slots w = Ok w ->
  walk_back store order slots fuel w = Diverged.
Proof.
  intros Hnone Hsame. induction fuel as [|fuel IH]; cbn; rewrite Hnone.
  - reflexivity.
  - rewrite Hsame. exact IH.
Qed.

(** The error "Cannot find preceding first daughter annotation" is out of
    reach: what [find_first_daughter] raises comes from a tuple that names
    no annotation of the document. *)
Lemma look_at_raises (other : Ref) (w : Walk) (msg : string) :
  look_at store order other w = Raise msg -> msg = "AttributeError".
Proof.
  destruct other as [[id role] part]. unfold look_at.
  case_match; [|discriminate].
  unfold get_annotation_by_id.
  destruct (store !! id); cbn; [discriminate|].
  intros [= <-]. reflexivity.
Qed.

Lemma look_around_raises (w : Walk) (msg : string) :
  look_around store order slots w = Raise msg -> msg = "AttributeError".
Proof.
  unfold look_around.
  destruct (slots !! current_annotation_start_time_slot w) as [others|];
    [|discriminate].
  revert w. induction others as [|other others IH]; intros w; cbn;
    [discriminate|].
  destruct (look_at store order other w) eqn:E; cbn; try discriminate.
  - apply IH.
  - intros [= <-]. exact (look_at_raises _ _ _ E).
Qed.

Lemma walk_back_raises (fuel : nat) (w : Walk) (msg : string) :
  walk_back store order slots fuel w = Raise msg -> msg = "AttributeError".
Proof.
  revert w. induction fuel as [|fuel IH]; intros w; cbn;
    destruct (current_annotation_start_time w); try discriminate.
  destruct (look_around store order slots w) eqn:E; cbn; try discriminate.
  - apply IH.
  - intros [= <-]. exact (look_around_raises _ _ E).
Qed.

Lemma find_first_daughter_raises
    (fuel : nat) (a : Annotation) (st : gmap string string * gmap string Z)
    (msg : string) :
  find_first_daughter store order slots fuel a st = Raise msg ->
  msg = "AttributeError".
Proof.
  destruct st as [pre pos]. unfold find_first_daughter.
  destruct (walk_back _ _ _ fuel _) as [w| | |] eqn:E; cbn; try discriminate.
  - destruct (walk_back_ends_timed _ _ _ E) as [q ->]. discriminate.
  - intros [= <-]. exact (walk_back_raises _ _ _ E).
Qed.

Lemma find_first_daughter_timed
    (fuel : nat) (a : Annotation) (pre : gmap string string)
    (pos : gmap string Z) :
  is_Some (get_start_time order a) ->
  find_first_daughter store order slots fuel a (pre, pos)
  = Ok (pre, <[annotation_id a := 0]> pos).
Proof.
  intros Htimed. unfold find_first_daughter.
  rewrite walk_back_timed by exact Htimed. cbn.
  destruct Htimed as [q ->]. rewrite String.eqb_refl. reflexivity.
Qed.

Lemma find_first_daughter_stuck
    (fuel : nat) (a : Annotation) (st : gmap string string * gmap string Z) :
  get_start_time order a = None ->
  (let w := {| current_annotation_id := annotation_id a;
               current_annotation_start_time_slot := start_time_slot a;
               current_annotation_start_time := None;
               position := 0 |} in
   look_around store order slots w = Ok w) ->
  find_first_daughter store order slots fuel a st = Diverged.
Proof.
  intros Hnone Hsame. destruct st as [pre pos]. unfold find_first_daughter.
  rewrite Hnone, walk_back_stuck; [reflexivity|reflexivity|exact Hsame].
Qed.

End WalkBack.

Section BrokenChain.
Import Elan Flexibilize.

(** A tier in which the search diverges for some annotation makes the
    whole run diverge. *)
Lemma process_tier_diverges
    (fuel : nat) (file : ELANFile Q) (tier_name : string) (g : Graph)
    (tier parent_tier : Tier) (parent_tier_name : string)
    (annotations parent_annotations : list Annotation) :
  get_tier_by_id (tiers file) tier_name = Some tier ->
  get_annotations (annotation_store file) tier = Ok annotations ->
  parent_tier_ref tier = Some parent_tier_name ->
  get_tier_by_id (tiers file) parent_tier_name = Some parent_tier ->
  get_annotations (annotation_store file) parent_tier = Ok parent_annotations ->
  for_each
    (find_first_daughter (annotation_store file) (time_order file)
       (note_tier (time_slots_to_annotations g) parent_annotations annotations).1
       fuel)
    annotations (∅, daughter_positions g) = Diverged ->
  process_tier fuel file tier_name g = Diverged.
Proof.
  intros Ht Ha Hr Hp Hpa Hloop. unfold process_tier.
  rewrite Ht. cbn [attribute_error rbind]. rewrite Ha. cbn [rbind].
  rewrite Hr. cbn [attribute_error rbind]. rewrite Hp. cbn [attribute_error rbind].
  rewrite Hpa. cbn [rbind].
  destruct (note_tier _ _ _) as [slots parent_time_slots].
  cbn [fst] in Hloop. rewrite Hloop. reflexivity.
Qed.

(** C2.  On the document with the broken chain the script neither comes
    to an end nor raises an error, however often the [while] loop is
    allowed to turn: the search for the annotation before [ann2] finds
    nothing and [current_annotation_start_time] stays [None]. *)
Theorem broken_chain_never_ends (fuel : nat) :
  flexibilize fuel broken_chain = Diverged.
Proof.
  unfold flexibilize.
  destruct (original_times broken_chain) eqn:Htimes;
    try (vm_compute in Htimes; discriminate Htimes).
  cbn [rbind].
  assert (build_graph fuel broken_chain = Diverged) as ->; [|reflexivity].
  unfold build_graph.
  change (tiers_of_types _ _) with ["t@A"].
  cbn [for_each].
  rewrite (process_tier_diverges fuel broken_chain "t@A" graph_init
             {| tier_id := "t@A"; linguistic_type := "t";
                parent_tier_ref := Some "ref@A";
                tier_annotations := ["ann1"; "ann2"; "ann3"] |}
             {| tier_id := "ref@A"; linguistic_type := "ref";
                parent_tier_ref := None;
                tier_annotations := ["ann0"] |}
             "ref@A"
             [ann "ann1" "a" "ts1" "ts2"; ann "ann2" "b" "ts3" "ts4";
              ann "ann3" "c" "ts4" "ts5"]
             [ann "ann0" "u1" "ts1" "ts5"]);
    try reflexivity.
  cbn [for_each].
  rewrite find_first_daughter_timed by (vm_compute; eauto).
  cbn [rbind].
  rewrite find_first_daughter_stuck; [reflexivity|reflexivity|].
  vm_compute. reflexivity.
Qed.

End BrokenChain.

(** ** The Disambiguator: the order of the new time slots *)

Section NewOrder.
Import Elan Flexibilize.

Context (g : Graph).
Context (original_annotation_times : gmap string (option Q * option Q)).

Lemma numbered_one (n : Z) (v : option Q) :
  numbered [("ts" +:+ Py.str n, v)] [n].
Proof. repeat constructor. apply remove_ts_shifted. Qed.

Lemma numbered_two (n m : Z) (v w : option Q) :
  numbered [("ts" +:+ Py.str n, v); ("ts" +:+ Py.str m, w)] [n; m].
Proof. repeat constructor; apply remove_ts_shifted. Qed.

(** What one time slot adds to the new time order: nothing, one slot or
    two, numbered from the number of the old slot plus the offset before
    to that number plus the offset after. *)
Lemma process_time_slot_adds (slot : string * option Q) (st st' : Flex) (n : Z) :
  process_time_slot g original_annotation_times slot st = Ok st' ->
  remove_ts (fst slot) = Ok n ->
  exists added numbers,
    new_time_order st' = new_time_order st ++ added
    /\ numbered added numbers
    /\ StronglySorted Z.lt numbers
    /\ Forall (fun m => n + offset st <= m <= n + offset st') numbers
    /\ offset st <= offset st'.
Proof.
  intros Hrun Hn. destruct slot as [id v]. cbn [fst] in Hn.
  revert Hrun.
  unfold process_time_slot, split_parent_daughter, split_daughters, keep_single,
    shifted.
  cbn [fst].
  repeat (first [rewrite Hn | case_match | case_result]; cbn; try discriminate).
  all: intros [= <-]; cbn [offset new_time_order]; unfold add_time_slot;
    rewrite <- ?app_assoc; cbn [app].
  all: first
    [ exists [], []; rewrite app_nil_r;
      repeat split; [constructor|constructor|constructor|lia]
    | eexists [_], [_]; repeat split;
      [apply numbered_one|repeat constructor|repeat constructor; lia|lia]
    | eexists [_; _], [_; _]; repeat split;
      [apply numbered_two|repeat constructor; lia|repeat constructor; lia|lia] ].
Qed.

(** The loop over the original time order. *)
Lemma for_each_app {A S} (f : A -> S -> result S) (l1 l2 : list A) (s : S) :
  for_each f (l1 ++ l2) s = let* s1 := for_each f l1 s in for_each f l2 s1.
Proof.
  revert s. induction l1 as [|x l1 IH]; intros s; cbn; [reflexivity|].
  destruct (f x s); cbn; auto.
Qed.

Lemma new_order_adds (order : TimeOrder Q) (numbers : list Z) (st st' : Flex)
    (low high : Z) :
  numbered order numbers ->
  StronglySorted Z.lt numbers ->
  Forall (fun n => low <= n < high) numbers ->
  for_each (process_time_slot g original_annotation_times) order st = Ok st' ->
  exists added new_numbers,
    new_time_order st' = new_time_order st ++ added
    /\ numbered added new_numbers
    /\ StronglySorted Z.lt new_numbers
    /\ Forall (fun m => low + offset st <= m < high + offset st') new_numbers
    /\ offset st <= offset st'.
Proof.
  intros Hnum. revert st low.
  induction Hnum as [|slot n order numbers Hn Hnum IH];
    intros st low Hsorted Hbounds Hrun.
  - cbn in Hrun. injection Hrun as <-.
    exists [], []. rewrite app_nil_r.
    repeat split; [constructor|constructor|constructor|lia].
  - cbn [for_each] in Hrun.
    destruct (process_time_slot g original_annotation_times slot st)
      as [st1| | |] eqn:Hstep; try discriminate Hrun.
    cbn [rbind] in Hrun.
    apply StronglySorted_cons in Hsorted as [Hlt Hsorted].
    apply Forall_cons in Hbounds as [Hn_bounds Hbounds].
    destruct (process_time_slot_adds _ _ _ _ Hstep Hn)
      as (added1 & numbers1 & Hadd1 & Hnum1 & Hsorted1 & Hrange1 & Hoff1).
    destruct (IH st1 (n + 1) Hsorted) as
      (added2 & numbers2 & Hadd2 & Hnum2 & Hsorted2 & Hrange2 & Hoff2);
      [|exact Hrun|].
    { rewrite Forall_forall in Hlt, Hbounds |- *.
      intros m Hm. specialize (Hlt m Hm). specialize (Hbounds m Hm). lia. }
    exists (added1 ++ added2), (numbers1 ++ numbers2).
    split; [rewrite Hadd2, Hadd1, app_assoc; reflexivity|].
    split; [apply Forall2_app; assumption|].
    split.
    { apply StronglySorted_app. split; [|split; assumption].
      intros x1 x2 H1 H2.
      rewrite Forall_forall in Hrange1, Hrange2.
      specialize (Hrange1 x1 H1). specialize (Hrange2 x2 H2). lia. }
    split; [|lia].
    apply Forall_app. split.
    + eapply Forall_impl; [exact Hrange1|]. cbn. intros m Hm. lia.
    + eapply Forall_impl; [exact Hrange2|]. cbn. intros m Hm. lia.
Qed.

Lemma numbered_elem_of (l : TimeOrder Q) (ms : list Z)
    (a : string * option Q) (k : Z) :
  numbered l ms -> a ∈ l -> remove_ts (fst a) = Ok k -> k ∈ ms.
Proof.
  intros Hnum Ha Hk. induction Hnum as [|x m l ms Hx Hnum IH].
  - apply elem_of_nil in Ha as [].
  - apply elem_of_cons in Ha as [->|Ha].
    + rewrite Hx in Hk. injection Hk as ->. rewrite elem_of_cons; left; reflexivity.
    + rewrite elem_of_cons; right; exact (IH Ha).
Qed.

Lemma bounds_exist (l : list Z) :
  exists low high, Forall (fun n => low <= n < high) l.
Proof.
  induction l as [|x l (low & high & IH)].
  - exists 0, 0. constructor.
  - exists (Z.min low x), (Z.max high (x + 1)). constructor; [lia|].
    eapply Forall_impl; [exact IH|]. cbn. intros m Hm. lia.
Qed.

(** C6.  Where the numbers in the ids of the original time slots grow
    along the time order, the numbers of the new time slots grow along
    the new time order; and for every cut of the original time order in
    two, all that the slots before the cut have put into the new time
    order has smaller numbers than all that the slots after it put
    there. *)
Theorem new_time_slots_keep_the_order
    (order : TimeOrder Q) (numbers : list Z)
    (store : gmap string Annotation) (st : Flex) :
  numbered order numbers ->
  StronglySorted Z.lt numbers ->
  new_order g original_annotation_times order store = Ok st ->
  (exists new_numbers,
      numbered (new_time_order st) new_numbers
      /\ StronglySorted Z.lt new_numbers)
  /\ forall before after : TimeOrder Q,
       order = before ++ after ->
       exists st1 from_before from_after,
         new_order g original_annotation_times before store = Ok st1
         /\ new_time_order st1 = from_before
         /\ new_time_order st = from_before ++ from_after
         /\ forall a b na nb,
              a ∈ from_before -> b ∈ from_after ->
              remove_ts (fst a) = Ok na -> remove_ts (fst b) = Ok nb ->
              na < nb.
Proof.
  intros Hnum Hsorted Hrun. unfold new_order in *. split.
  - destruct (bounds_exist numbers) as (low & high & Hbounds).
    destruct (new_order_adds _ _ _ _ _ _ Hnum Hsorted Hbounds Hrun)
      as (added & new_numbers & Hadd & Hnew & Hnew_sorted & _ & _).
    cbn in Hadd. rewrite Hadd. eauto.
  - intros before after ->.
    apply Forall2_app_inv_l in Hnum
      as (numbers_before & numbers_after & Hnum1 & Hnum2 & ->).
    rewrite for_each_app in Hrun.
    destruct (for_each _ before _) as [st1| | |] eqn:Hrun1;
      try discriminate Hrun.
    cbn [rbind] in Hrun.
    apply StronglySorted_app in Hsorted as (Hcross & Hsorted1 & Hsorted2).
    exists st1, (new_time_order st1).
    destruct numbers_after as [|h numbers_after].
    { apply Forall2_nil_inv_r in Hnum2 as ->. cbn in Hrun.
      injection Hrun as <-. exists []. rewrite app_nil_r.
      repeat split. intros a b na nb _ Hb. apply elem_of_nil in Hb as []. }
    destruct (bounds_exist numbers_before) as (low1 & high1 & Hlow1).
    destruct (bounds_exist (h :: numbers_after)) as (low2 & high2 & Hhigh2).
    destruct (new_order_adds before numbers_before (flex_init store) st1 low1 h
                Hnum1 Hsorted1)
      as (added1 & new1 & Hadd1 & Hnew1 & _ & Hrange1 & _);
      [|exact Hrun1|].
    { rewrite Forall_forall in Hlow1 |- *. intros m Hm.
      specialize (Hlow1 m Hm). specialize (Hcross m h Hm).
      rewrite elem_of_cons in Hcross. lia. }
    destruct (new_order_adds after (h :: numbers_after) st1 st h high2
                Hnum2 Hsorted2)
      as (added2 & new2 & Hadd2 & Hnew2 & _ & Hrange2 & _);
      [|exact Hrun|].
    { apply StronglySorted_cons in Hsorted2 as [Hh _].
      rewrite Forall_forall in Hhigh2, Hh |- *. intros m Hm.
      specialize (Hhigh2 m Hm).
      apply elem_of_cons in Hm as [->|Hm]; [lia|].
      specialize (Hh m Hm). lia. }
    exists added2. repeat split; [exact Hadd2|].
    cbn in Hadd1. rewrite Hadd1.
    intros a b na nb Ha Hb Hna Hnb.
    assert (na ∈ new1) as Hna1 by (eapply numbered_elem_of; eassumption).
    assert (nb ∈ new2) as Hnb2 by (eapply numbered_elem_of; eassumption).
    rewrite Forall_forall in Hrange1, Hrange2.
    specialize (Hrange1 na Hna1). specialize (Hrange2 nb Hnb2). lia.
Qed.

End NewOrder.

Section NewOrderRuns.
Import Elan Flexibilize.

Lemma new_time_slots_keep_the_order_witness :
  exists new_numbers,
    numbered (new_time_order scenario_flex) new_numbers
    /\ StronglySorted Z.lt new_numbers.
Proof.
  refine (proj1 (new_time_slots_keep_the_order scenario_graph scenario_times
                   (time_order scenario) [1; 2; 3] (annotation_store scenario)
                   scenario_flex _ _ _)).
  - repeat constructor.
  - repeat constructor; lia.
  - vm_compute. reflexivity.
Defined.

(** Where the numbers of the original time slots do not grow along the
    time order, those of the new ones do not either: [ts5] stands before
    [ts3] in the document that the script writes for [unordered_ids]. *)
Lemma unordered_ids_stay_unordered :
  rmap time_order (flexibilize 10 unordered_ids)
  = Ok [("ts5", Some 1000%Q); ("ts3", Some 5000%Q)]
  /\ time_order unordered_ids = [("ts5", Some 1000%Q); ("ts3", Some 5000%Q)]
  /\ remove_ts "ts5" = Ok 5
  /\ remove_ts "ts3" = Ok 3
  /\ ~ 5 < 3.
Proof. repeat split; try (vm_compute; reflexivity). lia. Qed.

End NewOrderRuns.

(** ** The Disambiguator on a document that it has written *)

Section Rerun.
Import Elan Flexibilize.

Context (g : Graph).
Context (original_annotation_times : gmap string (option Q * option Q)).

Lemma rebind_same (part : Part) (id slot : string) (a : Annotation)
    (store : gmap string Annotation) :
  store !! id = Some a -> time_slot_of part a = slot ->
  rebind part id slot store = store.
Proof.
  intros Ha Hslot. destruct part; cbn [rebind time_slot_of] in *;
    apply alter_id; intros a' Ha'; rewrite Ha in Ha'; injection Ha' as <-;
    subst slot; destruct a; reflexivity.
Qed.

Lemma rerun_loop (order : TimeOrder Q) (st : Flex) :
  (forall slot, slot ∈ order ->
     exists id role part a n,
       time_slots_to_annotations g !! fst slot = Some [(id, role, part)]
       /\ annotations st !! id = Some a
       /\ time_slot_of part a = fst slot
       /\ fst slot = "ts" +:+ Py.str n) ->
  offset st = 0 ->
  match for_each (process_time_slot g original_annotation_times) order st with
  | Ok st' =>
      (forall slot, slot ∈ order ->
         exists id part,
           time_slots_to_annotations g !! fst slot = Some [(id, parent, part)])
      /\ offset st' = 0
      /\ new_time_order st' = new_time_order st ++ order
      /\ annotations st' = annotations st
  | Exit msg =>
      msg = "Only one annotation found for time slot."
      /\ exists slot id part,
           slot ∈ order
           /\ time_slots_to_annotations g !! fst slot = Some [(id, daughter, part)]
  | _ => False
  end.
Proof.
  revert st. induction order as [|slot order IH]; intros st Hrefs Hoff.
  - cbn. rewrite app_nil_r. repeat split; [|exact Hoff].
    intros slot Hslot. apply elem_of_nil in Hslot as [].
  - destruct (Hrefs slot) as (id & role & part & a & n & Href & Ha & Hslot & Hid);
      [rewrite elem_of_cons; left; reflexivity|].
    cbn [for_each]. unfold process_time_slot at 1. rewrite Href.
    destruct slot as [slot_id v]. cbn [fst] in *.
    destruct role; cbn [keep_single].
    + assert (remove_ts slot_id = Ok n) as Hn
        by (rewrite Hid; apply remove_ts_shifted).
      rewrite (shifted_number _ _ _ Hn). cbn [rbind].
      rewrite Hoff, Z.add_0_r, <- Hid.
      unfold get_annotation_by_id. rewrite Ha. cbn [attribute_error rbind].
      rewrite (rebind_same _ _ _ _ _ Ha Hslot).
      specialize (IH {| offset := 0;
                        time_order_mapping :=
                          <[slot_id := slot_id]> (time_order_mapping st);
                        new_time_order :=
                          add_time_slot slot_id v (new_time_order st);
                        annotations := annotations st |}).
      cbn [offset annotations new_time_order] in IH.
      match type of IH with
      | _ -> _ -> match ?r with _ => _ end =>
          destruct r as [st'|msg| |] eqn:Hrun
      end.
      * destruct IH as (Hparents & Hoff' & Horder & Hstore);
          [intros s Hs; apply Hrefs; rewrite elem_of_cons; right; exact Hs
          |reflexivity|].
        repeat split; [|exact Hoff'| |exact Hstore].
        -- intros s Hs. apply elem_of_cons in Hs as [->|Hs]; [eauto|auto].
        -- rewrite Horder. unfold add_time_slot. rewrite <- app_assoc.
           reflexivity.
      * destruct IH as (Hmsg & s & id' & part' & Hs & Hs');
          [intros s Hs; apply Hrefs; rewrite elem_of_cons; right; exact Hs
          |reflexivity|].
        split; [exact Hmsg|]. exists s, id', part'.
        rewrite elem_of_cons. auto.
      * apply IH; [|reflexivity].
        intros s Hs; apply Hrefs; rewrite elem_of_cons; right; exact Hs.
      * apply IH; [|reflexivity].
        intros s Hs; apply Hrefs; rewrite elem_of_cons; right; exact Hs.
    + cbn [rbind]. split; [reflexivity|].
      exists (slot_id, v), id, part. rewrite elem_of_cons. auto.
Qed.

(** C3.  Where every slot of the time order belongs to just one boundary
    of one annotation, and the slots are named [ts] and a number: the
    loop over the time order stops with "Only one annotation found for
    time slot." as soon as the one annotation is a daughter annotation;
    where all of them are parent annotations it leaves offset, time
    order and annotations as they are. *)
Theorem rerun_on_unshared_slots
    (order : TimeOrder Q) (store : gmap string Annotation) :
  (forall slot, slot ∈ order ->
     exists id role part a n,
       time_slots_to_annotations g !! fst slot = Some [(id, role, part)]
       /\ store !! id = Some a
       /\ time_slot_of part a = fst slot
       /\ fst slot = "ts" +:+ Py.str n) ->
  match new_order g original_annotation_times order store with
  | Ok st =>
      (forall slot, slot ∈ order ->
         exists id part,
           time_slots_to_annotations g !! fst slot = Some [(id, parent, part)])
      /\ offset st = 0
      /\ new_time_order st = order
      /\ annotations st = store
  | Exit msg =>
      msg = "Only one annotation found for time slot."
      /\ exists slot id part,
           slot ∈ order
           /\ time_slots_to_annotations g !! fst slot = Some [(id, daughter, part)]
  | _ => False
  end.
Proof.
  intros Hrefs. unfold new_order.
  exact (rerun_loop order (flex_init store) Hrefs eq_refl).
Qed.

End Rerun.

Section RerunRuns.
Import Elan Flexibilize.

Lemma rerun_on_unshared_slots_witness :
  match new_order unordered_graph ∅ (time_order unordered_ids)
          (annotation_store unordered_ids) with
  | Ok st =>
      (forall slot, slot ∈ time_order unordered_ids ->
         exists id part,
           time_slots_to_annotations unordered_graph !! fst slot
           = Some [(id, parent, part)])
      /\ offset st = 0
      /\ new_time_order st = time_order unordered_ids
      /\ annotations st = annotation_store unordered_ids
  | Exit msg =>
      msg = "Only one annotation found for time slot."
      /\ exists slot id part,
           slot ∈ time_order unordered_ids
           /\ time_slots_to_annotations unordered_graph !! fst slot
              = Some [(id, daughter, part)]
  | _ => False
  end.
Proof.
  apply (rerun_on_unshared_slots unordered_graph ∅).
  intros slot Hslot.
  apply elem_of_cons in Hslot as [->|Hslot].
  { exists "ann0", parent, start, (ann "ann0" "u1" "ts5" "ts3"), 5.
    repeat split. }
  apply elem_of_cons in Hslot as [->|Hslot].
  { exists "ann0", parent, end_, (ann "ann0" "u1" "ts5" "ts3"), 3.
    repeat split. }
  apply elem_of_nil in Hslot as [].
Defined.

(** The document that the script writes for [scenario] shares no time
    slot between two annotations; the script run on it raises an
    error. *)
Lemma rerun_on_flexibilized_scenario :
  rmap (fun f => (reduced (time_order f), annotation_store f, tiers f,
                  linguistic_types f))
    (flexibilize 10 scenario)
  = Ok (time_order flexibilized_scenario,
        annotation_store flexibilized_scenario,
        tiers flexibilized_scenario,
        linguistic_types flexibilized_scenario)
  /\ NoDup (flat_map (fun a => [start_time_slot a.2; end_time_slot a.2])
              (map_to_list (annotation_store flexibilized_scenario)))
  /\ flexibilize 10 flexibilized_scenario
     = Raise "Cannot determine parent annotation for middle daughter annotation ann1.".
Proof.
  split; [vm_compute; reflexivity|].
  split; [|vm_compute; reflexivity].
  apply (bool_decide_unpack _). vm_compute. reflexivity.
Qed.

End RerunRuns.

(** ** The importer: the time order *)

Section TimeOrderFacts.
Import Elan.

Lemma has_set_time_value (order : TimeOrder Z) (id id' : string) (v : Z) :
  has_time_slot (set_time_value order id v) id' = has_time_slot order id'.
Proof.
  induction order as [|[i w] order IH]; cbn; [reflexivity|].
  destruct (String.eqb i id) eqn:E; cbn; [reflexivity|].
  rewrite IH. reflexivity.
Qed.

Lemma get_set_same (order : TimeOrder Z) (id : string) (v : Z) :
  has_time_slot order id = true ->
  get_time_value (set_time_value order id v) id = Some v.
Proof.
  induction order as [|[i w] order IH]; cbn; [discriminate|].
  destruct (String.eqb i id) eqn:E; cbn; rewrite E; [reflexivity|].
  exact IH.
Qed.

Lemma get_set_other (order : TimeOrder Z) (id id' : string) (v : Z) :
  id <> id' ->
  get_time_value (set_time_value order id v) id' = get_time_value order id'.
Proof.
  intros Hne. induction order as [|[i w] order IH]; cbn; [reflexivity|].
  destruct (String.eqb i id) eqn:E; cbn.
  - apply String.eqb_eq in E as ->.
    apply String.eqb_neq in Hne. rewrite Hne. reflexivity.
  - rewrite IH. reflexivity.
Qed.

End TimeOrderFacts.

(** ** The importer: one word *)

Section OneWord.
Import Elan ImportWordtimes.

Context (refs : gmap string (list string * list string)).
Context (store : gmap string Annotation).

(** The time order after a word has got its times: the parent annotation
    made wider where the word does not fit, then the two slots of the
    word set. *)
Lemma set_word_times_Ok
    (a : Annotation) (vs vs' : Vars) (order order' : TimeOrder Z) :
  set_word_times refs store a (vs, order) = Ok (vs', order') ->
  is_Some (annotation_to_parent_annotation vs !! annotation_id a) ->
  exists p s e ps pe,
    word_times refs store (annotation_to_parent_annotation vs)
      (parent_annotation_to_daughter_annotations vs) a = Some (p, s, e)
    /\ get_time_value order (start_time_slot p) = Some ps
    /\ get_time_value order (end_time_slot p) = Some pe
    /\ annotation_to_parent_annotation vs' = annotation_to_parent_annotation vs
    /\ parent_annotation_to_daughter_annotations vs'
       = parent_annotation_to_daughter_annotations vs
    /\ let o1 := if s <? ps then set_time_value order (start_time_slot p) s
                 else order in
       let o2 := if e >? pe then set_time_value o1 (end_time_slot p) e
                 else o1 in
       order' = set_time_value (set_time_value o2 (start_time_slot a) s)
                  (end_time_slot a) e
       /\ has_time_slot order (start_time_slot a) = true
       /\ has_time_slot order (end_time_slot a) = true
       /\ (s < ps -> has_time_slot order (start_time_slot p) = true)
       /\ (e > pe -> has_time_slot order (end_time_slot p) = true).
Proof.
  intros Hrun [pid Hpid]. revert Hrun.
  unfold set_word_times, word_times. rewrite Hpid.
  unfold get_annotation_by_id, set_slot, get_start_time, get_end_time.
  cbn.
  repeat (first [case_match | case_result]; cbn in *; try discriminate).
  all: intros [= <- <-]; do 5 eexists.
  all: repeat match goal with
         | H : has_time_slot (set_time_value _ _ _) _ = _ |- _ =>
             rewrite has_set_time_value in H
         | H : (_ <? _) = _ |- _ => rewrite H; apply Z.ltb_lt in H || apply Z.ltb_ge in H
         | H : (_ >? _) = _ |- _ => rewrite H; rewrite Z.gtb_ltb in H;
                                    apply Z.ltb_lt in H || apply Z.ltb_ge in H
         end.
  all: repeat split; try eassumption; try reflexivity; try lia.
  all: intros ?; first [assumption | lia].
Qed.




End OneWord.

(** ** The importer: the number of words *)

Section WordCount.
Import Elan ImportWordtimes.

Context (refs : gmap string (list string * list string)).
Context (store : gmap string Annotation).

Lemma insert_by_key_perm (x : Z * string) (l : list (Z * string)) :
  insert_by_key x l ≡ₚ x :: l.
Proof.
  induction l as [|y l IH]; cbn; [reflexivity|].
  destruct (fst x <=? fst y); [reflexivity|].
  rewrite IH. apply Permutation_swap.
Qed.

Lemma with_keys_snd (l : list string) (kl : list (Z * string)) :
  with_keys l = Some kl -> map snd kl = l.
Proof.
  revert kl. induction l as [|x l IH]; intros kl; cbn.
  - intros [= <-]. reflexivity.
  - destruct (remove_ann x); [|discriminate].
    destruct (with_keys l) as [r|]; [|discriminate].
    intros [= <-]. cbn. rewrite (IH r eq_refl). reflexivity.
Qed.

Lemma sorted_by_remove_ann_perm (l sorted : list string) :
  sorted_by_remove_ann l = Ok sorted -> sorted ≡ₚ l.
Proof.
  unfold sorted_by_remove_ann.
  destruct (with_keys l) as [kl|] eqn:E; [|discriminate].
  intros [= <-]. rewrite <- (with_keys_snd _ _ E).
  apply Permutation_map. clear E.
  induction kl as [|x kl IH]; cbn; [reflexivity|].
  rewrite insert_by_key_perm, IH. reflexivity.
Qed.





(** The second pass of the script goes through the tiers and, in each,
    through its annotations: one loop over all of them in a row. *)
Lemma second_pass_in_a_row
    (ts : list Tier) (names : list string)
    (annotations : list (list Annotation)) (st : Vars * TimeOrder Z) :
  Forall2 (fun name l =>
             exists tier, get_tier_by_id ts name = Some tier
                          /\ get_annotations store tier = Ok l)
    names annotations ->
  for_each (set_word_times_in_tier refs store ts) names st
  = for_each (set_word_times refs store) (concat annotations) st.
Proof.
  intros Hall. revert st.
  induction Hall as [|name l names annotations (tier & Ht & Hl) _ IH];
    intros st; [reflexivity|].
  cbn [for_each concat]. rewrite for_each_app.
  unfold set_word_times_in_tier at 1. rewrite Ht. cbn [attribute_error rbind].
  rewrite Hl. cbn [rbind].
  destruct (for_each (set_word_times refs store) l st); cbn [rbind];
    [apply IH|reflexivity..].
Qed.


End WordCount.

Section WordCountRuns.
Import Elan ImportWordtimes.



Example three_words_stop :
  import_wordtimes default_args three_words toolbox_u1
  = Exit "Could not determine position of word world in parent unit u1".
Proof. vm_compute. reflexivity. Qed.

End WordCountRuns.

(** ** The importer: words inside their annotation unit *)

Section Containment.
Import Elan ImportWordtimes.

Context (refs : gmap string (list string * list string)).
Context (store : gmap string Annotation).

Lemma elem_of_time_slots (x : string) (l : list Annotation) :
  x ∈ flat_map time_slots_of l
  <-> exists a, a ∈ l /\ (x = start_time_slot a \/ x = end_time_slot a).
Proof.
  rewrite list_elem_of_In, in_flat_map. split.
  - intros (a & Ha & Hx). exists a. rewrite list_elem_of_In. split; [exact Ha|].
    cbn in Hx. destruct Hx as [<-|[<-|[]]]; auto.
  - intros (a & Ha & Hx). exists a. rewrite <- list_elem_of_In.
    split; [exact Ha|]. cbn. destruct Hx as [->| ->]; auto.
Qed.

(** Different annotations of a list without a shared time slot have four
    different time slots. *)
Lemma time_slots_apart (l : list Annotation) (p q : Annotation) :
  NoDup (flat_map time_slots_of l) -> p ∈ l -> q ∈ l ->
  start_time_slot p <> end_time_slot p
  /\ (p <> q ->
      start_time_slot p <> start_time_slot q
      /\ start_time_slot p <> end_time_slot q
      /\ end_time_slot p <> start_time_slot q
      /\ end_time_slot p <> end_time_slot q).
Proof.
  revert p q. induction l as [|x l IH]; intros p q Hnodup Hp Hq.
  { apply elem_of_nil in Hp as []. }
  cbn [flat_map time_slots_of app] in Hnodup.
  apply NoDup_cons in Hnodup as [H1 Hnodup].
  apply NoDup_cons in Hnodup as [H2 Hnodup].
  apply not_elem_of_cons in H1 as [H1 H1'].
  assert (forall a, a ∈ l ->
            start_time_slot x <> start_time_slot a
            /\ start_time_slot x <> end_time_slot a
            /\ end_time_slot x <> start_time_slot a
            /\ end_time_slot x <> end_time_slot a) as Hx.
  { intros a Ha. repeat split; intros E.
    - apply H1'. apply elem_of_time_slots. eauto.
    - apply H1'. apply elem_of_time_slots. eauto.
    - apply H2. apply elem_of_time_slots. eauto.
    - apply H2. apply elem_of_time_slots. eauto. }
  apply elem_of_cons in Hp as [->|Hp]; apply elem_of_cons in Hq as [->|Hq].
  - split; [exact H1|]. intros Hne. congruence.
  - split; [exact H1|]. intros _. apply Hx. exact Hq.
  - split; [exact (proj1 (IH p p Hnodup Hp Hp))|]. intros _.
    destruct (Hx p Hp) as (E1 & E2 & E3 & E4).
    split_and!; intros E; symmetry in E; contradiction.
  - exact (IH p q Hnodup Hp Hq).
Qed.

(** The time order after one word. *)
Lemma get_after_one_word
    (order : TimeOrder Z) (a p : Annotation) (s e ps pe : Z) (x : string) :
  get_time_value order (start_time_slot p) = Some ps ->
  get_time_value order (end_time_slot p) = Some pe ->
  has_time_slot order (start_time_slot a) = true ->
  has_time_slot order (end_time_slot a) = true ->
  (s < ps -> has_time_slot order (start_time_slot p) = true) ->
  (e > pe -> has_time_slot order (end_time_slot p) = true) ->
  start_time_slot a <> end_time_slot a ->
  start_time_slot p <> end_time_slot p ->
  start_time_slot a <> start_time_slot p ->
  start_time_slot a <> end_time_slot p ->
  end_time_slot a <> start_time_slot p ->
  end_time_slot a <> end_time_slot p ->
  get_time_value
    (set_time_value
       (set_time_value
          (let o1 := if s <? ps then set_time_value order (start_time_slot p) s
                     else order in
           if e >? pe then set_time_value o1 (end_time_slot p) e else o1)
          (start_time_slot a) s)
       (end_time_slot a) e) x
  = if decide (x = end_time_slot a) then Some e
    else if decide (x = start_time_slot a) then Some s
    else if decide (x = end_time_slot p) then Some (Z.max pe e)
    else if decide (x = start_time_slot p) then Some (Z.min ps s)
    else get_time_value order x.
Proof.
  intros Hps Hpe Ha1 Ha2 Hp1 Hp2 N1 N2 N3 N4 N5 N6. cbn zeta.
  destruct (decide (x = end_time_slot a)) as [->|X1].
  { apply get_set_same. rewrite has_set_time_value.
    destruct (e >? pe), (s <? ps); rewrite ?has_set_time_value; exact Ha2. }
  rewrite get_set_other by congruence.
  destruct (decide (x = start_time_slot a)) as [->|X2].
  { apply get_set_same.
    destruct (e >? pe), (s <? ps); rewrite ?has_set_time_value; exact Ha1. }
  rewrite get_set_other by congruence.
  destruct (decide (x = end_time_slot p)) as [->|X3].
  { destruct (e >? pe) eqn:E.
    - rewrite Z.gtb_ltb in E. apply Z.ltb_lt in E.
      rewrite get_set_same.
      + f_equal. lia.
      + destruct (s <? ps); rewrite ?has_set_time_value; apply Hp2; lia.
    - rewrite Z.gtb_ltb in E. apply Z.ltb_ge in E.
      destruct (s <? ps); rewrite ?get_set_other by congruence;
        rewrite Hpe; f_equal; lia. }
  destruct (decide (x = start_time_slot p)) as [->|X4].
  { destruct (e >? pe); rewrite ?get_set_other by congruence.
    - destruct (s <? ps) eqn:E.
      + apply Z.ltb_lt in E. rewrite get_set_same by (apply Hp1; lia).
        f_equal. lia.
      + apply Z.ltb_ge in E. rewrite Hps. f_equal. lia.
    - destruct (s <? ps) eqn:E.
      + apply Z.ltb_lt in E. rewrite get_set_same by (apply Hp1; lia).
        f_equal. lia.
      + apply Z.ltb_ge in E. rewrite Hps. f_equal. lia. }
  destruct (e >? pe), (s <? ps); rewrite ?get_set_other by congruence;
    reflexivity.
Qed.

Lemma foldl_min_le (l : list Z) (x : Z) : foldl Z.min x l <= x.
Proof.
  revert x. induction l as [|y l IH]; intros x; cbn; [lia|].
  specialize (IH (Z.min x y)). lia.
Qed.

Lemma foldl_max_ge (l : list Z) (x : Z) : x <= foldl Z.max x l.
Proof.
  revert x. induction l as [|y l IH]; intros x; cbn; [lia|].
  specialize (IH (Z.max x y)). lia.
Qed.

Lemma foldl_min_elem (l : list Z) (x y : Z) : y ∈ l -> foldl Z.min x l <= y.
Proof.
  revert x. induction l as [|z l IH]; intros x Hy; cbn.
  - apply elem_of_nil in Hy as [].
  - apply elem_of_cons in Hy as [->|Hy]; [|apply IH; exact Hy].
    pose proof (foldl_min_le l (Z.min x z)). lia.
Qed.

Lemma foldl_max_elem (l : list Z) (x y : Z) : y ∈ l -> y <= foldl Z.max x l.
Proof.
  revert x. induction l as [|z l IH]; intros x Hy; cbn.
  - apply elem_of_nil in Hy as [].
  - apply elem_of_cons in Hy as [->|Hy]; [|apply IH; exact Hy].
    pose proof (foldl_max_ge l (Z.max x z)). lia.
Qed.

(** What the pass over the words makes of the time order, where no two
    of the words and parent annotations share a time slot. *)
Lemma pass_effect (parents : list Annotation) (annotations : list Annotation) :
  forall (vs vs' : Vars) (order order' : TimeOrder Z),
  for_each (set_word_times refs store) annotations (vs, order) = Ok (vs', order') ->
  let a2p := annotation_to_parent_annotation vs in
  let p2d := parent_annotation_to_daughter_annotations vs in
  (forall a, a ∈ annotations -> is_Some (a2p !! annotation_id a)) ->
  (forall a p s e, a ∈ annotations ->
     word_times refs store a2p p2d a = Some (p, s, e) -> p ∈ parents) ->
  NoDup (flat_map time_slots_of annotations ++ flat_map time_slots_of parents) ->
  (forall x, x ∉ flat_map time_slots_of annotations ->
     x ∉ flat_map time_slots_of parents ->
     get_time_value order' x = get_time_value order x)
  /\ (forall a, a ∈ annotations ->
        exists p s e ps pe,
          word_times refs store a2p p2d a = Some (p, s, e)
          /\ get_time_value order' (start_time_slot a) = Some s
          /\ get_time_value order' (end_time_slot a) = Some e
          /\ get_time_value order (start_time_slot p) = Some ps
          /\ get_time_value order (end_time_slot p) = Some pe)
  /\ (forall p ps pe, p ∈ parents ->
        get_time_value order (start_time_slot p) = Some ps ->
        get_time_value order (end_time_slot p) = Some pe ->
        get_time_value order' (start_time_slot p)
        = Some (foldl Z.min ps (start_times_under refs store a2p p2d p annotations))
        /\ get_time_value order' (end_time_slot p)
           = Some (foldl Z.max pe (end_times_under refs store a2p p2d p annotations))).
Proof.
  induction annotations as [|a rest IH];
    intros vs vs' order order' Hrun a2p p2d Hres Hpar Hnodup.
  { cbn in Hrun. injection Hrun as <- <-. split; [reflexivity|]. split.
    - intros a Ha. apply elem_of_nil in Ha as [].
    - intros p ps pe _ Hps Hpe. cbn. auto. }
  cbn [for_each] in Hrun.
  destruct (set_word_times refs store a (vs, order)) as [[vs1 order1]| | |]
    eqn:Hstep; try discriminate Hrun.
  cbn [rbind] in Hrun.
  destruct (set_word_times_Ok refs store a vs vs1 order order1 Hstep)
    as (p & s & e & ps & pe & Hwt & Hps & Hpe & E1 & E2 & Horder1
        & Ha1 & Ha2 & Hp1 & Hp2).
  { apply Hres. rewrite elem_of_cons. auto. }
  fold a2p p2d in Hwt.
  assert (p ∈ parents) as Hp by (eapply (Hpar a); [rewrite elem_of_cons; auto|exact Hwt]).
  cbn [flat_map time_slots_of app] in Hnodup.
  apply NoDup_cons in Hnodup as [Hs Hnodup].
  apply NoDup_cons in Hnodup as [He Hnodup].
  apply not_elem_of_cons in Hs as [Hse Hs].
  apply not_elem_of_app in Hs as [HsD HsP].
  apply not_elem_of_app in He as [HeD HeP].
  pose proof Hnodup as HnodupP. apply NoDup_app in HnodupP as (_ & _ & HnodupP).
  assert (forall q, q ∈ parents ->
            start_time_slot a <> start_time_slot q
            /\ start_time_slot a <> end_time_slot q
            /\ end_time_slot a <> start_time_slot q
            /\ end_time_slot a <> end_time_slot q) as Hapart.
  { intros q Hq. split_and!; intros E.
    - apply HsP. apply elem_of_time_slots. eauto.
    - apply HsP. apply elem_of_time_slots. eauto.
    - apply HeP. apply elem_of_time_slots. eauto.
    - apply HeP. apply elem_of_time_slots. eauto. }
  destruct (Hapart p Hp) as (N3 & N4 & N5 & N6).
  destruct (time_slots_apart parents p p HnodupP Hp Hp) as [N2 _].
  assert (forall x,
            get_time_value order1 x
            = if decide (x = end_time_slot a) then Some e
              else if decide (x = start_time_slot a) then Some s
              else if decide (x = end_time_slot p) then Some (Z.max pe e)
              else if decide (x = start_time_slot p) then Some (Z.min ps s)
              else get_time_value order x) as Hget.
  { intros x. rewrite Horder1. apply get_after_one_word; assumption. }
  clear Horder1.
  (* the parent annotations after the word *)
  assert (forall q, q ∈ parents ->
            get_time_value order1 (start_time_slot q)
            = (if decide (p = q) then Some (Z.min ps s)
               else get_time_value order (start_time_slot q))
            /\ get_time_value order1 (end_time_slot q)
               = (if decide (p = q) then Some (Z.max pe e)
                  else get_time_value order (end_time_slot q))) as Hparents.
  { intros q Hq. destruct (Hapart q Hq) as (M1 & M2 & M3 & M4).
    rewrite !Hget.
    destruct (decide (p = q)) as [<-|Hne].
    - repeat (case_decide; try congruence); auto.
    - destruct (time_slots_apart parents p q HnodupP Hp Hq) as [_ Hpq].
      destruct (Hpq Hne) as (Q1 & Q2 & Q3 & Q4).
      repeat (case_decide; try congruence); auto. }
  destruct (IH vs1 vs' order1 order' Hrun) as (Hframe & Hdau & Hpars).
  { intros a0 Ha0. rewrite E1. apply Hres. rewrite elem_of_cons. auto. }
  { intros a0 p0 s0 e0 Ha0. rewrite E1, E2. apply Hpar.
    rewrite elem_of_cons. auto. }
  { exact Hnodup. }
  rewrite E1, E2 in Hdau, Hpars. fold a2p p2d in Hdau, Hpars.
  split; [|split].
  - intros x Hx HxP.
    cbn [flat_map time_slots_of app] in Hx.
    apply not_elem_of_cons in Hx as [X1 Hx].
    apply not_elem_of_cons in Hx as [X2 Hx].
    rewrite (Hframe x Hx HxP), Hget.
    assert (x <> start_time_slot p /\ x <> end_time_slot p) as [X3 X4].
    { split; intros ->; apply HxP; apply elem_of_time_slots; eauto. }
    repeat (case_decide; try congruence); auto.
  - intros a0 Ha0. apply elem_of_cons in Ha0 as [->|Ha0].
    + exists p, s, e, ps, pe. split; [exact Hwt|].
      rewrite !(Hframe _) by assumption. rewrite !Hget.
      split_and!; try assumption; repeat (case_decide; try congruence); auto.
    + destruct (Hdau a0 Ha0) as (p0 & s0 & e0 & ps0 & pe0 & W & G1 & G2 & G3 & G4).
      assert (p0 ∈ parents) as Hp0
        by (eapply (Hpar a0); [rewrite elem_of_cons; auto|exact W]).
      destruct (Hparents p0 Hp0) as [P1 P2].
      rewrite G3 in P1. rewrite G4 in P2.
      destruct (decide (p = p0)) as [<-|Hne].
      * exists p, s0, e0, ps, pe. auto.
      * exists p0, s0, e0, ps0, pe0. auto.
  - intros q qs qe Hq Hqs Hqe.
    destruct (Hparents q Hq) as [P1 P2].
    unfold start_times_under, end_times_under. cbn [omap list_omap].
    fold (start_times_under refs store a2p p2d q rest).
    fold (end_times_under refs store a2p p2d q rest).
    rewrite Hwt.
    destruct (decide (p = q)) as [<-|Hne].
    + rewrite Hps in Hqs. rewrite Hpe in Hqe.
      injection Hqs as <-. injection Hqe as <-.
      cbn [foldl]. apply (Hpars p _ _ Hq P1 P2).
    + rewrite Hqs in P1. rewrite Hqe in P2. apply (Hpars q _ _ Hq P1 P2).
Qed.

Lemma foldl_min_cases (l : list Z) (x : Z) :
  foldl Z.min x l = x \/ (foldl Z.min x l ∈ l /\ foldl Z.min x l < x).
Proof.
  revert x. induction l as [|y l IH]; intros x; cbn; [auto|].
  destruct (IH (Z.min x y)) as [E|[Hin Hlt]].
  - rewrite E. destruct (Z.min_spec x y) as [[_ ->]|[Hle ->]]; [auto|].
    destruct (decide (y = x)) as [->|]; [auto|].
    right. split; [rewrite elem_of_cons; auto|lia].
  - right. split; [rewrite elem_of_cons; auto|lia].
Qed.

Lemma foldl_max_cases (l : list Z) (x : Z) :
  foldl Z.max x l = x \/ (foldl Z.max x l ∈ l /\ x < foldl Z.max x l).
Proof.
  revert x. induction l as [|y l IH]; intros x; cbn; [auto|].
  destruct (IH (Z.max x y)) as [E|[Hin Hlt]].
  - rewrite E. destruct (Z.max_spec x y) as [[Hlt ->]|[_ ->]]; [|auto].
    right. split; [rewrite elem_of_cons; auto|lia].
  - right. split; [rewrite elem_of_cons; auto|lia].
Qed.

(** C5.  Where the words and their parent annotations have time slots
    of their own, no slot shared between any two of them, the pass that
    sets the word times leaves every word inside its parent annotation:
    the start of the parent is the least of its old start and the new
    starts of its words, its end the greatest of its old end and their
    new ends.  So a parent annotation is never made shorter, and it is
    changed only to the start, or end, of a word that did not fit. *)
Theorem words_stay_inside
    (annotations parents : list Annotation)
    (vs vs' : Vars) (order order' : TimeOrder Z) :
  for_each (set_word_times refs store) annotations (vs, order) = Ok (vs', order') ->
  let a2p := annotation_to_parent_annotation vs in
  let p2d := parent_annotation_to_daughter_annotations vs in
  (forall a, a ∈ annotations -> is_Some (a2p !! annotation_id a)) ->
  (forall a p s e, a ∈ annotations ->
     word_times refs store a2p p2d a = Some (p, s, e) -> p ∈ parents) ->
  NoDup (flat_map time_slots_of annotations ++ flat_map time_slots_of parents) ->
  (forall d, d ∈ annotations ->
     exists p s e p_start p_end,
       word_times refs store a2p p2d d = Some (p, s, e)
       /\ get_time_value order' (start_time_slot d) = Some s
       /\ get_time_value order' (end_time_slot d) = Some e
       /\ get_time_value order' (start_time_slot p) = Some p_start
       /\ get_time_value order' (end_time_slot p) = Some p_end
       /\ p_start <= s
       /\ e <= p_end)
  /\ (forall p ps pe, p ∈ parents ->
        get_time_value order (start_time_slot p) = Some ps ->
        get_time_value order (end_time_slot p) = Some pe ->
        let new_starts := start_times_under refs store a2p p2d p annotations in
        let new_ends := end_times_under refs store a2p p2d p annotations in
        get_time_value order' (start_time_slot p) = Some (foldl Z.min ps new_starts)
        /\ get_time_value order' (end_time_slot p) = Some (foldl Z.max pe new_ends)
        /\ foldl Z.min ps new_starts <= ps
        /\ pe <= foldl Z.max pe new_ends
        /\ (foldl Z.min ps new_starts = ps
            \/ (foldl Z.min ps new_starts ∈ new_starts
                /\ foldl Z.min ps new_starts < ps))
        /\ (foldl Z.max pe new_ends = pe
            \/ (foldl Z.max pe new_ends ∈ new_ends
                /\ pe < foldl Z.max pe new_ends))).
Proof.
  intros Hrun a2p p2d Hres Hpar Hnodup.
  destruct (pass_effect parents annotations vs vs' order order' Hrun
              Hres Hpar Hnodup) as (_ & Hdau & Hpars).
  fold a2p p2d in Hdau, Hpars.
  split.
  - intros d Hd.
    destruct (Hdau d Hd) as (p & s & e & ps & pe & Hwt & G1 & G2 & G3 & G4).
    assert (p ∈ parents) as Hp by (eapply Hpar; eassumption).
    destruct (Hpars p ps pe Hp G3 G4) as [P1 P2].
    exists p, s, e, (foldl Z.min ps (start_times_under refs store a2p p2d p annotations)),
      (foldl Z.max pe (end_times_under refs store a2p p2d p annotations)).
    split_and!; try assumption.
    + apply foldl_min_elem. unfold start_times_under.
      apply list_elem_of_omap. exists d. split; [exact Hd|].
      rewrite Hwt. rewrite decide_True by reflexivity. reflexivity.
    + apply foldl_max_elem. unfold end_times_under.
      apply list_elem_of_omap. exists d. split; [exact Hd|].
      rewrite Hwt. rewrite decide_True by reflexivity. reflexivity.
  - intros p ps pe Hp Hps Hpe new_starts new_ends.
    destruct (Hpars p ps pe Hp Hps Hpe) as [P1 P2].
    split_and!; try assumption.
    + apply foldl_min_le.
    + apply foldl_max_ge.
    + apply foldl_min_cases.
    + apply foldl_max_cases.
Qed.

End Containment.

Section ContainmentRuns.
Import Elan ImportWordtimes.

Lemma words_stay_inside_witness :
  get_time_value two_words_after.2 "ts1" = Some 500
  /\ get_time_value two_words_after.2 "ts6" = Some 2000.
Proof.
  destruct (words_stay_inside u1_word_times (annotation_store two_words)
              [ann "ann1" "hello" "ts2" "ts3"; ann "ann2" "world" "ts4" "ts5"]
              [ann "ann0" "u1" "ts1" "ts6"]
              (vars_after_first_pass u1_word_times two_words)
              two_words_after.1 (time_order two_words) two_words_after.2)
    as [_ Hparent].
  - vm_compute. reflexivity.
  - intros a Ha.
    apply elem_of_cons in Ha as [->|Ha]; [vm_compute; eauto|].
    apply elem_of_cons in Ha as [->|Ha]; [vm_compute; eauto|].
    apply elem_of_nil in Ha as [].
  - intros a p s e Ha Hwt.
    apply elem_of_cons in Ha as [->|Ha].
    { vm_compute in Hwt. injection Hwt as <- _ _. rewrite elem_of_cons. auto. }
    apply elem_of_cons in Ha as [->|Ha].
    { vm_compute in Hwt. injection Hwt as <- _ _. rewrite elem_of_cons. auto. }
    apply elem_of_nil in Ha as [].
  - apply (bool_decide_unpack _). vm_compute. reflexivity.
  - destruct (Hparent (ann "ann0" "u1" "ts1" "ts6") 1000 1800)
      as (H1 & H2 & _); [rewrite elem_of_cons; auto|reflexivity|reflexivity|].
    split; [exact H1|exact H2].
Defined.

(** In [shared_slots] the first word starts in the time slot in which
    its parent annotation starts and the second ends in the slot in
    which it ends.  Both words lie inside the parent annotation, from
    1000 to 5000, before and after; all the same the parent annotation
    starts at 1500 and ends at 4000 when the importer is done. *)
Lemma shared_slots_shrink_the_parent :
  rmap time_order (import_wordtimes default_args shared_slots toolbox_inside)
  = Ok [ ("ts1", Some 1500); ("ts2", Some 2500); ("ts3", Some 3000);
         ("ts4", Some 4000) ]
  /\ annotation_store shared_slots !! "ann0" = Some (ann "ann0" "u1" "ts1" "ts4")
  /\ get_time_value (time_order shared_slots) "ts1" = Some 1000
  /\ get_time_value (time_order shared_slots) "ts4" = Some 5000
  /\ to_milliseconds "1.500" = Some 1500
  /\ to_milliseconds "4.000" = Some 4000
  /\ 1000 <= 1500 /\ 4000 <= 5000.
Proof. split_and!; try (vm_compute; reflexivity); lia. Qed.

(** With a first word that ends late the parent annotation is made wider
    for it, to 6000, and then set to the end of the second word, 5500,
    with which it shares the slot: the first word, [ts1] to [ts2], ends
    after its parent annotation, [ts1] to [ts4]. *)
Example shared_slots_leave_a_word_outside :
  rmap time_order (import_wordtimes default_args shared_slots toolbox_late_end)
  = Ok [ ("ts1", Some 1500); ("ts2", Some 6000); ("ts3", Some 3000);
         ("ts4", Some 5500) ].
Proof. vm_compute. reflexivity. Qed.

End ContainmentRuns.


(** * Further properties *)

(** ** Loops and dictionaries *)

Lemma for_each_invariant {A S} (P : S -> Prop) (body : A -> S -> result S)
    (l : list A) (s s' : S) :
  (forall x s1 s2, x ∈ l -> P s1 -> body x s1 = Ok s2 -> P s2) ->
  P s -> for_each body l s = Ok s' -> P s'.
Proof.
  revert s. induction l as [|x l IH]; intros s Hstep Hs; cbn [for_each].
  - intros [= <-]. exact Hs.
  - destruct (body x s) as [s1| | |] eqn:E; cbn [rbind]; try discriminate.
    apply IH.
    + intros y s2 s3 Hy. apply Hstep. rewrite elem_of_cons. auto.
    + apply (Hstep x s s1); [rewrite elem_of_cons; auto|exact Hs|exact E].
Qed.

Lemma for_each_raises {A S} (body : A -> S -> result S) (l : list A) (s : S)
    (msg : string) :
  for_each body l s = Raise msg ->
  exists x s1, x ∈ l /\ body x s1 = Raise msg.
Proof.
  revert s. induction l as [|x l IH]; intros s; cbn [for_each]; [discriminate|].
  destruct (body x s) as [s1| | |] eqn:E; cbn [rbind]; try discriminate.
  - intros H. destruct (IH _ H) as (y & s2 & Hy & Hraise).
    exists y, s2. rewrite elem_of_cons. auto.
  - intros [= <-]. exists x, s. rewrite elem_of_cons. auto.
Qed.

Lemma append_at_same {A} (k : string) (x : A) (d : gmap string (list A)) :
  exists l, append_at k x d !! k = Some l /\ x ∈ l.
Proof.
  unfold append_at. destruct (d !! k) as [l|].
  - exists (l ++ [x]). rewrite lookup_insert_eq. split; [reflexivity|].
    rewrite elem_of_app, elem_of_cons. auto.
  - exists [x]. rewrite lookup_insert_eq. split; [reflexivity|].
    rewrite elem_of_cons. auto.
Qed.

Lemma append_at_grows {A} (k k' : string) (x : A) (d : gmap string (list A))
    (l : list A) :
  d !! k' = Some l -> exists l', append_at k x d !! k' = Some (l ++ l').
Proof.
  intros Hl. unfold append_at.
  destruct (decide (k = k')) as [->|Hne].
  - rewrite Hl, lookup_insert_eq. eauto.
  - destruct (d !! k); rewrite lookup_insert_ne by exact Hne;
      exists []; rewrite app_nil_r; exact Hl.
Qed.

(** * Further properties of the importer *)

(** ** The lines of the Toolbox file *)

Section ToolboxLines.
Import ImportWordtimes.

Lemma until_newline_parts (s : string) :
  s = (until_newline s).1 +:+ (until_newline s).2
  /\ ~ In "010"%char (list_ascii_of_string (until_newline s).1).
Proof.
  induction s as [|c s [IH1 IH2]]; [split; [reflexivity|intros []]|].
  cbn [until_newline]. destruct (Ascii.eqb c "010") eqn:E.
  { split; [reflexivity|intros []]. }
  destruct (until_newline s) as [g tl]. cbn [fst snd] in *.
  change (String c g +:+ tl) with (String c (g +:+ tl)). split; [congruence|].
  cbn [list_ascii_of_string]. intros [->|H]; [|exact (IH2 H)].
  rewrite Ascii.eqb_refl in E. discriminate E.
Qed.

Lemma dot_plus_eol_Some (s g : string) :
  dot_plus_eol s = Some g ->
  exists tl, s = g +:+ tl
    /\ (tl = "" \/ tl = String "010" "")
    /\ g <> ""
    /\ ~ In "010"%char (list_ascii_of_string g).
Proof.
  unfold dot_plus_eol. destruct (until_newline_parts s) as [Hs Hg].
  destruct (until_newline s) as [g' tl]. cbn [fst snd] in *.
  destruct g' as [|c g']; [discriminate|].
  destruct (String.eqb tl "") eqn:E1; cbn [orb].
  - intros [= <-]. apply String.eqb_eq in E1. exists tl.
    split_and!; [exact Hs|auto|discriminate|exact Hg].
  - destruct (String.eqb tl (String "010" "")) eqn:E2; [|discriminate].
    intros [= <-]. apply String.eqb_eq in E2. exists tl.
    split_and!; [exact Hs|auto|discriminate|exact Hg].
Qed.

Lemma blanks_then_contents_Some (s g : string) :
  blanks_then_contents s = Some g ->
  exists pre tl, s = pre +:+ g +:+ tl
    /\ (tl = "" \/ tl = String "010" "")
    /\ g <> ""
    /\ ~ In "010"%char (list_ascii_of_string g).
Proof.
  induction s as [|c s IH]; cbn [blanks_then_contents]; [discriminate|].
  destruct (Py.isspace c); [|discriminate].
  destruct (blanks_then_contents s) as [g'|].
  - intros [= ->]. destruct (IH eq_refl) as (pre & tl & -> & H).
    exists (String c pre), tl. split; [reflexivity|exact H].
  - intros H. destruct (dot_plus_eol_Some _ _ H) as (tl & -> & H').
    exists (String c ""), tl. split; [reflexivity|exact H'].
Qed.

Lemma after_marker_Some (seen : bool) (s g : string) :
  after_marker seen s = Some g ->
  exists pre tl, s = pre +:+ g +:+ tl
    /\ (tl = "" \/ tl = String "010" "")
    /\ g <> ""
    /\ ~ In "010"%char (list_ascii_of_string g).
Proof.
  revert seen. induction s as [|c s IH]; intros seen; [discriminate|].
  cbn [after_marker]. destruct (Py.isspace c) eqn:E.
  - destruct seen; [|discriminate]. apply blanks_then_contents_Some.
  - intros H. destruct (IH _ H) as (pre & tl & -> & H').
    exists (String c pre), tl. split; [reflexivity|exact H'].
Qed.

(** X1.  The contents that [tier_contents_re] finds in a line are the end
    of the line, without the line feed if one ends it: they are not
    empty, have no line feed in them, and the line starts with a
    backslash. *)
Theorem tier_contents_are_the_end_of_the_line (line g : string) :
  tier_contents_re line = Some g ->
  exists pre tl,
    line = String "\" pre +:+ g +:+ tl
    /\ (tl = "" \/ tl = String "010" "")
    /\ g <> ""
    /\ ~ In "010"%char (list_ascii_of_string g).
Proof.
  unfold tier_contents_re. destruct line as [|c line]; [discriminate|].
  destruct (Ascii.eqb_spec c "\") as [->|Hne].
  - intros H. destruct (after_marker_Some _ _ _ H) as (pre & tl & -> & H').
    exists pre, tl. split; [reflexivity|exact H'].
  - destruct c as [[] [] [] [] [] [] [] []]; try discriminate. congruence.
Qed.

Lemma tier_contents_are_the_end_of_the_line_witness :
  exists pre tl,
    String "\" (String "r" (String "e" (String "f" (String " "
      (String "u" (String "1" (String "010" "")))))))
    = String "\" pre +:+ "u1" +:+ tl
    /\ (tl = "" \/ tl = String "010" "")
    /\ "u1" <> ""
    /\ ~ In "010"%char (list_ascii_of_string "u1").
Proof.
  exact (tier_contents_are_the_end_of_the_line
           (String "\" (String "r" (String "e" (String "f" (String " "
              (String "u" (String "1" (String "010" ""))))))))
           "u1" eq_refl).
Defined.

Lemma non_blanks_after_marker (seen : bool) (s : string) :
  is_Some (after_marker seen s) -> non_blanks s <> "" \/ seen = true.
Proof.
  destruct s as [|c s]; cbn [after_marker non_blanks]; [intros [? [=]]|].
  destruct (Py.isspace c).
  - destruct seen; [auto|intros [? [=]]].
  - intros _. left. discriminate.
Qed.

(** X2.  A line in which [tier_contents_re] finds contents has a tier
    marker for [readToolboxFile] too. *)
Theorem lines_with_contents_have_a_marker (line g : string) :
  tier_contents_re line = Some g ->
  exists m, (read_line line).1.1 = Some m /\ m <> "".
Proof.
  unfold read_line, tier_contents_re, tier_marker_re. cbn [fst].
  destruct line as [|c line]; [discriminate|].
  destruct c as [[] [] [] [] [] [] [] []]; try discriminate.
  intros H.
  destruct (non_blanks_after_marker false line) as [Hm|[=]]; [eauto|].
  destruct (non_blanks line) as [|d m]; [congruence|].
  eexists. split; [reflexivity|discriminate].
Qed.

Lemma lines_with_contents_have_a_marker_witness :
  exists m, (read_line "\ref u1").1.1 = Some m /\ m <> "".
Proof.
  exact (lines_with_contents_have_a_marker "\ref u1" "u1" eq_refl).
Defined.

Lemma after_marker_alone (seen : bool) (m : string) :
  non_blanks m = m -> after_marker seen m = None.
Proof.
  revert seen. induction m as [|c m IH]; intros seen; [reflexivity|].
  cbn [non_blanks after_marker]. destruct (Py.isspace c); [discriminate|].
  intros [= H]. apply IH. exact H.
Qed.

(** X3.  A line that is a backslash and a marker and nothing else has that
    marker for [readToolboxFile] and no contents for
    [tier_contents_re]. *)
Theorem marker_alone_has_no_contents (m : string) :
  m <> "" -> non_blanks m = m ->
  read_line (String "\" m) = (Some m, String "\" m, line_ending_re (String "\" m))
  /\ tier_contents_re (String "\" m) = None.
Proof.
  intros Hne Hm. unfold read_line, tier_marker_re, tier_contents_re.
  rewrite Hm, (after_marker_alone _ _ Hm).
  destruct m; [congruence|]. split; reflexivity.
Qed.

Lemma marker_alone_has_no_contents_witness :
  read_line "\ref" = (Some "ref", "\ref", "")
  /\ tier_contents_re "\ref" = None.
Proof.
  refine (marker_alone_has_no_contents "ref" _ eq_refl). discriminate.
Defined.

End ToolboxLines.

(** ** The records of the Toolbox file, again *)

Section Records.
Import ImportWordtimes.

Context (args : Args).

(** X4.  A reference line whose contents cannot be extracted ends the run
    with an error, whatever the lines before it, which did not end it,
    and the lines after it are. *)
Theorem reference_without_contents_ends_the_run
    (before after : list ToolboxLine) (st : Extract) (line ending : string) :
  for_each (extract_line args) before extract_init = Ok st ->
  tier_contents_re line = None ->
  extractWordTimes args
    (before ++ (Some (reference_tier_name args), line, ending) :: after)
  = Exit "Something is wrong. I cannot extract the reference from the reference tier".
Proof.
  intros Hbefore Hline. unfold extractWordTimes.
  rewrite for_each_app, Hbefore. cbn [rbind for_each].
  unfold extract_line at 1. rewrite marker_is_same, Hline. reflexivity.
Qed.

(** X5.  At the reference line that follows a record with word start
    times and word end times the record is entered in the dictionary
    under its reference, in the place of an older record of that
    reference, and the two lists start empty for the next record. *)
Theorem complete_record_is_saved
    (st : Extract) (u line ending g : string) :
  cur_utterance_id st = Some u ->
  cur_word_start_times st <> [] ->
  cur_word_end_times st <> [] ->
  tier_contents_re line = Some g ->
  exists st',
    extract_line args (Some (reference_tier_name args), line, ending) st = Ok st'
    /\ toolbox_refs_to_word_times st' !! u
       = Some (cur_word_start_times st, cur_word_end_times st)
    /\ (forall v, v <> u ->
          toolbox_refs_to_word_times st' !! v = toolbox_refs_to_word_times st !! v)
    /\ cur_utterance_id st' = Some (Py.strip g)
    /\ cur_word_start_times st' = []
    /\ cur_word_end_times st' = [].
Proof.
  intros Hid Hs He Hline. unfold extract_line.
  rewrite marker_is_same, Hline. unfold save_current. rewrite Hid.
  destruct (cur_word_start_times st) as [|s ss]; [congruence|].
  destruct (cur_word_end_times st) as [|e es]; [congruence|].
  cbn. eexists. split; [reflexivity|]. cbn.
  split; [apply lookup_insert_eq|].
  split; [|auto].
  intros v Hv. apply lookup_insert_ne. congruence.
Qed.

(** What is in the dictionary has word start times and word end times. *)
Lemma save_current_keeps_full (st : Extract) :
  map_Forall (fun _ times => times.1 <> [] /\ times.2 <> [])
    (toolbox_refs_to_word_times st) ->
  map_Forall (fun _ times => times.1 <> [] /\ times.2 <> [])
    (toolbox_refs_to_word_times (save_current st)).
Proof.
  intros H. unfold save_current.
  destruct (cur_utterance_id st) as [u|]; [|exact H].
  destruct (cur_word_start_times st) as [|s ss] eqn:Es; [exact H|].
  destruct (cur_word_end_times st) as [|e es] eqn:Ee; [exact H|].
  cbn. apply map_Forall_insert_2; [split; discriminate|exact H].
Qed.

Lemma extract_line_keeps_full (line : ToolboxLine) (st st' : Extract) :
  extract_line args line st = Ok st' ->
  map_Forall (fun _ times => times.1 <> [] /\ times.2 <> [])
    (toolbox_refs_to_word_times st) ->
  map_Forall (fun _ times => times.1 <> [] /\ times.2 <> [])
    (toolbox_refs_to_word_times st').
Proof.
  destruct line as [[m l] e]. unfold extract_line.
  repeat case_match; try discriminate; intros [= <-] Hfull; cbn;
    try exact Hfull; apply save_current_keeps_full; exact Hfull.
Qed.

Lemma extract_lines_keep_full (lines : list ToolboxLine) (st st' : Extract) :
  for_each (extract_line args) lines st = Ok st' ->
  map_Forall (fun _ times => times.1 <> [] /\ times.2 <> [])
    (toolbox_refs_to_word_times st) ->
  map_Forall (fun _ times => times.1 <> [] /\ times.2 <> [])
    (toolbox_refs_to_word_times st').
Proof.
  revert st. induction lines as [|line lines IH]; intros st; cbn [for_each].
  - intros [= <-] H. exact H.
  - destruct (extract_line args line st) as [st1| | |] eqn:E; try discriminate.
    cbn [rbind]. intros Hrun H.
    exact (IH st1 Hrun (extract_line_keeps_full _ _ _ E H)).
Qed.

(** X6.  Every reference in the dictionary that [extractWordTimes]
    returns has at least one word start time and at least one word end
    time. *)
Theorem extracted_records_have_times
    (toolbox_file : list ToolboxLine)
    (refs : gmap string (list string * list string))
    (u : string) (starts ends : list string) :
  extractWordTimes args toolbox_file = Ok refs ->
  refs !! u = Some (starts, ends) ->
  starts <> [] /\ ends <> [].
Proof.
  unfold extractWordTimes. intros Hrun Hu.
  destruct (for_each (extract_line args) toolbox_file extract_init)
    as [st| | |] eqn:Hloop; try discriminate Hrun.
  cbn [rbind] in Hrun. injection Hrun as <-.
  assert (map_Forall (fun _ times => times.1 <> [] /\ times.2 <> [])
            (toolbox_refs_to_word_times st)) as Hfull.
  { apply (extract_lines_keep_full _ _ _ Hloop). apply map_Forall_empty. }
  exact (save_current_keeps_full st Hfull u (starts, ends) Hu).
Qed.


End Records.

Section RecordsRuns.
Import ImportWordtimes.

Lemma complete_record_is_saved_witness :
  exists st',
    extract_line default_args (Some "ref", "\ref u2", "")
      {| toolbox_refs_to_word_times := ∅;
         cur_utterance_id := Some "u1";
         cur_word_start_times := ["0.500"];
         cur_word_end_times := ["1.150"] |} = Ok st'
    /\ toolbox_refs_to_word_times st' !! "u1" = Some (["0.500"], ["1.150"])
    /\ cur_utterance_id st' = Some "u2"
    /\ cur_word_start_times st' = []
    /\ cur_word_end_times st' = [].
Proof.
  destruct (complete_record_is_saved default_args
              {| toolbox_refs_to_word_times := ∅;
                 cur_utterance_id := Some "u1";
                 cur_word_start_times := ["0.500"];
                 cur_word_end_times := ["1.150"] |}
              "u1" "\ref u2" "" "u2" eq_refl)
    as (st' & H1 & H2 & _ & H3 & H4 & H5);
    [discriminate|discriminate|reflexivity|].
  exists st'. auto.
Defined.

Lemma reference_without_contents_ends_the_run_witness :
  extractWordTimes default_args
    ([(Some "ref", "\ref u1", "")] ++ (Some "ref", "\ref", "") :: toolbox_u1)
  = Exit "Something is wrong. I cannot extract the reference from the reference tier".
Proof.
  exact (reference_without_contents_ends_the_run default_args
           [(Some "ref", "\ref u1", "")] toolbox_u1
           {| toolbox_refs_to_word_times := ∅;
              cur_utterance_id := Some "u1";
              cur_word_start_times := [];
              cur_word_end_times := [] |}
           "\ref" "" eq_refl eq_refl).
Defined.

Lemma extracted_records_have_times_witness :
  ["0.500"; "1.200"] <> [] /\ ["1.150"; "2.000"] <> [].
Proof.
  refine (extracted_records_have_times default_args toolbox_u1 u1_word_times
            "u1" _ _ _ eq_refl).
  vm_compute. reflexivity.
Defined.

End RecordsRuns.

(** ** The line endings of the Toolbox file *)

Section LineEndings.
Import ImportWordtimes.

(** X8.  The line ending that [readToolboxFile] puts in the tuple of a
    line is the end of the line: it has carriage returns and line feeds
    only, and what stands before it in the line does not end in one. *)
Theorem line_ending_is_the_end_of_the_line (line : string) :
  exists body,
    line = body +:+ (read_line line).2
    /\ Forall (fun c => c = "013"%char \/ c = "010"%char)
         (list_ascii_of_string (read_line line).2)
    /\ forall c, last (list_ascii_of_string body) = Some c ->
         c <> "013"%char /\ c <> "010"%char.
Proof.
  unfold read_line. cbn [snd].
  induction line as [|c s (body & Hline & Hending & Hbody)].
  - exists "". split_and!; [reflexivity|constructor|discriminate].
  - cbn [line_ending_re].
    destruct (is_line_end c && String.eqb (line_ending_re s) s) eqn:E.
    + apply andb_true_iff in E as [Hc Hs].
      apply String.eqb_eq in Hs. rewrite Hs in Hending.
      exists "". split_and!; [reflexivity| |discriminate].
      cbn [list_ascii_of_string]. constructor; [|exact Hending].
      unfold is_line_end in Hc. apply orb_true_iff in Hc.
      destruct Hc as [Hc|Hc]; apply Ascii.eqb_eq in Hc; auto.
    + exists (String c body). split_and!.
      * change (String c body +:+ line_ending_re s)
          with (String c (body +:+ line_ending_re s)).
        rewrite <- Hline. reflexivity.
      * exact Hending.
      * intros d. cbn [list_ascii_of_string].
        destruct body as [|b body].
        -- cbn. intros [= <-].
           change ("" +:+ line_ending_re s) with (line_ending_re s) in Hline.
           rewrite <- Hline, String.eqb_refl, andb_true_r in E.
           unfold is_line_end in E. apply orb_false_iff in E as [E1 E2].
           apply Ascii.eqb_neq in E1, E2. auto.
        -- cbn [list_ascii_of_string] in *. intros Hd. apply Hbody.
           rewrite <- Hd. reflexivity.
Qed.

End LineEndings.

(** ** The order of the daughters *)

Section DaughterOrder.
Import Elan ImportWordtimes.

Lemma str_starts_not_with_n (n : Z) :
  Py.strip_prefix "nn" (Py.str n) = None.
Proof.
  unfold Py.str, NilZero.string_of_int, NilZero.string_of_uint.
  destruct (Z.to_int n) as [d|d]; [|reflexivity].
  destruct d; reflexivity.
Qed.

(** X9.  [remove_ann] reads the number of an annotation id under both of
    its prefixes: [ann] and a number, and [a] and a number. *)
Theorem remove_ann_reads_the_number (n : Z) :
  remove_ann ("ann" +:+ Py.str n) = Some n
  /\ remove_ann ("a" +:+ Py.str n) = Some n.
Proof.
  unfold remove_ann. split.
  - change ("ann" +:+ Py.str n) with (String "a" ("nn" +:+ Py.str n)).
    cbn [Py.strip_prefix]. rewrite Ascii.eqb_refl. cbn [Py.strip_prefix].
    rewrite sub_prefix_app. apply int_str.
  - change ("a" +:+ Py.str n) with (String "a" (Py.str n)).
    cbn [Py.strip_prefix]. rewrite Ascii.eqb_refl. cbn [Py.strip_prefix].
    unfold Py.sub_prefix. rewrite str_starts_not_with_n. apply int_str.
Qed.

Lemma insert_by_key_sorted (x : Z * string) (l : list (Z * string)) :
  StronglySorted (fun a b => a.1 <= b.1) l ->
  StronglySorted (fun a b => a.1 <= b.1) (insert_by_key x l).
Proof.
  induction l as [|y l IH]; intros Hs; cbn [insert_by_key].
  - repeat constructor.
  - destruct (Z.leb_spec (fst x) (fst y)) as [Hle|Hgt].
    + constructor; [exact Hs|].
      apply StronglySorted_cons in Hs as [Hy _].
      constructor; [exact Hle|].
      eapply Forall_impl; [exact Hy|]. cbn. intros z Hz. lia.
    + apply StronglySorted_cons in Hs as [Hy Hs].
      constructor; [exact (IH Hs)|].
      rewrite insert_by_key_perm. constructor; [lia|exact Hy].
Qed.

Lemma with_keys_keys (l : list string) (kl : list (Z * string)) :
  with_keys l = Some kl ->
  Forall (fun kx => remove_ann kx.2 = Some kx.1) kl.
Proof.
  revert kl. induction l as [|x l IH]; intros kl; cbn [with_keys].
  - intros [= <-]. constructor.
  - destruct (remove_ann x) as [k|] eqn:E; [|discriminate].
    destruct (with_keys l) as [r|]; [|discriminate].
    intros [= <-]. constructor; [exact E|exact (IH r eq_refl)].
Qed.

(** X10.  The daughters that [sorted(..., key=remove_ann)] returns are the
    daughters it was given, in another order, and their numbers do not
    go down along the list. *)
Theorem sorted_daughters_ascend (daughters sorted : list string) :
  sorted_by_remove_ann daughters = Ok sorted ->
  sorted ≡ₚ daughters
  /\ exists numbers,
       Forall2 (fun id n => remove_ann id = Some n) sorted numbers
       /\ StronglySorted Z.le numbers.
Proof.
  intros Hsorted. split; [exact (sorted_by_remove_ann_perm _ _ Hsorted)|].
  revert Hsorted. unfold sorted_by_remove_ann.
  destruct (with_keys daughters) as [kl|] eqn:E; [|discriminate].
  intros [= <-].
  pose proof (with_keys_keys _ _ E) as Hkeys. clear E.
  exists (map fst (foldr insert_by_key [] kl)).
  assert (Forall (fun kx => remove_ann kx.2 = Some kx.1)
            (foldr insert_by_key [] kl)
          /\ StronglySorted (fun a b => a.1 <= b.1) (foldr insert_by_key [] kl))
    as [H1 H2].
  { induction Hkeys as [|kx kl Hkx Hkeys [IH1 IH2]]; cbn [foldr].
    - split; constructor.
    - split; [|exact (insert_by_key_sorted _ _ IH2)].
      rewrite insert_by_key_perm. constructor; assumption. }
  split.
  - clear H2. induction H1; cbn; constructor; assumption.
  - clear H1. induction H2 as [|kx l Hs IH Hle]; cbn; constructor; [exact IH|].
    rewrite Forall_fmap. exact Hle.
Qed.

Lemma sorted_daughters_ascend_witness :
  ["ann2"; "a9"; "ann10"] ≡ₚ ["ann10"; "ann2"; "a9"]
  /\ exists numbers,
       Forall2 (fun id n => remove_ann id = Some n) ["ann2"; "a9"; "ann10"] numbers
       /\ StronglySorted Z.le numbers.
Proof.
  exact (sorted_daughters_ascend ["ann10"; "ann2"; "a9"] ["ann2"; "a9"; "ann10"]
           eq_refl).
Defined.

(** X11.  The position that the second pass counts for an annotation is
    the place of its id in the list where the id is in the list, and the
    length of the list where it is not. *)
Theorem position_of_finds_the_id (id : string) (l : list string) :
  (id ∈ l -> l !! position_of id l = Some id)
  /\ (id ∉ l -> position_of id l = length l).
Proof.
  induction l as [|x l [IH1 IH2]]; cbn [position_of].
  - split; [intros H; apply elem_of_nil in H as []|reflexivity].
  - destruct (String.eqb_spec x id) as [->|Hne].
    + split; [reflexivity|]. intros H. exfalso. apply H.
      rewrite elem_of_cons. auto.
    + split.
      * intros H. apply elem_of_cons in H as [->|H]; [congruence|].
        exact (IH1 H).
      * intros H. apply not_elem_of_cons in H as [_ H].
        cbn [length]. rewrite (IH2 H). reflexivity.
Qed.

End DaughterOrder.

(** ** The first pass of the import *)

Section FirstPass.
Import Elan ImportWordtimes.

Context (refs : gmap string (list string * list string)).
Context (order : TimeOrder Z).

Lemma try_parent_found (parents : list Annotation) (annotation p : Annotation)
    (vs vs' : Vars) :
  p ∈ parents ->
  try_parent refs order annotation p vs = Ok vs' ->
  (annotation_to_parent_annotation vs !! annotation_id annotation = None
   \/ exists p, p ∈ parents
        /\ annotation_to_parent_annotation vs !! annotation_id annotation
           = Some (annotation_id p)
        /\ is_Some (refs !! annotation_value p)
        /\ (exists s e ps pe,
               get_start_time order annotation = Some s
               /\ get_end_time order annotation = Some e
               /\ get_start_time order p = Some ps
               /\ get_end_time order p = Some pe
               /\ ps <= s /\ e <= pe)
        /\ exists daughters,
             parent_annotation_to_daughter_annotations vs !! annotation_id p
             = Some daughters
             /\ annotation_id annotation ∈ daughters) ->
  (annotation_to_parent_annotation vs' !! annotation_id annotation = None
   \/ exists p, p ∈ parents
        /\ annotation_to_parent_annotation vs' !! annotation_id annotation
           = Some (annotation_id p)
        /\ is_Some (refs !! annotation_value p)
        /\ (exists s e ps pe,
               get_start_time order annotation = Some s
               /\ get_end_time order annotation = Some e
               /\ get_start_time order p = Some ps
               /\ get_end_time order p = Some pe
               /\ ps <= s /\ e <= pe)
        /\ exists daughters,
             parent_annotation_to_daughter_annotations vs' !! annotation_id p
             = Some daughters
             /\ annotation_id annotation ∈ daughters).
Proof.
  intros Hp. unfold try_parent.
  destruct (refs !! annotation_value p) as [times|] eqn:Hrefs.
  2:{ intros [= <-]. cbn. auto. }
  destruct (get_start_time order annotation) as [s|] eqn:Hs;
    cbn [compare_times rbind]; [|discriminate].
  destruct (get_start_time order p) as [ps|] eqn:Hps;
    cbn [compare_times rbind]; [|discriminate].
  destruct (s >=? ps) eqn:Hge.
  2:{ cbn [rbind]. intros [= <-]. cbn. auto. }
  destruct (get_end_time order annotation) as [e|] eqn:He;
    cbn [compare_times rbind]; [|discriminate].
  destruct (get_end_time order p) as [pe|] eqn:Hpe;
    cbn [compare_times rbind]; [|discriminate].
  destruct (e <=? pe) eqn:Hle.
  2:{ intros [= <-]. cbn. auto. }
  intros [= <-] _. cbn. right. exists p. split_and!.
  - exact Hp.
  - apply lookup_insert_eq.
  - rewrite Hrefs. eauto.
  - exists s, e, ps, pe. split_and!; auto; lia.
  - apply append_at_same.
Qed.

(** X12.  Where the first pass gets past an annotation that had no
    parent annotation yet, it has given it one of the annotations of the
    parent tier: one that has word times, that includes the annotation in
    time, and whose list of daughters has the annotation. *)
Theorem first_pass_finds_an_including_parent
    (parents : list Annotation) (annotation : Annotation) (vs vs' : Vars) :
  annotation_to_parent_annotation vs !! annotation_id annotation = None ->
  find_parent refs order parents annotation vs = Ok vs' ->
  exists p daughters s e ps pe,
    p ∈ parents
    /\ annotation_to_parent_annotation vs' !! annotation_id annotation
       = Some (annotation_id p)
    /\ is_Some (refs !! annotation_value p)
    /\ parent_annotation_to_daughter_annotations vs' !! annotation_id p
       = Some daughters
    /\ annotation_id annotation ∈ daughters
    /\ get_start_time order annotation = Some s
    /\ get_end_time order annotation = Some e
    /\ get_start_time order p = Some ps
    /\ get_end_time order p = Some pe
    /\ ps <= s /\ e <= pe.
Proof.
  intros Hnone. unfold find_parent.
  destruct (for_each (try_parent refs order annotation) parents vs)
    as [vs1| | |] eqn:Hloop; cbn [rbind]; try discriminate.
  pose proof (for_each_invariant
    (fun v =>
       annotation_to_parent_annotation v !! annotation_id annotation = None
       \/ exists p, p ∈ parents
            /\ annotation_to_parent_annotation v !! annotation_id annotation
               = Some (annotation_id p)
            /\ is_Some (refs !! annotation_value p)
            /\ (exists s e ps pe,
               get_start_time order annotation = Some s
               /\ get_end_time order annotation = Some e
               /\ get_start_time order p = Some ps
               /\ get_end_time order p = Some pe
               /\ ps <= s /\ e <= pe)
            /\ exists daughters,
                 parent_annotation_to_daughter_annotations v !! annotation_id p
                 = Some daughters
                 /\ annotation_id annotation ∈ daughters)
    (try_parent refs order annotation) parents vs vs1) as Hinv.
  cbv beta in Hinv.
  specialize (Hinv (fun x s1 s2 Hx H1 H2 => try_parent_found parents annotation x s1 s2 Hx H2 H1)
                   (or_introl Hnone) Hloop).
  destruct (annotation_to_parent_annotation vs1 !! annotation_id annotation)
    as [id|] eqn:Hid; [|discriminate].
  intros [= <-].
  destruct Hinv as [Hinv|(p & Hp & Hmap & Hrefs & Hin & daughters & Hd & Hmem)];
    [discriminate|].
  destruct Hin as (s & e & ps & pe & H1 & H2 & H3 & H4 & H5 & H6).
  exists p, daughters, s, e, ps, pe. rewrite Hid. split_and!; auto.
Qed.

Lemma try_parent_not_found (annotation p : Annotation) (vs : Vars) :
  (refs !! annotation_value p = None
   \/ exists s e ps pe,
        get_start_time order annotation = Some s
        /\ get_end_time order annotation = Some e
        /\ get_start_time order p = Some ps
        /\ get_end_time order p = Some pe
        /\ (s < ps \/ pe < e)) ->
  exists vs',
    try_parent refs order annotation p vs = Ok vs'
    /\ annotation_to_parent_annotation vs' = annotation_to_parent_annotation vs.
Proof.
  unfold try_parent.
  intros [Hrefs|(s & e & ps & pe & Hs & He & Hps & Hpe & Hout)].
  - rewrite Hrefs. eexists. split; reflexivity.
  - destruct (refs !! annotation_value p); [|eexists; split; reflexivity].
    rewrite Hs, He, Hps, Hpe. cbn [compare_times rbind].
    destruct (Z.geb_spec s ps); cbn [rbind].
    + destruct (Z.leb_spec e pe); [lia|]. eexists. split; reflexivity.
    + eexists. split; reflexivity.
Qed.

(** X13.  Where no annotation of the parent tier both has word times and
    includes the annotation in time, the first pass ends with the error
    that it cannot find the parent annotation. *)
Theorem first_pass_without_an_including_parent
    (parents : list Annotation) (annotation : Annotation) (vs : Vars) :
  annotation_to_parent_annotation vs !! annotation_id annotation = None ->
  Forall (fun p =>
            refs !! annotation_value p = None
            \/ exists s e ps pe,
                 get_start_time order annotation = Some s
                 /\ get_end_time order annotation = Some e
                 /\ get_start_time order p = Some ps
                 /\ get_end_time order p = Some pe
                 /\ (s < ps \/ pe < e)) parents ->
  find_parent refs order parents annotation vs
  = Raise ("Cannot find parent annotation of annotation "
           +:+ annotation_id annotation +:+ ".").
Proof.
  intros Hnone Hall. unfold find_parent.
  assert (exists vs1,
            for_each (try_parent refs order annotation) parents vs = Ok vs1
            /\ annotation_to_parent_annotation vs1
               = annotation_to_parent_annotation vs) as (vs1 & -> & Hsame).
  { clear Hnone. revert vs.
    induction Hall as [|p parents Hp Hall IH]; intros vs; cbn [for_each].
    - eexists. split; reflexivity.
    - destruct (try_parent_not_found annotation p vs Hp) as (v & -> & Hv).
      cbn [rbind]. destruct (IH v) as (vs1 & -> & H1).
      eexists. split; [reflexivity|congruence]. }
  cbn [rbind]. rewrite Hsame, Hnone. reflexivity.
Qed.

End FirstPass.

Lemma first_pass_finds_an_including_parent_witness :
  exists p daughters s e ps pe,
    p ∈ [ann "ann0" "u1" "ts1" "ts4"]
    /\ ImportWordtimes.annotation_to_parent_annotation
         (vars_after_first_pass u1_word_times one_word) !! "ann1"
       = Some (Elan.annotation_id p)
    /\ is_Some (u1_word_times !! Elan.annotation_value p)
    /\ ImportWordtimes.parent_annotation_to_daughter_annotations
         (vars_after_first_pass u1_word_times one_word) !! Elan.annotation_id p
       = Some daughters
    /\ "ann1" ∈ daughters
    /\ Elan.get_start_time (Elan.time_order one_word)
         (ann "ann1" "hello" "ts2" "ts3") = Some s
    /\ Elan.get_end_time (Elan.time_order one_word)
         (ann "ann1" "hello" "ts2" "ts3") = Some e
    /\ Elan.get_start_time (Elan.time_order one_word) p = Some ps
    /\ Elan.get_end_time (Elan.time_order one_word) p = Some pe
    /\ ps <= s /\ e <= pe.
Proof.
  apply (first_pass_finds_an_including_parent u1_word_times
           (Elan.time_order one_word) [ann "ann0" "u1" "ts1" "ts4"]
           (ann "ann1" "hello" "ts2" "ts3") ImportWordtimes.vars_init
           (vars_after_first_pass u1_word_times one_word)).
  - reflexivity.
  - vm_compute. reflexivity.
Defined.

Lemma first_pass_without_an_including_parent_witness :
  ImportWordtimes.find_parent ∅ (Elan.time_order two_words)
    [ann "ann0" "u1" "ts1" "ts6"] (ann "ann1" "hello" "ts2" "ts3")
    ImportWordtimes.vars_init
  = Raise "Cannot find parent annotation of annotation ann1.".
Proof.
  apply (first_pass_without_an_including_parent ∅ (Elan.time_order two_words)
           [ann "ann0" "u1" "ts1" "ts6"] (ann "ann1" "hello" "ts2" "ts3")
           ImportWordtimes.vars_init).
  - reflexivity.
  - constructor; [left; reflexivity|constructor].
Defined.

(** ** The first pass: more than one parent annotation *)

Section SeveralParents.
Import Elan ImportWordtimes.

Context (refs : gmap string (list string * list string)).
Context (order : TimeOrder Z).

Lemma try_parent_grows (annotation p : Annotation) (vs vs' : Vars)
    (k : string) (ds : list string) :
  try_parent refs order annotation p vs = Ok vs' ->
  parent_annotation_to_daughter_annotations vs !! k = Some ds ->
  exists ds', parent_annotation_to_daughter_annotations vs' !! k
              = Some (ds ++ ds').
Proof.
  unfold try_parent. intros Htry Hds.
  assert (exists ds', parent_annotation_to_daughter_annotations vs !! k
                      = Some (ds ++ ds')) as Hsame
    by (exists []; rewrite app_nil_r; exact Hds).
  revert Htry.
  repeat (first [case_match | case_result]; cbn in *; try discriminate).
  all: intros [= <-]; cbn; try exact Hsame.
  apply append_at_grows. exact Hds.
Qed.

Lemma try_parent_lists (annotation p : Annotation) (vs vs' : Vars)
    (s e ps pe : Z) :
  try_parent refs order annotation p vs = Ok vs' ->
  is_Some (refs !! annotation_value p) ->
  get_start_time order annotation = Some s ->
  get_end_time order annotation = Some e ->
  get_start_time order p = Some ps ->
  get_end_time order p = Some pe ->
  ps <= s -> e <= pe ->
  annotation_to_parent_annotation vs' !! annotation_id annotation
  = Some (annotation_id p)
  /\ exists ds, parent_annotation_to_daughter_annotations vs' !! annotation_id p
                = Some ds /\ annotation_id annotation ∈ ds.
Proof.
  unfold try_parent. intros Htry [times Hrefs] Hs He Hps Hpe Hle1 Hle2.
  revert Htry. rewrite Hrefs, Hs, He, Hps, Hpe. cbn [compare_times rbind].
  destruct (Z.geb_spec s ps); [|lia]. cbn [rbind].
  destruct (Z.leb_spec e pe); [|lia].
  intros [= <-]. cbn. split; [apply lookup_insert_eq|apply append_at_same].
Qed.

(** X14.  An annotation that lies within more than one parent annotation
    with word times is entered in the list of daughters of each of
    them. *)
Theorem every_including_parent_lists_the_annotation
    (parents : list Annotation) (annotation p : Annotation) (vs vs' : Vars)
    (s e ps pe : Z) :
  find_parent refs order parents annotation vs = Ok vs' ->
  p ∈ parents ->
  is_Some (refs !! annotation_value p) ->
  get_start_time order annotation = Some s ->
  get_end_time order annotation = Some e ->
  get_start_time order p = Some ps ->
  get_end_time order p = Some pe ->
  ps <= s -> e <= pe ->
  exists ds, parent_annotation_to_daughter_annotations vs' !! annotation_id p
             = Some ds /\ annotation_id annotation ∈ ds.
Proof.
  unfold find_parent.
  destruct (for_each (try_parent refs order annotation) parents vs)
    as [vs1| | |] eqn:Hloop; cbn [rbind]; try discriminate.
  case_match; [|discriminate]. intros [= <-] Hp Hrefs Hs He Hps Hpe Hle1 Hle2.
  revert vs Hloop. induction parents as [|q parents IH]; intros vs;
    [apply elem_of_nil in Hp as []|].
  cbn [for_each].
  destruct (try_parent refs order annotation q vs) as [vs2| | |] eqn:Htry;
    cbn [rbind]; try discriminate.
  intros Hrest.
  destruct (decide (q = p)) as [->|Hne].
  - destruct (try_parent_lists _ _ _ _ s e ps pe Htry) as [_ (ds & Hds & Hin)];
      auto.
    assert (exists ds', parent_annotation_to_daughter_annotations vs1
                          !! annotation_id p = Some (ds ++ ds')) as [ds' Hds'].
    { clear IH Hp Htry. revert vs2 ds Hds Hin Hrest.
      induction parents as [|r parents IH]; intros vs2 ds Hds Hin; cbn [for_each].
      - intros [= <-]. exists []. rewrite app_nil_r. exact Hds.
      - destruct (try_parent refs order annotation r vs2) as [vs3| | |] eqn:Hr;
          cbn [rbind]; try discriminate.
        intros Hrest.
        destruct (try_parent_grows _ _ _ _ _ _ Hr Hds) as [d1 Hd1].
        destruct (IH vs3 (ds ++ d1) Hd1) as [d2 Hd2];
          [rewrite elem_of_app; auto|exact Hrest|].
        exists (d1 ++ d2). rewrite app_assoc. exact Hd2. }
    exists (ds ++ ds'). split; [exact Hds'|]. rewrite elem_of_app. auto.
  - apply elem_of_cons in Hp as [->|Hp]; [congruence|].
    exact (IH Hp vs2 Hrest).
Qed.

(** X15.  The parent annotation of an annotation is the last annotation
    of the parent tier that has word times and includes it: the parent
    annotations that come after it and do not include the annotation, or
    have no word times, change nothing. *)
Theorem the_last_including_parent_is_the_parent
    (before after : list Annotation) (annotation p : Annotation)
    (vs vs1 : Vars) (s e ps pe : Z) :
  for_each (try_parent refs order annotation) before vs = Ok vs1 ->
  is_Some (refs !! annotation_value p) ->
  get_start_time order annotation = Some s ->
  get_end_time order annotation = Some e ->
  get_start_time order p = Some ps ->
  get_end_time order p = Some pe ->
  ps <= s -> e <= pe ->
  Forall (fun q =>
            refs !! annotation_value q = None
            \/ exists qs qe,
                 get_start_time order q = Some qs
                 /\ get_end_time order q = Some qe
                 /\ (s < qs \/ qe < e)) after ->
  exists vs',
    find_parent refs order (before ++ p :: after) annotation vs = Ok vs'
    /\ annotation_to_parent_annotation vs' !! annotation_id annotation
       = Some (annotation_id p).
Proof.
  intros Hbefore Hrefs Hs He Hps Hpe Hle1 Hle2 Hafter.
  unfold find_parent. rewrite for_each_app, Hbefore. cbn [rbind for_each].
  destruct (try_parent refs order annotation p vs1) as [vs2| | |] eqn:Htry.
  2-4: exfalso; revert Htry; unfold try_parent;
       destruct Hrefs as [times ->]; rewrite Hs, He, Hps, Hpe;
       cbn [compare_times rbind];
       destruct (s >=? ps); cbn [rbind]; discriminate.
  cbn [rbind].
  destruct (try_parent_lists _ _ _ _ s e ps pe Htry) as [Hparent _]; auto.
  assert (exists vs3,
            for_each (try_parent refs order annotation) after vs2 = Ok vs3
            /\ annotation_to_parent_annotation vs3
               = annotation_to_parent_annotation vs2) as (vs3 & -> & Hsame).
  { clear Htry Hparent. revert vs2.
    induction Hafter as [|q after Hq Hafter IH]; intros vs2; cbn [for_each].
    - eexists. split; reflexivity.
    - destruct (try_parent_not_found refs order annotation q vs2) as (v & -> & Hv).
      { destruct Hq as [Hq|(qs & qe & Hqs & Hqe & Hout)]; [auto|].
        right. exists s, e, qs, qe. auto. }
      cbn [rbind]. destruct (IH v) as (vs3 & -> & H3).
      eexists. split; [reflexivity|congruence]. }
  cbn [rbind]. rewrite Hsame, Hparent.
  exists vs3. split; [reflexivity|]. rewrite Hsame. exact Hparent.
Qed.

End SeveralParents.

(** ** What the import leaves alone *)

Section ImportFrame.
Import Elan ImportWordtimes.

Lemma set_time_value_ids (order : TimeOrder Z) (id : string) (v : Z) :
  map fst (set_time_value order id v) = map fst order.
Proof.
  induction order as [|[i w] order IH]; cbn; [reflexivity|].
  destruct (String.eqb i id); cbn; [reflexivity|]. rewrite IH. reflexivity.
Qed.

Lemma set_slot_frame (order order' : TimeOrder Z) (id : string) (v : Z) :
  set_slot order id v = Ok order' ->
  map fst order' = map fst order
  /\ forall x, x <> id -> get_time_value order' x = get_time_value order x.
Proof.
  unfold set_slot. destruct (has_time_slot order id); [|discriminate].
  intros [= <-]. split; [apply set_time_value_ids|].
  intros x Hx. apply get_set_other. congruence.
Qed.

Lemma get_annotations_in_store (store : gmap string Annotation)
    (ids : list string) (l : list Annotation) :
  get_annotations_by_ids store ids = Ok l ->
  forall a, a ∈ l -> exists k, store !! k = Some a.
Proof.
  revert l. induction ids as [|id ids IH]; intros l; cbn [get_annotations_by_ids].
  - intros [= <-] a Ha. apply elem_of_nil in Ha as [].
  - unfold get_annotation_by_id.
    destruct (store !! id) as [b|] eqn:Hb; cbn [attribute_error rbind];
      [|discriminate].
    destruct (get_annotations_by_ids store ids) as [r| | |]; cbn [rbind];
      try discriminate.
    intros [= <-] a Ha. apply elem_of_cons in Ha as [->|Ha]; [eauto|].
    exact (IH r eq_refl a Ha).
Qed.

Context (refs : gmap string (list string * list string)).
Context (store : gmap string Annotation).

Lemma try_parent_in_store (order : TimeOrder Z) (annotation p : Annotation)
    (vs vs' : Vars) :
  try_parent refs order annotation p vs = Ok vs' ->
  parent_annotation vs' = Some p.
Proof.
  unfold try_parent.
  repeat (first [case_match | case_result]; cbn in *; try discriminate).
  all: intros [= <-]; reflexivity.
Qed.

Lemma find_parent_in_store (order : TimeOrder Z) (parents : list Annotation)
    (annotation : Annotation) (vs vs' : Vars) :
  (forall p, p ∈ parents -> exists k, store !! k = Some p) ->
  (forall p, parent_annotation vs = Some p -> exists k, store !! k = Some p) ->
  find_parent refs order parents annotation vs = Ok vs' ->
  forall p, parent_annotation vs' = Some p -> exists k, store !! k = Some p.
Proof.
  intros Hparents Hvs. unfold find_parent.
  destruct (for_each (try_parent refs order annotation) parents vs)
    as [vs1| | |] eqn:Hloop; cbn [rbind]; try discriminate.
  case_match; [|discriminate]. intros [= <-].
  apply (for_each_invariant (fun v => forall p, parent_annotation v = Some p -> exists k, store !! k = Some p) _ _ _ _) with (3 := Hloop); [|exact Hvs].
  intros q s1 s2 Hq _ Htry p Hp.
  rewrite (try_parent_in_store _ _ _ _ _ Htry) in Hp.
  injection Hp as <-. auto.
Qed.

Lemma first_pass_in_store (ts : list Tier) (order : TimeOrder Z)
    (names : list string) (vs vs' : Vars) :
  (forall p, parent_annotation vs = Some p -> exists k, store !! k = Some p) ->
  for_each (find_parents_in_tier refs store ts order) names vs = Ok vs' ->
  forall p, parent_annotation vs' = Some p -> exists k, store !! k = Some p.
Proof.
  intros Hvs Hloop.
  apply (for_each_invariant (fun v => forall p, parent_annotation v = Some p -> exists k, store !! k = Some p) _ _ _ _) with (3 := Hloop); [|exact Hvs].
  intros name s1 s2 _ Hs1. unfold find_parents_in_tier.
  repeat (case_result; try discriminate).
  intros Hinner.
  apply (for_each_invariant (fun v => forall p, parent_annotation v = Some p -> exists k, store !! k = Some p) _ _ _ _) with (3 := Hinner); [|exact Hs1].
  intros b v1 v2 _ Hv1. apply find_parent_in_store; [|exact Hv1].
  eapply get_annotations_in_store. eassumption.
Qed.

Lemma set_word_times_frame (x : string) (a : Annotation) (vs vs' : Vars)
    (order order' : TimeOrder Z) :
  (forall k q, store !! k = Some q ->
     x <> start_time_slot q /\ x <> end_time_slot q) ->
  (exists k, store !! k = Some a) ->
  (forall p, parent_annotation vs = Some p -> exists k, store !! k = Some p) ->
  set_word_times refs store a (vs, order) = Ok (vs', order') ->
  (forall p, parent_annotation vs' = Some p -> exists k, store !! k = Some p)
  /\ map fst order' = map fst order
  /\ get_time_value order' x = get_time_value order x.
Proof.
  intros Hx [ka Ha] Hvs. unfold set_word_times, get_annotation_by_id.
  repeat (first [case_match | case_result]; cbn in *; try discriminate).
  all: intros [= <- <-].
  all: repeat match goal with
         | H : set_slot _ _ _ = Ok _ |- _ =>
             apply set_slot_frame in H as [? ?]
         | H : attribute_error _ = Ok _ |- _ =>
             unfold attribute_error in H
         | H : unset _ = Ok _ |- _ => unfold unset in H
         | H : match ?o with Some _ => _ | None => _ end = Ok _ |- _ =>
             destruct o eqn:?; [|discriminate]
         | H : Ok _ = Ok _ |- _ => injection H as ?; subst
         end.
  all: cbn in *.
  all: repeat match goal with
         | H : Some _ = Some _ |- _ => injection H as ?; subst
         end.
  all: (split; [first [exact Hvs | intros ? [= <-]; eauto]|]).
  all: try match goal with
         | H : forall p, Some _ = Some p -> _ |- _ =>
             destruct (H _ eq_refl) as [? ?]
         end.
  all: repeat match goal with
         | H : store !! _ = Some _ |- _ => apply Hx in H as [? ?]
         end.
  all: (split; [congruence|]).
  all: repeat match goal with
         | H : forall y, y <> ?i -> get_time_value ?o y = _ |- _ =>
             rewrite (H x) by assumption; clear H
         end; reflexivity.
Qed.

Lemma set_word_times_ids (a : Annotation) (vs vs' : Vars)
    (order order' : TimeOrder Z) :
  set_word_times refs store a (vs, order) = Ok (vs', order') ->
  map fst order' = map fst order.
Proof.
  unfold set_word_times, get_annotation_by_id.
  repeat (first [case_match | case_result]; cbn in *; try discriminate).
  all: intros [= <- <-].
  all: repeat match goal with
         | H : set_slot _ _ _ = Ok _ |- _ =>
             apply set_slot_frame in H as [? _]
         | H : match ?o with Some _ => _ | None => _ end = Ok _ |- _ =>
             destruct o eqn:?; [|discriminate]
         | H : Ok _ = Ok _ |- _ => injection H as ?; subst
         end.
  all: congruence.
Qed.

Lemma second_pass_ids (ts : list Tier) (names : list string)
    (st st' : Vars * TimeOrder Z) :
  for_each (set_word_times_in_tier refs store ts) names st = Ok st' ->
  map fst st'.2 = map fst st.2.
Proof.
  intros Hloop.
  apply (for_each_invariant (fun s => map fst s.2 = map fst st.2) _ _ _ _)
    with (3 := Hloop); [|reflexivity].
  intros name s1 s2 _ Hs1. unfold set_word_times_in_tier.
  repeat (case_result; try discriminate).
  intros Hinner.
  apply (for_each_invariant (fun s => map fst s.2 = map fst st.2) _ _ _ _)
    with (3 := Hinner); [|exact Hs1].
  intros b [v1 o1] [v2 o2] _ Hv1 Hb. cbn in *.
  rewrite (set_word_times_ids _ _ _ _ _ Hb). exact Hv1.
Qed.

Lemma second_pass_frame (x : string) (ts : list Tier) (names : list string)
    (st st' : Vars * TimeOrder Z) :
  (forall k q, store !! k = Some q ->
     x <> start_time_slot q /\ x <> end_time_slot q) ->
  (forall p, parent_annotation st.1 = Some p -> exists k, store !! k = Some p) ->
  for_each (set_word_times_in_tier refs store ts) names st = Ok st' ->
  get_time_value st'.2 x = get_time_value st.2 x.
Proof.
  intros Hx Hst Hloop.
  apply (for_each_invariant
           (fun s => (forall p, parent_annotation s.1 = Some p ->
                        exists k, store !! k = Some p)
                     /\ get_time_value s.2 x = get_time_value st.2 x) _ _ _ _)
    with (3 := Hloop); [|split; [exact Hst|reflexivity]].
  intros name s1 s2 _ Hs1. unfold set_word_times_in_tier.
  repeat (case_result; try discriminate).
  intros Hinner.
  apply (for_each_invariant
           (fun s => (forall p, parent_annotation s.1 = Some p ->
                        exists k, store !! k = Some p)
                     /\ get_time_value s.2 x = get_time_value st.2 x) _ _ _ _)
    with (3 := Hinner); [|exact Hs1].
  intros b [v1 o1] [v2 o2] Hb [Hv1 Ho1] Hset. cbn in *.
  destruct (set_word_times_frame x b v1 v2 o1 o2 Hx) as (H1 & _ & H2); auto.
  - eapply get_annotations_in_store; eassumption.
  - split; [exact H1|congruence].
Qed.

End ImportFrame.

Section ImportKeeps.
Import Elan ImportWordtimes.

(** X16.  The import gives time slots new time values and nothing more:
    the document that it writes has the time slots of the document that
    it read, with the same ids and in the same order, and the same
    linguistic types, tiers and annotations. *)
Theorem import_keeps_the_time_slots (args : Args) (elan_file out : ELANFile Z)
    (toolbox_file : list ToolboxLine) :
  import_wordtimes args elan_file toolbox_file = Ok out ->
  map fst (time_order out) = map fst (time_order elan_file)
  /\ linguistic_types out = linguistic_types elan_file
  /\ tiers out = tiers elan_file
  /\ annotation_store out = annotation_store elan_file.
Proof.
  unfold import_wordtimes.
  destruct (extractWordTimes args toolbox_file) as [refs| | |];
    cbn [rbind]; try discriminate.
  destruct (for_each _ _ vars_init) as [vs| | |]; cbn [rbind]; try discriminate.
  destruct (for_each _ _ (vs, _)) as [[vs' order']| | |] eqn:Hsecond;
    cbn [rbind]; try discriminate.
  intros [= <-]. cbn. split_and!; try reflexivity.
  exact (second_pass_ids _ _ _ _ _ _ Hsecond).
Qed.

(** X17.  A time slot in which no annotation of the document starts or
    ends has after the import the time value that it had before. *)
Theorem import_leaves_other_time_slots (args : Args)
    (elan_file out : ELANFile Z) (toolbox_file : list ToolboxLine) (x : string) :
  import_wordtimes args elan_file toolbox_file = Ok out ->
  (forall k a, annotation_store elan_file !! k = Some a ->
     x <> start_time_slot a /\ x <> end_time_slot a) ->
  get_time_value (time_order out) x = get_time_value (time_order elan_file) x.
Proof.
  unfold import_wordtimes.
  destruct (extractWordTimes args toolbox_file) as [refs| | |];
    cbn [rbind]; try discriminate.
  destruct (for_each _ _ vars_init) as [vs| | |] eqn:Hfirst;
    cbn [rbind]; try discriminate.
  destruct (for_each _ _ (vs, _)) as [[vs' order']| | |] eqn:Hsecond;
    cbn [rbind]; try discriminate.
  intros [= <-] Hx. cbn.
  apply (second_pass_frame _ _ x _ _ _ _ Hx) in Hsecond; [exact Hsecond|].
  cbn. eapply first_pass_in_store; [|exact Hfirst].
  cbn. discriminate.
Qed.

End ImportKeeps.

Lemma import_keeps_the_time_slots_witness :
  rmap (fun out => map fst (Elan.time_order out))
    (ImportWordtimes.import_wordtimes ImportWordtimes.default_args shared_slots
       toolbox_inside)
  = Ok ["ts1"; "ts2"; "ts3"; "ts4"].
Proof.
  destruct (ImportWordtimes.import_wordtimes ImportWordtimes.default_args
              shared_slots toolbox_inside) as [out| | |] eqn:E;
    try (vm_compute in E; discriminate E).
  cbn [rmap rbind].
  rewrite (proj1 (import_keeps_the_time_slots _ _ _ _ E)). reflexivity.
Defined.

Lemma import_leaves_other_time_slots_witness :
  rmap (fun out => Elan.get_time_value (Elan.time_order out) "ts0")
    (ImportWordtimes.import_wordtimes ImportWordtimes.default_args
       (unit_with_words ["ann1"]
          [ ("ann0", ann "ann0" "u1" "ts1" "ts4");
            ("ann1", ann "ann1" "hello" "ts2" "ts3") ]
          [ ("ts0", Some 7); ("ts1", Some 0); ("ts2", Some 0);
            ("ts3", Some 3000); ("ts4", Some 3000) ])
       toolbox_inside)
  = Ok (Some 7).
Proof.
  match goal with
  | |- rmap _ ?r = _ => destruct r as [out| | |] eqn:E;
                         try (vm_compute in E; discriminate E)
  end.
  cbn [rmap rbind].
  rewrite (import_leaves_other_time_slots _ _ _ _ "ts0" E); [reflexivity|].
  intros k a Ha.
  assert (a = ann "ann0" "u1" "ts1" "ts4" \/ a = ann "ann1" "hello" "ts2" "ts3")
    as [-> | ->].
  { cbn in Ha. apply lookup_insert_Some in Ha as [[_ <-]|[_ Ha]]; [auto|].
    apply lookup_insert_Some in Ha as [[_ <-]|[_ Ha]]; [auto|].
    rewrite lookup_empty in Ha. discriminate. }
  all: split; discriminate.
Defined.

(** * Further properties of the Disambiguator *)

(** ** The numbers of the time slots *)

Section TimeSlotNumbers.
Import Flexibilize.

(** X18.  The new id of a time slot reads back as the number of the old
    id plus the offset, so that shifting an id by one offset and the
    result by another is shifting the id by their sum. *)
Theorem shifted_ids_add_up (id id' : string) (j k : Z) :
  shifted id j = Ok id' ->
  remove_ts id' = rmap (fun n => n + j) (remove_ts id)
  /\ shifted id' k = shifted id (j + k).
Proof.
  unfold shifted, rmap.
  destruct (remove_ts id) as [n| | |]; cbn [rbind]; try discriminate.
  intros [= <-]. rewrite remove_ts_shifted. cbn [rbind].
  rewrite Z.add_assoc. split; reflexivity.
Qed.

Lemma shifted_ids_add_up_witness :
  remove_ts "ts7" = rmap (fun n => n + 2) (remove_ts "ts5")
  /\ shifted "ts7" 1 = shifted "ts5" (2 + 1).
Proof. exact (shifted_ids_add_up "ts5" "ts7" 2 1 eq_refl). Defined.

End TimeSlotNumbers.

(** ** The graph: the index of the time slots *)

Section Index.
Import Elan Flexibilize.

Lemma note_parent_grows (p : Annotation) (slots : gmap string (list Ref))
    (pts : gmap string string) (k : string) (l : list Ref) :
  slots !! k = Some l ->
  exists l', (note_parent p (slots, pts)).1 !! k = Some (l ++ l').
Proof.
  intros Hl. unfold note_parent.
  destruct (append_at_grows (start_time_slot p) k (annotation_id p, parent, start)
              slots l Hl) as [l1 H1].
  destruct (append_at _ _ slots !! end_time_slot p) as [e|] eqn:He; cbn [fst].
  - destruct (append_at_grows (end_time_slot p) k (annotation_id p, parent, end_)
                _ _ H1) as [l2 H2].
    exists (l1 ++ l2). rewrite app_assoc. exact H2.
  - exists l1. rewrite lookup_insert_ne; [exact H1|]. congruence.
Qed.

Lemma note_parent_notes (p : Annotation) (slots : gmap string (list Ref))
    (pts : gmap string string) :
  (exists l, (note_parent p (slots, pts)).1 !! start_time_slot p = Some l
             /\ (annotation_id p, parent, start) ∈ l)
  /\ (exists l, (note_parent p (slots, pts)).1 !! end_time_slot p = Some l
                /\ (annotation_id p, parent, end_) ∈ l).
Proof.
  unfold note_parent.
  destruct (append_at_same (start_time_slot p) (annotation_id p, parent, start)
              slots) as (l1 & H1 & Hin1).
  destruct (append_at _ _ slots !! end_time_slot p) as [e|] eqn:He; cbn [fst].
  - split; [|apply append_at_same].
    destruct (append_at_grows (end_time_slot p) _ (annotation_id p, parent, end_)
                _ _ H1) as [l2 H2].
    exists (l1 ++ l2). split; [exact H2|]. rewrite elem_of_app. auto.
  - split.
    + exists l1. split; [|exact Hin1].
      rewrite lookup_insert_ne; [exact H1|]. congruence.
    + eexists. rewrite lookup_insert_eq. split; [reflexivity|].
      rewrite elem_of_cons. auto.
Qed.

Lemma note_daughter_grows (a : Annotation) (slots : gmap string (list Ref))
    (k : string) (l : list Ref) :
  slots !! k = Some l ->
  exists l', note_daughter a slots !! k = Some (l ++ l').
Proof.
  intros Hl. unfold note_daughter.
  destruct (append_at_grows (start_time_slot a) k (annotation_id a, daughter, start)
              slots l Hl) as [l1 H1].
  destruct (append_at_grows (end_time_slot a) k (annotation_id a, daughter, end_)
              _ _ H1) as [l2 H2].
  exists (l1 ++ l2). rewrite app_assoc. exact H2.
Qed.

Lemma note_daughter_notes (a : Annotation) (slots : gmap string (list Ref)) :
  (exists l, note_daughter a slots !! start_time_slot a = Some l
             /\ (annotation_id a, daughter, start) ∈ l)
  /\ (exists l, note_daughter a slots !! end_time_slot a = Some l
                /\ (annotation_id a, daughter, end_) ∈ l).
Proof.
  unfold note_daughter. split; [|apply append_at_same].
  destruct (append_at_same (start_time_slot a) (annotation_id a, daughter, start)
              slots) as (l1 & H1 & Hin1).
  destruct (append_at_grows (end_time_slot a) _ (annotation_id a, daughter, end_)
              _ _ H1) as [l2 H2].
  exists (l1 ++ l2). split; [exact H2|]. rewrite elem_of_app. auto.
Qed.

Lemma note_parents_index (parents : list Annotation) :
  forall (slots : gmap string (list Ref)) (pts : gmap string string),
  let slots' := (foldl (fun st p => note_parent p st) (slots, pts) parents).1 in
  (forall k l, slots !! k = Some l -> exists l', slots' !! k = Some (l ++ l'))
  /\ (forall p part, p ∈ parents ->
        exists l, slots' !! time_slot_of part p = Some l
                  /\ (annotation_id p, parent, part) ∈ l).
Proof.
  induction parents as [|q parents IH]; intros slots pts; cbn [foldl].
  - split.
    + intros k l Hl. exists []. rewrite app_nil_r. exact Hl.
    + intros p part Hp. apply elem_of_nil in Hp as [].
  - destruct (note_parent q (slots, pts)) as [slots1 pts1] eqn:E.
    destruct (IH slots1 pts1) as [Hgrow Hnoted]. cbv zeta in *.
    assert (slots1 = (note_parent q (slots, pts)).1) as Hslots1
      by (rewrite E; reflexivity).
    split.
    + intros k l Hl.
      destruct (note_parent_grows q slots pts k l Hl) as [l1 H1].
      rewrite <- Hslots1 in H1.
      destruct (Hgrow _ _ H1) as [l2 H2].
      exists (l1 ++ l2). rewrite app_assoc. exact H2.
    + intros p part Hp. apply elem_of_cons in Hp as [->|Hp]; [|auto].
      destruct (note_parent_notes q slots pts) as [Hs He].
      rewrite <- Hslots1 in Hs, He.
      assert (exists l, slots1 !! time_slot_of part q = Some l
                        /\ (annotation_id q, parent, part) ∈ l)
        as (l & Hl & Hin) by (destruct part; assumption).
      destruct (Hgrow _ _ Hl) as [l2 H2].
      exists (l ++ l2). split; [exact H2|]. rewrite elem_of_app. auto.
Qed.

Lemma note_daughters_index (annotations : list Annotation) :
  forall (slots : gmap string (list Ref)),
  let slots' := foldl (fun sl a => note_daughter a sl) slots annotations in
  (forall k l, slots !! k = Some l -> exists l', slots' !! k = Some (l ++ l'))
  /\ (forall a part, a ∈ annotations ->
        exists l, slots' !! time_slot_of part a = Some l
                  /\ (annotation_id a, daughter, part) ∈ l).
Proof.
  induction annotations as [|b annotations IH]; intros slots; cbn [foldl].
  - split.
    + intros k l Hl. exists []. rewrite app_nil_r. exact Hl.
    + intros a part Ha. apply elem_of_nil in Ha as [].
  - destruct (IH (note_daughter b slots)) as [Hgrow Hnoted]. cbv zeta in *.
    split.
    + intros k l Hl.
      destruct (note_daughter_grows b slots k l Hl) as [l1 H1].
      destruct (Hgrow _ _ H1) as [l2 H2].
      exists (l1 ++ l2). rewrite app_assoc. exact H2.
    + intros a part Ha. apply elem_of_cons in Ha as [->|Ha]; [|auto].
      destruct (note_daughter_notes b slots) as [Hs He].
      assert (exists l, note_daughter b slots !! time_slot_of part b = Some l
                        /\ (annotation_id b, daughter, part) ∈ l)
        as (l & Hl & Hin) by (destruct part; assumption).
      destruct (Hgrow _ _ Hl) as [l2 H2].
      exists (l ++ l2). split; [exact H2|]. rewrite elem_of_app. auto.
Qed.

(** X19.  When the two loops over a tier and its parent tier are done,
    [time_slots_to_annotations] has a tuple for the start and a tuple for
    the end of every parent annotation and of every annotation of the
    tier, under the time slot in question, and the lists that it had
    before have only grown at their ends. *)
Theorem every_start_and_end_is_indexed
    (slots : gmap string (list Ref)) (parents annotations : list Annotation) :
  let slots' := (note_tier slots parents annotations).1 in
  (forall k l, slots !! k = Some l -> exists l', slots' !! k = Some (l ++ l'))
  /\ (forall p part, p ∈ parents ->
        exists l, slots' !! time_slot_of part p = Some l
                  /\ (annotation_id p, parent, part) ∈ l)
  /\ (forall a part, a ∈ annotations ->
        exists l, slots' !! time_slot_of part a = Some l
                  /\ (annotation_id a, daughter, part) ∈ l).
Proof.
  unfold note_tier.
  pose proof (note_parents_index parents slots ∅) as [Hgrow1 Hnoted1].
  destruct (foldl _ (slots, ∅) parents) as [slots1 pts] eqn:E. cbn [fst] in *.
  pose proof (note_daughters_index annotations slots1) as [Hgrow2 Hnoted2].
  cbv zeta in *. split_and!.
  - intros k l Hl. destruct (Hgrow1 _ _ Hl) as [l1 H1].
    destruct (Hgrow2 _ _ H1) as [l2 H2].
    exists (l1 ++ l2). rewrite app_assoc. exact H2.
  - intros p part Hp. destruct (Hnoted1 p part Hp) as (l & Hl & Hin).
    destruct (Hgrow2 _ _ Hl) as [l2 H2].
    exists (l ++ l2). split; [exact H2|]. rewrite elem_of_app. auto.
  - exact Hnoted2.
Qed.

End Index.

(** ** The graph: what the builder raises and what it leaves behind *)

Lemma get_annotations_raises (store : gmap string Elan.Annotation)
    (ids : list string) (msg : string) :
  Elan.get_annotations_by_ids store ids = Raise msg -> msg = "AttributeError".
Proof.
  induction ids as [|id ids IH]; cbn [Elan.get_annotations_by_ids];
    [discriminate|].
  unfold Elan.get_annotation_by_id.
  destruct (store !! id); cbn [attribute_error rbind].
  - destruct (Elan.get_annotations_by_ids store ids); cbn [rbind];
      try discriminate.
    intros [= <-]. apply IH. reflexivity.
  - intros [= <-]. reflexivity.
Qed.

Section GraphErrors.
Import Elan Flexibilize.

Lemma find_middle_parent_raises (pts pre : gmap string string)
    (a : Annotation) (g : Graph) (msg : string) :
  find_middle_parent pts pre a g = Raise msg ->
  msg = "Cannot identify parent annotation for middle daughter annotation "
        +:+ annotation_id a +:+ "."
  \/ msg = "Cannot determine parent annotation for middle daughter annotation "
           +:+ annotation_id a +:+ ".".
Proof.
  unfold find_middle_parent.
  repeat (case_match; try discriminate); intros [= <-]; auto.
Qed.

Lemma process_tier_raises (fuel : nat) (file : ELANFile Q) (tier_name : string)
    (g : Graph) (msg : string) :
  process_tier fuel file tier_name g = Raise msg ->
  msg = "AttributeError"
  \/ exists id,
       msg = "Cannot identify parent annotation for middle daughter annotation "
             +:+ id +:+ "."
       \/ msg = "Cannot determine parent annotation for middle daughter annotation "
                +:+ id +:+ ".".
Proof.
  unfold process_tier.
  destruct (get_tier_by_id (tiers file) tier_name) as [tier|];
    cbn [attribute_error rbind]; [|intros [= <-]; auto].
  destruct (get_annotations _ tier) as [annotations| |m|] eqn:Ha;
    cbn [rbind]; try discriminate.
  2:{ intros [= <-]. left. exact (get_annotations_raises _ _ _ Ha). }
  destruct (parent_tier_ref tier) as [parent_tier_name|];
    cbn [attribute_error rbind]; [|intros [= <-]; auto].
  destruct (get_tier_by_id (tiers file) parent_tier_name) as [parent_tier|];
    cbn [attribute_error rbind]; [|intros [= <-]; auto].
  destruct (get_annotations _ parent_tier) as [parent_annotations| |m|] eqn:Hp;
    cbn [rbind]; try discriminate.
  2:{ intros [= <-]. left. exact (get_annotations_raises _ _ _ Hp). }
  destruct (note_tier _ _ _) as [slots pts].
  destruct (for_each _ annotations (∅, _)) as [[pre pos]| |m|] eqn:Hfirst;
    cbn [rbind]; try discriminate.
  - intros Hmiddle. right.
    apply for_each_raises in Hmiddle as (a & g1 & _ & Hraise).
    exists (annotation_id a). exact (find_middle_parent_raises _ _ _ _ _ Hraise).
  - intros [= <-]. left.
    apply for_each_raises in Hfirst as (a & s1 & _ & Hraise).
    exact (find_first_daughter_raises _ _ _ _ _ _ _ Hraise).
Qed.

(** X20.  The graph builder raises an error where the document lacks a
    tier or an annotation that it asks for, and where it cannot identify
    or cannot determine the parent annotation of a middle daughter.  Its
    third error message, that it cannot find the preceding first daughter
    annotation, is never raised: the [while] loop before it ends only
    with a start time. *)
Theorem graph_builder_errors (fuel : nat) (file : ELANFile Q) (msg : string) :
  build_graph fuel file = Raise msg ->
  (msg = "AttributeError"
   \/ exists id,
        msg = "Cannot identify parent annotation for middle daughter annotation "
              +:+ id +:+ "."
        \/ msg = "Cannot determine parent annotation for middle daughter annotation "
                 +:+ id +:+ ".")
  /\ forall id,
       msg <> "Cannot find preceding first daughter annotation for annotation "
              +:+ id +:+ ".".
Proof.
  intros Hraise. unfold build_graph in Hraise.
  apply for_each_raises in Hraise as (tier_name & g & _ & Hraise).
  apply process_tier_raises in Hraise.
  split; [exact Hraise|].
  intros id ->.
  destruct Hraise as [H|(id' & [H|H])]; cbv [String.append] in H;
    discriminate H.
Qed.

End GraphErrors.

Lemma graph_builder_errors_witness :
  ("AttributeError" = "AttributeError"
   \/ exists id,
        "AttributeError"
        = "Cannot identify parent annotation for middle daughter annotation "
          +:+ id +:+ "."
        \/ "AttributeError"
           = "Cannot determine parent annotation for middle daughter annotation "
             +:+ id +:+ ".")
  /\ forall id,
       "AttributeError"
       <> "Cannot find preceding first daughter annotation for annotation "
          +:+ id +:+ ".".
Proof.
  exact (graph_builder_errors 10
           {| Elan.linguistic_types := toolbox_types;
              Elan.tiers := toolbox_tiers ["ann0"] ["ann1"];
              Elan.annotation_store := ∅;
              Elan.time_order := [] |}
           "AttributeError" eq_refl).
Defined.

(** ** The graph: parents, daughters and positions *)

Section GraphContents.
Import Elan Flexibilize.

Lemma adopt_linked (p x : string) (g : Graph) :
  (forall y q, annotation_to_parent_annotation g !! y = Some q ->
     exists ds, parent_annotation_to_daughter_annotations g !! q = Some ds
                /\ y ∈ ds) ->
  forall y q, annotation_to_parent_annotation (adopt p x g) !! y = Some q ->
    exists ds, parent_annotation_to_daughter_annotations (adopt p x g) !! q
               = Some ds /\ y ∈ ds.
Proof.
  intros Hg y q. cbn [adopt annotation_to_parent_annotation
                      parent_annotation_to_daughter_annotations].
  destruct (decide (x = y)) as [->|Hne].
  - rewrite lookup_insert_eq. intros [= <-]. apply append_at_same.
  - rewrite lookup_insert_ne by exact Hne. intros Hy.
    destruct (Hg _ _ Hy) as (ds & Hds & Hin).
    destruct (append_at_grows p q x _ _ Hds) as [l' Hl'].
    exists (ds ++ l'). split; [exact Hl'|]. rewrite elem_of_app. auto.
Qed.

Lemma adopt_keeps (p x : string) (g : Graph) (y : string) :
  is_Some (annotation_to_parent_annotation g !! y) ->
  is_Some (annotation_to_parent_annotation (adopt p x g) !! y).
Proof.
  cbn [adopt annotation_to_parent_annotation]. intros Hy.
  destruct (decide (x = y)) as [->|Hne].
  - rewrite lookup_insert_eq. eauto.
  - rewrite lookup_insert_ne by exact Hne. exact Hy.
Qed.

Lemma adopt_adopts (p x : string) (g : Graph) :
  is_Some (annotation_to_parent_annotation (adopt p x g) !! x).
Proof. cbn [adopt annotation_to_parent_annotation]. rewrite lookup_insert_eq. eauto. Qed.

(** The loop over the first and last daughters. *)
Lemma find_outer_parents (pts : gmap string string) (annotations : list Annotation) :
  forall g : Graph,
  let g' := foldl (fun g a => find_outer_parent pts a g) g annotations in
  daughter_positions g' = daughter_positions g
  /\ time_slots_to_annotations g' = time_slots_to_annotations g
  /\ (forall y, is_Some (annotation_to_parent_annotation g !! y) ->
        is_Some (annotation_to_parent_annotation g' !! y))
  /\ (forall a, a ∈ annotations ->
        is_Some (pts !! start_time_slot a) \/ is_Some (pts !! end_time_slot a) ->
        is_Some (annotation_to_parent_annotation g' !! annotation_id a))
  /\ ((forall y q, annotation_to_parent_annotation g !! y = Some q ->
         exists ds, parent_annotation_to_daughter_annotations g !! q = Some ds
                    /\ y ∈ ds) ->
      forall y q, annotation_to_parent_annotation g' !! y = Some q ->
        exists ds, parent_annotation_to_daughter_annotations g' !! q = Some ds
                   /\ y ∈ ds).
Proof.
  induction annotations as [|b annotations IH]; intros g; cbn [foldl].
  - split_and!; auto. intros a Ha. apply elem_of_nil in Ha as [].
  - destruct (IH (find_outer_parent pts b g)) as (Hpos & Hslots & Hkeep & Hfound & Hlink).
    cbv zeta in *.
    assert (daughter_positions (find_outer_parent pts b g) = daughter_positions g
            /\ time_slots_to_annotations (find_outer_parent pts b g)
               = time_slots_to_annotations g
            /\ (forall y, is_Some (annotation_to_parent_annotation g !! y) ->
                  is_Some (annotation_to_parent_annotation
                             (find_outer_parent pts b g) !! y))
            /\ (is_Some (pts !! start_time_slot b) \/ is_Some (pts !! end_time_slot b) ->
                is_Some (annotation_to_parent_annotation
                           (find_outer_parent pts b g) !! annotation_id b))
            /\ ((forall y q, annotation_to_parent_annotation g !! y = Some q ->
                   exists ds, parent_annotation_to_daughter_annotations g !! q = Some ds
                              /\ y ∈ ds) ->
                forall y q,
                  annotation_to_parent_annotation (find_outer_parent pts b g) !! y
                  = Some q ->
                  exists ds,
                    parent_annotation_to_daughter_annotations
                      (find_outer_parent pts b g) !! q = Some ds /\ y ∈ ds))
      as (Hpos1 & Hslots1 & Hkeep1 & Hfound1 & Hlink1).
    { unfold find_outer_parent.
      destruct (pts !! start_time_slot b) as [p|].
      - split_and!; [reflexivity|reflexivity|intros y; apply adopt_keeps|
                     intros _; apply adopt_adopts|apply adopt_linked].
      - destruct (pts !! end_time_slot b) as [p|].
        + split_and!; [reflexivity|reflexivity|intros y; apply adopt_keeps|
                       intros _; apply adopt_adopts|apply adopt_linked].
        + split_and!; auto. intros [[? [=]]|[? [=]]]. }
    split_and!.
    + congruence.
    + congruence.
    + auto.
    + intros a Ha Hpts. apply elem_of_cons in Ha as [->|Ha]; auto.
    + auto.
Qed.

(** The loop over the middle daughters. *)
Lemma find_middle_parents (pts pre : gmap string string)
    (annotations : list Annotation) :
  forall g g' : Graph,
  for_each (find_middle_parent pts pre) annotations g = Ok g' ->
  daughter_positions g' = daughter_positions g
  /\ time_slots_to_annotations g' = time_slots_to_annotations g
  /\ (forall y, is_Some (annotation_to_parent_annotation g !! y) ->
        is_Some (annotation_to_parent_annotation g' !! y))
  /\ (forall a, a ∈ annotations ->
        pts !! start_time_slot a = None -> pts !! end_time_slot a = None ->
        is_Some (annotation_to_parent_annotation g' !! annotation_id a))
  /\ ((forall y q, annotation_to_parent_annotation g !! y = Some q ->
         exists ds, parent_annotation_to_daughter_annotations g !! q = Some ds
                    /\ y ∈ ds) ->
      forall y q, annotation_to_parent_annotation g' !! y = Some q ->
        exists ds, parent_annotation_to_daughter_annotations g' !! q = Some ds
                   /\ y ∈ ds).
Proof.
  induction annotations as [|b annotations IH]; intros g g'; cbn [for_each].
  - intros [= <-]. split_and!; auto. intros a Ha. apply elem_of_nil in Ha as [].
  - destruct (find_middle_parent pts pre b g) as [g1| | |] eqn:E;
      cbn [rbind]; try discriminate.
    intros Hrest.
    destruct (IH _ _ Hrest) as (Hpos & Hslots & Hkeep & Hfound & Hlink).
    assert (daughter_positions g1 = daughter_positions g
            /\ time_slots_to_annotations g1 = time_slots_to_annotations g
            /\ (forall y, is_Some (annotation_to_parent_annotation g !! y) ->
                  is_Some (annotation_to_parent_annotation g1 !! y))
            /\ (pts !! start_time_slot b = None -> pts !! end_time_slot b = None ->
                is_Some (annotation_to_parent_annotation g1 !! annotation_id b))
            /\ ((forall y q, annotation_to_parent_annotation g !! y = Some q ->
                   exists ds, parent_annotation_to_daughter_annotations g !! q = Some ds
                              /\ y ∈ ds) ->
                forall y q, annotation_to_parent_annotation g1 !! y = Some q ->
                  exists ds, parent_annotation_to_daughter_annotations g1 !! q
                             = Some ds /\ y ∈ ds))
      as (Hpos1 & Hslots1 & Hkeep1 & Hfound1 & Hlink1).
    { revert E. unfold find_middle_parent.
      destruct (pts !! start_time_slot b) as [p|].
      { intros [= <-]. split_and!; auto. discriminate. }
      destruct (pts !! end_time_slot b) as [p|].
      { intros [= <-]. split_and!; auto. discriminate. }
      destruct (pre !! annotation_id b) as [first|]; [|discriminate].
      destruct (annotation_to_parent_annotation g !! first) as [p|];
        [|discriminate].
      intros [= <-].
      split_and!; [reflexivity|reflexivity|intros y; apply adopt_keeps|
                   intros _ _; apply adopt_adopts|apply adopt_linked]. }
    split_and!.
    + congruence.
    + congruence.
    + auto.
    + intros a Ha H1 H2. apply elem_of_cons in Ha as [->|Ha]; auto.
    + auto.
Qed.

(** The loop that looks for the preceding first daughters. *)
Lemma find_first_daughters (store : gmap string Annotation) (order : TimeOrder Q)
    (slots : gmap string (list Ref)) (fuel : nat) (annotations : list Annotation) :
  forall (pre pre' : gmap string string) (pos pos' : gmap string Z),
  for_each (find_first_daughter store order slots fuel) annotations (pre, pos)
  = Ok (pre', pos') ->
  (forall y, is_Some (pos !! y) -> is_Some (pos' !! y))
  /\ (forall a, a ∈ annotations -> is_Some (pos' !! annotation_id a)).
Proof.
  induction annotations as [|b annotations IH]; intros pre pre' pos pos';
    cbn [for_each].
  - intros [= <- <-]. split; [auto|].
    intros a Ha. apply elem_of_nil in Ha as [].
  - destruct (find_first_daughter store order slots fuel b (pre, pos))
      as [[pre1 pos1]| | |] eqn:E; cbn [rbind]; try discriminate.
    intros Hrest. destruct (IH _ _ _ _ Hrest) as [Hkeep Hfound].
    assert (pos1 = <[annotation_id b := (pos1 !!! annotation_id b : Z)]> pos
            /\ is_Some (pos1 !! annotation_id b)) as [Hpos1 Hb].
    { revert E. unfold find_first_daughter.
      destruct (walk_back _ _ _ fuel _) as [w| | |]; cbn [rbind];
        try discriminate.
      destruct (current_annotation_start_time w); [|discriminate].
      intros [= _ <-]. rewrite lookup_total_insert_eq, lookup_insert_eq. eauto. }
    split.
    + intros y Hy. apply Hkeep. rewrite Hpos1.
      destruct (decide (annotation_id b = y)) as [->|Hne].
      * rewrite lookup_insert_eq. eauto.
      * rewrite lookup_insert_ne by exact Hne. exact Hy.
    + intros a Ha. apply elem_of_cons in Ha as [->|Ha]; auto.
Qed.

(** X21.  When the graph builder is done with a tier, every annotation of
    the tier has a parent annotation in [annotation_to_parent_annotation]
    and a position in [daughter_positions]; the annotations that had one
    before have one still. *)
Theorem every_annotation_gets_a_parent
    (fuel : nat) (file : ELANFile Q) (tier_name : string) (g g' : Graph) :
  process_tier fuel file tier_name g = Ok g' ->
  exists tier annotations,
    get_tier_by_id (tiers file) tier_name = Some tier
    /\ get_annotations (annotation_store file) tier = Ok annotations
    /\ (forall a, a ∈ annotations ->
          is_Some (annotation_to_parent_annotation g' !! annotation_id a)
          /\ is_Some (daughter_positions g' !! annotation_id a))
    /\ (forall y, is_Some (annotation_to_parent_annotation g !! y) ->
          is_Some (annotation_to_parent_annotation g' !! y))
    /\ (forall y, is_Some (daughter_positions g !! y) ->
          is_Some (daughter_positions g' !! y)).
Proof.
  unfold process_tier.
  destruct (get_tier_by_id (tiers file) tier_name) as [tier|];
    cbn [attribute_error rbind]; [|discriminate].
  destruct (get_annotations _ tier) as [annotations| | |] eqn:Hanns;
    cbn [rbind]; try discriminate.
  destruct (parent_tier_ref tier) as [parent_tier_name|];
    cbn [attribute_error rbind]; [|discriminate].
  destruct (get_tier_by_id (tiers file) parent_tier_name) as [parent_tier|];
    cbn [attribute_error rbind]; [|discriminate].
  destruct (get_annotations _ parent_tier) as [parent_annotations| | |];
    cbn [rbind]; try discriminate.
  destruct (note_tier _ _ _) as [slots pts].
  destruct (for_each _ annotations (∅, _)) as [[pre pos]| | |] eqn:Hfirst;
    cbn [rbind]; try discriminate.
  intros Hmiddle.
  apply find_first_daughters in Hfirst as [Hposkeep Hpos].
  apply find_middle_parents in Hmiddle as (Hpos2 & _ & Hkeep2 & Hfound2 & _).
  match type of Hpos2 with
  | _ = daughter_positions (foldl _ ?g1 _) =>
      destruct (find_outer_parents pts annotations g1)
        as (Hpos1 & _ & Hkeep1 & Hfound1 & _)
  end.
  cbv zeta in *. cbn [daughter_positions annotation_to_parent_annotation] in *.
  exists tier, annotations. split_and!; [reflexivity|exact Hanns| | |].
  - intros a Ha. split.
    + destruct (pts !! start_time_slot a) as [p|] eqn:Hs.
      { apply Hkeep2, Hfound1; [exact Ha|]. rewrite Hs. eauto. }
      destruct (pts !! end_time_slot a) as [p|] eqn:He.
      { apply Hkeep2, Hfound1; [exact Ha|]. rewrite He. eauto. }
      apply Hfound2; assumption.
    + rewrite Hpos2, Hpos1. apply Hpos. exact Ha.
  - intros y Hy. apply Hkeep2, Hkeep1. exact Hy.
  - intros y Hy. rewrite Hpos2, Hpos1. apply Hposkeep. exact Hy.
Qed.

Lemma process_tier_linked
    (fuel : nat) (file : ELANFile Q) (tier_name : string) (g g' : Graph) :
  (forall y q, annotation_to_parent_annotation g !! y = Some q ->
     exists ds, parent_annotation_to_daughter_annotations g !! q = Some ds
                /\ y ∈ ds) ->
  process_tier fuel file tier_name g = Ok g' ->
  forall y q, annotation_to_parent_annotation g' !! y = Some q ->
    exists ds, parent_annotation_to_daughter_annotations g' !! q = Some ds
               /\ y ∈ ds.
Proof.
  intros Hg. unfold process_tier.
  destruct (get_tier_by_id (tiers file) tier_name) as [tier|];
    cbn [attribute_error rbind]; [|discriminate].
  destruct (get_annotations _ tier) as [annotations| | |];
    cbn [rbind]; try discriminate.
  destruct (parent_tier_ref tier) as [parent_tier_name|];
    cbn [attribute_error rbind]; [|discriminate].
  destruct (get_tier_by_id (tiers file) parent_tier_name) as [parent_tier|];
    cbn [attribute_error rbind]; [|discriminate].
  destruct (get_annotations _ parent_tier) as [parent_annotations| | |];
    cbn [rbind]; try discriminate.
  destruct (note_tier _ _ _) as [slots pts].
  destruct (for_each _ annotations (∅, _)) as [[pre pos]| | |];
    cbn [rbind]; try discriminate.
  intros Hmiddle.
  apply find_middle_parents in Hmiddle as (_ & _ & _ & _ & Hlink2).
  apply Hlink2.
  match goal with
  | |- context [foldl _ ?g1 ?l] =>
      destruct (find_outer_parents pts l g1) as (_ & _ & _ & _ & Hlink1)
  end.
  apply Hlink1. exact Hg.
Qed.

Lemma build_graph_linked (fuel : nat) (file : ELANFile Q) (g : Graph) :
  build_graph fuel file = Ok g ->
  forall y q, annotation_to_parent_annotation g !! y = Some q ->
    exists ds, parent_annotation_to_daughter_annotations g !! q = Some ds
               /\ y ∈ ds.
Proof.
  unfold build_graph. intros Hloop.
  apply (for_each_invariant
           (fun g => forall y q, annotation_to_parent_annotation g !! y = Some q ->
              exists ds, parent_annotation_to_daughter_annotations g !! q = Some ds
                         /\ y ∈ ds) _ _ _ _) with (3 := Hloop).
  - intros tier_name g1 g2 _ Hg1 Hstep.
    exact (process_tier_linked _ _ _ _ _ Hg1 Hstep).
  - intros y q. cbn. rewrite lookup_empty. discriminate.
Qed.

(** X22.  In the graph that the builder returns the two dictionaries fit
    together: the parent annotation that [annotation_to_parent_annotation]
    has for an annotation has that annotation among its daughters in
    [parent_annotation_to_daughter_annotations]. *)
Theorem parents_list_their_daughters (fuel : nat) (file : ELANFile Q) (g : Graph)
    (y q : string) :
  build_graph fuel file = Ok g ->
  annotation_to_parent_annotation g !! y = Some q ->
  exists ds, parent_annotation_to_daughter_annotations g !! q = Some ds
             /\ y ∈ ds.
Proof.
  unfold build_graph. intros Hloop. revert y q.
  apply (for_each_invariant
           (fun g => forall y q, annotation_to_parent_annotation g !! y = Some q ->
              exists ds, parent_annotation_to_daughter_annotations g !! q = Some ds
                         /\ y ∈ ds) _ _ _ _) with (3 := Hloop).
  - intros tier_name g1 g2 _ Hg1 Hstep.
    exact (process_tier_linked _ _ _ _ _ Hg1 Hstep).
  - intros y q. cbn. rewrite lookup_empty. discriminate.
Qed.

End GraphContents.

(** ** The original times, and the division by the number of daughters *)

Section OriginalTimes.
Import Elan Flexibilize.

Lemma save_times_timed (order : TimeOrder Q) (a : Annotation)
    (times : gmap string (option Q * option Q)) :
  (forall id s e, times !! id = Some (s, e) -> is_Some s \/ is_Some e) ->
  forall id s e, save_times order a times !! id = Some (s, e) ->
    is_Some s \/ is_Some e.
Proof.
  intros Htimes id s e. unfold save_times.
  destruct (get_start_time order a) as [qs|] eqn:Hs,
           (get_end_time order a) as [qe|] eqn:He;
    try (destruct (decide (annotation_id a = id)) as [->|Hne];
         [rewrite lookup_insert_eq; intros [= <- <-]; eauto
         |rewrite lookup_insert_ne by exact Hne; apply Htimes]).
  apply Htimes.
Qed.

Lemma save_all_times_timed (order : TimeOrder Q) (l : list Annotation) :
  forall times : gmap string (option Q * option Q),
  (forall id s e, times !! id = Some (s, e) -> is_Some s \/ is_Some e) ->
  forall id s e,
    foldl (fun acc a => save_times order a acc) times l !! id = Some (s, e) ->
    is_Some s \/ is_Some e.
Proof.
  induction l as [|b l IH]; intros times Htimes; cbn [foldl]; [exact Htimes|].
  apply IH. apply save_times_timed. exact Htimes.
Qed.

(** X23.  An annotation whose start and end both have no time value is
    left out of [original_annotation_times]: each entry has a start time
    or an end time. *)
Theorem original_times_are_times (file : ELANFile Q)
    (times : gmap string (option Q * option Q)) (id : string)
    (s e : option Q) :
  original_times file = Ok times ->
  times !! id = Some (s, e) ->
  is_Some s \/ is_Some e.
Proof.
  unfold original_times. intros Hloop. revert id s e.
  apply (for_each_invariant
           (fun t => forall id s e, t !! id = Some (s, e) -> is_Some s \/ is_Some e)
           _ _ _ _) with (3 := Hloop).
  - intros tier_name t1 t2 _ Ht1. unfold save_times_of_tier.
    repeat (case_result; try discriminate). intros [= <-].
    apply save_all_times_timed. exact Ht1.
  - intros id s e. rewrite lookup_empty. discriminate.
Qed.

Lemma original_times_raises (file : ELANFile Q) (msg : string) :
  original_times file = Raise msg -> msg = "AttributeError".
Proof.
  unfold original_times. intros Hraise.
  apply for_each_raises in Hraise as (tier_name & t & _ & Hraise).
  revert Hraise. unfold save_times_of_tier.
  destruct (get_tier_by_id (tiers file) tier_name) as [tier|];
    cbn [attribute_error rbind]; [|intros [= <-]; reflexivity].
  destruct (get_annotations _ tier) as [annotations| |m|] eqn:Ha;
    cbn [rbind]; try discriminate.
  intros [= <-]. exact (get_annotations_raises _ _ _ Ha).
Qed.

Lemma split_daughters_divides (g : Graph)
    (times : gmap string (option Q * option Q)) (slot : string * option Q)
    (first second : string) (st : Flex) :
  (forall y q, annotation_to_parent_annotation g !! y = Some q ->
     exists ds, parent_annotation_to_daughter_annotations g !! q = Some ds
                /\ y ∈ ds) ->
  split_daughters g times slot first second st <> Raise "ZeroDivisionError".
Proof.
  intros Hg. destruct slot as [id v]. unfold split_daughters.
  destruct (annotation_to_parent_annotation g !! first) as [p|] eqn:Hp;
    cbn [rbind]; [|discriminate].
  destruct (Hg _ _ Hp) as (ds & Hds & Hin).
  destruct (times !! p) as [[ps pe]|]; cbn [rbind]; [|discriminate].
  destruct pe; cbn [number rbind]; [|discriminate].
  destruct ps; cbn [number rbind]; [|discriminate].
  rewrite Hds. cbn [rbind].
  assert ((Z.of_nat (length ds) =? 0) = false) as ->.
  { apply Z.eqb_neq. destruct ds; [apply elem_of_nil in Hin as []|].
    cbn [length]. lia. }
  cbn [rbind]. unfold shifted, remove_ts, get_annotation_by_id, attribute_error.
  repeat (first [case_match | case_result]; cbn [rbind attribute_error];
          try discriminate).
  all: cbv [String.append]; discriminate.
Qed.

Lemma process_time_slot_divides (g : Graph)
    (times : gmap string (option Q * option Q)) (slot : string * option Q)
    (st : Flex) :
  (forall y q, annotation_to_parent_annotation g !! y = Some q ->
     exists ds, parent_annotation_to_daughter_annotations g !! q = Some ds
                /\ y ∈ ds) ->
  process_time_slot g times slot st <> Raise "ZeroDivisionError".
Proof.
  intros Hg. unfold process_time_slot.
  destruct (time_slots_to_annotations g !! slot.1) as [tuples|].
  2:{ unfold shifted, remove_ts.
      repeat (first [case_match | case_result]; cbn [rbind]; try discriminate). }
  destruct tuples as [|[[id0 role0] part0] [|[[id1 role1] part1] [|? ?]]];
    try discriminate.
  - destruct slot as [id v].
    unfold keep_single, shifted, remove_ts, get_annotation_by_id, attribute_error.
    repeat (first [case_match | case_result]; cbn [rbind attribute_error];
            try discriminate).
  - destruct (Role_eqb role0 parent && Role_eqb role1 daughter).
    + destruct slot as [id v].
      unfold split_parent_daughter, shifted, remove_ts, get_annotation_by_id, attribute_error.
      repeat (first [case_match | case_result]; cbn [rbind attribute_error];
              try discriminate).
    + destruct (_ && _); [|discriminate].
      apply split_daughters_divides. exact Hg.
Qed.

(** X24.  The script never divides by zero: the parent annotation whose
    length is divided by the number of its daughters is the parent of the
    first of the two annotations that share the time slot, and the graph
    builder has put that annotation among its daughters. *)
Theorem flexibilize_never_divides_by_zero (fuel : nat) (file : ELANFile Q)
    (msg : string) :
  flexibilize fuel file = Raise msg ->
  String.eqb msg "ZeroDivisionError" = false.
Proof.
  intros Hraise. apply String.eqb_neq. intros ->. revert Hraise.
  unfold flexibilize.
  destruct (original_times file) as [times| |m|] eqn:Htimes;
    cbn [rbind]; try discriminate.
  2:{ rewrite (original_times_raises _ _ Htimes). discriminate. }
  destruct (build_graph fuel file) as [g| |m|] eqn:Hgraph;
    cbn [rbind]; try discriminate.
  2:{ intros [= ->]. unfold build_graph in Hgraph.
      apply for_each_raises in Hgraph as (tier_name & g & _ & Hraise).
      apply process_tier_raises in Hraise as [H|(id & [H|H])];
        cbv [String.append] in H; discriminate H. }
  destruct (new_order g times _ _) as [st| |m|] eqn:Hloop;
    cbn [rbind]; try discriminate.
  intros [= ->]. unfold new_order in Hloop.
  apply for_each_raises in Hloop as (slot & st & _ & Hraise).
  revert Hraise. apply process_time_slot_divides.
  intros y q. exact (build_graph_linked fuel file g Hgraph y q).
Qed.

End OriginalTimes.

(** ** The loop over the time order: what it keeps *)

Section LoopKeeps.
Import Elan Flexibilize.

Lemma alter_start_keeps (id new : string) (store : gmap string Annotation)
    (k : string) :
  (fun a => (annotation_id a, annotation_value a))
    <$> alter (fun a => set_start_time_slot a new) id store !! k
  = (fun a => (annotation_id a, annotation_value a)) <$> store !! k.
Proof.
  rewrite lookup_alter. destruct (decide (id = k)) as [->|]; [|reflexivity].
  destruct (store !! k); reflexivity.
Qed.

Lemma alter_end_keeps (id new : string) (store : gmap string Annotation)
    (k : string) :
  (fun a => (annotation_id a, annotation_value a))
    <$> alter (fun a => set_end_time_slot a new) id store !! k
  = (fun a => (annotation_id a, annotation_value a)) <$> store !! k.
Proof.
  rewrite lookup_alter. destruct (decide (id = k)) as [->|]; [|reflexivity].
  destruct (store !! k); reflexivity.
Qed.

Lemma process_time_slot_keeps (g : Graph)
    (times : gmap string (option Q * option Q)) (slot : string * option Q)
    (st st' : Flex) (k : string) :
  process_time_slot g times slot st = Ok st' ->
  (fun a => (annotation_id a, annotation_value a)) <$> annotations st' !! k
  = (fun a => (annotation_id a, annotation_value a)) <$> annotations st !! k.
Proof.
  destruct slot as [id v].
  unfold process_time_slot, split_parent_daughter, split_daughters, keep_single.
  cbn [fst].
  repeat (first [case_match | case_result]; cbn [rbind]; try discriminate).
  all: intros [= <-]; cbn [annotations].
  all: repeat match goal with
         | H : Ok _ = Ok _ |- _ => injection H as <-
         end.
  all: try match goal with
         | |- context [rebind ?part _ _ _] => destruct part
         end.
  all: cbn [rebind]; rewrite ?alter_start_keeps, ?alter_end_keeps; reflexivity.
Qed.

Lemma process_time_slot_counts (g : Graph)
    (times : gmap string (option Q * option Q)) (slot : string * option Q)
    (st st' : Flex) :
  process_time_slot g times slot st = Ok st' ->
  offset st <= offset st'
  /\ length (new_time_order st')
     = (length (new_time_order st)
        + (if decide (is_Some (time_slots_to_annotations g !! slot.1))
           then 1 else 0)
        + Z.to_nat (offset st' - offset st))%nat.
Proof.
  destruct slot as [id v].
  unfold process_time_slot, split_parent_daughter, split_daughters, keep_single.
  cbn [fst].
  destruct (time_slots_to_annotations g !! id) as [tuples|] eqn:Htuples.
  2:{ case_result; try discriminate. intros [= <-]. cbn.
      rewrite decide_False by (intros [? [=]]).
      rewrite Z.sub_diag. split; [lia|]. cbn. lia. }
  rewrite decide_True by eauto.
  repeat (first [case_match | case_result]; cbn [rbind]; try discriminate).
  all: intros [= <-]; cbn [offset new_time_order]; unfold add_time_slot;
    rewrite ?length_app; cbn [length].
  all: split; [lia|].
  all: first [ replace (offset st + 1 - offset st) with 1 by lia
             | rewrite Z.sub_diag ].
  all: cbn; lia.
Qed.

(** X25.  The loop over the time order leaves the annotations of the
    document in place: each id has an annotation after the loop where it
    had one before, with the same id and the same value; the loop changes
    time slots only. *)
Theorem new_order_keeps_the_annotations (g : Graph)
    (times : gmap string (option Q * option Q)) (order : TimeOrder Q)
    (store : gmap string Annotation) (st : Flex) (k : string) :
  new_order g times order store = Ok st ->
  (fun a => (annotation_id a, annotation_value a)) <$> annotations st !! k
  = (fun a => (annotation_id a, annotation_value a)) <$> store !! k.
Proof.
  unfold new_order. intros Hloop.
  apply (for_each_invariant
           (fun s =>
              (fun a => (annotation_id a, annotation_value a)) <$> annotations s !! k
              = (fun a => (annotation_id a, annotation_value a)) <$> store !! k)
           _ _ _ _) with (3 := Hloop); [|reflexivity].
  intros slot s1 s2 _ Hs1 Hstep.
  rewrite (process_time_slot_keeps _ _ _ _ _ k Hstep). exact Hs1.
Qed.

(** X26.  The new time order has one time slot for each time slot of the
    original time order that [time_slots_to_annotations] knows, and one
    more for each time that the offset was raised: a time slot that no
    annotation refers to adds nothing, a time slot that is split adds
    two. *)
Theorem new_order_counts (g : Graph)
    (times : gmap string (option Q * option Q)) (order : TimeOrder Q)
    (store : gmap string Annotation) (st : Flex) :
  new_order g times order store = Ok st ->
  0 <= offset st
  /\ length (new_time_order st)
     = (length (filter (fun slot => is_Some (time_slots_to_annotations g !! slot.1))
                  order)
        + Z.to_nat (offset st))%nat.
Proof.
  unfold new_order.
  assert (forall l s s',
            for_each (process_time_slot g times) l s = Ok s' ->
            offset s <= offset s'
            /\ length (new_time_order s')
               = (length (new_time_order s)
                  + length (filter (fun slot =>
                              is_Some (time_slots_to_annotations g !! slot.1)) l)
                  + Z.to_nat (offset s' - offset s))%nat) as Hgen.
  { induction l as [|slot l IH]; intros s s'; cbn [for_each].
    - intros [= <-]. rewrite Z.sub_diag. cbn. lia.
    - destruct (process_time_slot g times slot s) as [s1| | |] eqn:E;
        cbn [rbind]; try discriminate.
      intros Hrest. apply IH in Hrest as [Hle Hlen].
      apply process_time_slot_counts in E as [Hle1 Hlen1].
      split; [lia|]. rewrite Hlen, Hlen1, filter_cons.
      destruct (decide (is_Some _)); cbn [length];
        set (added := length (filter _ l));
        set (before := length (new_time_order s)); lia. }
  intros Hloop. apply Hgen in Hloop as [Hle Hlen].
  cbn [flex_init offset new_time_order length] in *.
  rewrite Z.sub_0_r in Hlen. split; [exact Hle|exact Hlen].
Qed.

End LoopKeeps.

(** ** The loop over the time order: the time slots it accepts *)

Section AcceptedSlots.
Import Elan Flexibilize.

(** X27.  The loop gets past a time slot that annotations refer to in
    three cases only: one parent annotation starts or ends there; a
    parent annotation and then a daughter annotation both start or both
    end there; a daughter annotation ends and then a daughter annotation
    starts there.  Every other list of tuples ends the run. *)
Theorem accepted_time_slots (g : Graph)
    (times : gmap string (option Q * option Q)) (slot : string * option Q)
    (st st' : Flex) (tuples : list Ref) :
  process_time_slot g times slot st = Ok st' ->
  time_slots_to_annotations g !! slot.1 = Some tuples ->
  (exists id part, tuples = [(id, parent, part)])
  \/ (exists p d part, tuples = [(p, parent, part); (d, daughter, part)])
  \/ (exists a b, tuples = [(a, daughter, end_); (b, daughter, start)]).
Proof.
  intros Hrun Htuples. revert Hrun. unfold process_time_slot.
  rewrite Htuples. destruct slot as [id v].
  destruct tuples as [|[[id0 role0] part0] [|[[id1 role1] part1] [|? ?]]];
    try discriminate.
  - unfold keep_single. destruct role0; [|discriminate]. eauto.
  - destruct role0, role1, part0, part1; cbn [Role_eqb Part_eqb andb];
      try discriminate; eauto 6.
    all: unfold split_parent_daughter;
      repeat (case_result; try discriminate).
Qed.

End AcceptedSlots.

(** ** The properties at work on the documents *)

Lemma position_of_finds_the_id_witness :
  ["ann1"; "ann2"] !! ImportWordtimes.position_of "ann2" ["ann1"; "ann2"]
  = Some "ann2".
Proof.
  apply (proj1 (position_of_finds_the_id "ann2" ["ann1"; "ann2"])).
  rewrite !elem_of_cons. auto.
Defined.

Lemma every_start_and_end_is_indexed_witness :
  exists l,
    (Flexibilize.note_tier ∅ [ann "ann0" "u1" "ts1" "ts3"]
       [ann "ann1" "hello" "ts1" "ts2"; ann "ann2" "world" "ts2" "ts3"]).1
      !! "ts2" = Some l
    /\ ("ann1", Flexibilize.daughter, Flexibilize.end_) ∈ l.
Proof.
  apply (proj2 (proj2 (every_start_and_end_is_indexed ∅
           [ann "ann0" "u1" "ts1" "ts3"]
           [ann "ann1" "hello" "ts1" "ts2"; ann "ann2" "world" "ts2" "ts3"]))
         (ann "ann1" "hello" "ts1" "ts2") Flexibilize.end_).
  rewrite !elem_of_cons. auto.
Defined.

Lemma every_annotation_gets_a_parent_witness :
  exists tier annotations,
    Elan.get_tier_by_id (Elan.tiers scenario) "t@A" = Some tier
    /\ Elan.get_annotations (Elan.annotation_store scenario) tier = Ok annotations
    /\ (forall a, a ∈ annotations ->
          is_Some (Flexibilize.annotation_to_parent_annotation scenario_graph
                     !! Elan.annotation_id a)
          /\ is_Some (Flexibilize.daughter_positions scenario_graph
                        !! Elan.annotation_id a))
    /\ (forall y, is_Some (Flexibilize.annotation_to_parent_annotation
                             Flexibilize.graph_init !! y) ->
          is_Some (Flexibilize.annotation_to_parent_annotation scenario_graph !! y))
    /\ (forall y, is_Some (Flexibilize.daughter_positions
                             Flexibilize.graph_init !! y) ->
          is_Some (Flexibilize.daughter_positions scenario_graph !! y)).
Proof.
  apply (every_annotation_gets_a_parent 10 scenario "t@A" Flexibilize.graph_init
           scenario_graph).
  vm_compute. reflexivity.
Defined.

Lemma parents_list_their_daughters_witness :
  exists ds,
    Flexibilize.parent_annotation_to_daughter_annotations scenario_graph !! "ann0"
    = Some ds
    /\ "ann1" ∈ ds.
Proof.
  apply (parents_list_their_daughters 10 scenario scenario_graph "ann1" "ann0").
  - vm_compute. reflexivity.
  - vm_compute. reflexivity.
Defined.

Lemma new_order_keeps_the_annotations_witness :
  (fun a => (Elan.annotation_id a, Elan.annotation_value a))
    <$> Flexibilize.annotations scenario_flex !! "ann1"
  = (fun a => (Elan.annotation_id a, Elan.annotation_value a))
      <$> Elan.annotation_store scenario !! "ann1".
Proof.
  apply (new_order_keeps_the_annotations scenario_graph scenario_times
           (Elan.time_order scenario)).
  vm_compute. reflexivity.
Defined.

Lemma new_order_counts_witness :
  0 <= Flexibilize.offset scenario_flex
  /\ length (Flexibilize.new_time_order scenario_flex)
     = (length (filter (fun slot =>
                          is_Some (Flexibilize.time_slots_to_annotations
                                     scenario_graph !! slot.1))
                  (Elan.time_order scenario))
        + Z.to_nat (Flexibilize.offset scenario_flex))%nat.
Proof.
  apply (new_order_counts scenario_graph scenario_times
           (Elan.time_order scenario) (Elan.annotation_store scenario)).
  vm_compute. reflexivity.
Defined.

Lemma flexibilize_never_divides_by_zero_witness :
  Flexibilize.flexibilize 10
    {| Elan.linguistic_types := toolbox_types;
       Elan.tiers := toolbox_tiers ["ann0"] ["ann1"];
       Elan.annotation_store := ∅;
       Elan.time_order := [] |}
  = Raise "AttributeError"
  /\ String.eqb "AttributeError" "ZeroDivisionError" = false.
Proof.
  split; [reflexivity|].
  exact (flexibilize_never_divides_by_zero 10
           {| Elan.linguistic_types := toolbox_types;
              Elan.tiers := toolbox_tiers ["ann0"] ["ann1"];
              Elan.annotation_store := ∅;
              Elan.time_order := [] |}
           "AttributeError" eq_refl).
Defined.

Lemma original_times_are_times_witness :
  is_Some (Some 1000%Q) \/ is_Some (Some 5000%Q).
Proof.
  apply (original_times_are_times scenario scenario_times "ann0").
  - vm_compute. reflexivity.
  - vm_compute. reflexivity.
Defined.

Lemma every_including_parent_lists_the_annotation_witness :
  exists ds,
    ImportWordtimes.parent_annotation_to_daughter_annotations
      (vars_after_first_pass u1_word_times two_words) !! "ann0" = Some ds
    /\ "ann2" ∈ ds.
Proof.
  apply (every_including_parent_lists_the_annotation u1_word_times
           (Elan.time_order two_words) [ann "ann0" "u1" "ts1" "ts6"]
           (ann "ann2" "world" "ts4" "ts5") (ann "ann0" "u1" "ts1" "ts6")
           (match ImportWordtimes.find_parent u1_word_times
                    (Elan.time_order two_words) [ann "ann0" "u1" "ts1" "ts6"]
                    (ann "ann1" "hello" "ts2" "ts3") ImportWordtimes.vars_init with
            | Ok vs => vs
            | _ => ImportWordtimes.vars_init
            end)
           (vars_after_first_pass u1_word_times two_words)
           1500 1800 1000 1800).
  - vm_compute. reflexivity.
  - rewrite elem_of_cons. auto.
  - vm_compute. eauto.
  - reflexivity.
  - reflexivity.
  - reflexivity.
  - reflexivity.
  - lia.
  - lia.
Defined.

Lemma the_last_including_parent_is_the_parent_witness :
  exists vs',
    ImportWordtimes.find_parent u1_word_times (Elan.time_order two_words)
      ([] ++ ann "ann0" "u1" "ts1" "ts6" :: [ann "ann9" "u2" "ts5" "ts6"])
      (ann "ann1" "hello" "ts2" "ts3") ImportWordtimes.vars_init = Ok vs'
    /\ ImportWordtimes.annotation_to_parent_annotation vs' !! "ann1" = Some "ann0".
Proof.
  apply (the_last_including_parent_is_the_parent u1_word_times
           (Elan.time_order two_words) [] [ann "ann9" "u2" "ts5" "ts6"]
           (ann "ann1" "hello" "ts2" "ts3") (ann "ann0" "u1" "ts1" "ts6")
           ImportWordtimes.vars_init ImportWordtimes.vars_init
           1000 1500 1000 1800).
  - reflexivity.
  - vm_compute. eauto.
  - reflexivity.
  - reflexivity.
  - reflexivity.
  - reflexivity.
  - lia.
  - lia.
  - constructor; [left; vm_compute; reflexivity|constructor].
Defined.

Lemma accepted_time_slots_witness :
  (exists id part, [("ann0", Flexibilize.parent, Flexibilize.start);
                    ("ann1", Flexibilize.daughter, Flexibilize.start)]
                   = [(id, Flexibilize.parent, part)])
  \/ (exists p d part,
        [("ann0", Flexibilize.parent, Flexibilize.start);
         ("ann1", Flexibilize.daughter, Flexibilize.start)]
        = [(p, Flexibilize.parent, part); (d, Flexibilize.daughter, part)])
  \/ (exists a b,
        [("ann0", Flexibilize.parent, Flexibilize.start);
         ("ann1", Flexibilize.daughter, Flexibilize.start)]
        = [(a, Flexibilize.daughter, Flexibilize.end_);
           (b, Flexibilize.daughter, Flexibilize.start)]).
Proof.
  apply (accepted_time_slots scenario_graph scenario_times ("ts1", Some 1000%Q)
           (Flexibilize.flex_init (Elan.annotation_store scenario))
           (match Flexibilize.process_time_slot scenario_graph scenario_times
                    ("ts1", Some 1000%Q)
                    (Flexibilize.flex_init (Elan.annotation_store scenario)) with
            | Ok st => st
            | _ => Flexibilize.flex_init ∅
            end)).
  - vm_compute. reflexivity.
  - vm_compute. reflexivity.
Defined.
